(** * Filtered vmap / pmap wrappers of [equinox/vmap_pmap.py]

    A shallow embedding of the axis resolver, the batch-map wrapper
    ([_VmapWrapper]), the parallel-map wrapper ([_PmapWrapper]) with its
    compiled-entry cache, and the two lifting entry points ([filter_vmap],
    [filter_pmap]).

    Python values are first-order: a PyTree is a [pytree], its leaves are
    [atom]s.  Arrays are represented by their shape and dtype, which is all the
    wrappers ever look at (and all that exists under [jax] tracing).  Function
    objects are leaves compared by identity; what they compute is given by a
    heap of function objects, a parameter of the development.  Exceptions are
    values of [exn], and fallible code returns a [result]. *)

From Stdlib Require Import String ZArith Bool Arith Lia List.
Import ListNotations.

Set Implicit Arguments.
Local Open Scope string_scope.
Local Open Scope list_scope.
Local Open Scope nat_scope.
Set Warnings "-register-all".

(* ================================================================= *)
(** ** Exceptions and results *)

Inductive exn : Type :=
| ValueError (msg : string)
| RuntimeError (msg : string)
| TypeError (msg : string)
| AssertionError.

Inductive result (A : Type) : Type :=
| Ok (a : A)
| Raise (e : exn).

Arguments Ok {A} a.
Arguments Raise {A} e.

Definition bind {A B : Type} (m : result A) (k : A -> result B) : result B :=
  match m with
  | Ok a => k a
  | Raise e => Raise e
  end.

Notation "x <- m ;; k" := (bind m (fun x => k))
  (at level 61, m at next level, right associativity).
Notation "' p <- m ;; k" := (bind m (fun x => let p := x in k))
  (at level 61, p pattern, m at next level, right associativity).

Definition is_value_error (e : exn) : bool :=
  match e with ValueError _ => true | _ => false end.

Definition raises {A : Type} (r : result A) : Prop :=
  exists e, r = Raise e.

Section ListM.
Context {A B C : Type}.

  (** [[f(x) for x in l]], stopping at the first exception. *)
Definition mapM (f : A -> result B) : list A -> result (list B) :=
    fix go (l : list A) : result (list B) :=
      match l with
      | [] => Ok []
      | x :: r => y <- f x ;; ys <- go r ;; Ok (y :: ys)
      end.

  (** [[f(x, y) for x, y in zip(l1, l2)]], stopping at the first exception. *)
Definition zipM (f : A -> B -> result C) : list A -> list B -> result (list C) :=
    fix go (l1 : list A) (l2 : list B) : result (list C) :=
      match l1, l2 with
      | x :: r1, y :: r2 => z <- f x y ;; zs <- go r1 r2 ;; Ok (z :: zs)
      | _, _ => Ok []
      end.

(** [[f(x, y) for x, y in zip(l1, l2)]] for a function that cannot fail. *)
Definition zip_with (f : A -> B -> C) : list A -> list B -> list C :=
    fix go (l1 : list A) (l2 : list B) : list C :=
      match l1, l2 with
      | x :: r1, y :: r2 => f x y :: go r1 r2
      | _, _ => []
      end.

(** [[f(x, *col) for x, *col in zip(l, *cols)]]: the [i]-th call receives the
    [i]-th element of [l] and the [i]-th element of every list of [cols]
    ([d] where a list is too short). *)
Definition mapM_cols (f : A -> list B -> result C) (d : B)
  : list A -> list (list B) -> result (list C) :=
    fix go (l : list A) (cols : list (list B)) : result (list C) :=
      match l with
      | [] => Ok []
      | x :: r =>
          y <- f x (map (hd d) cols) ;;
          ys <- go r (map (@tl B) cols) ;;
          Ok (y :: ys)
      end.

(** [[f(x) for x in l]] for an [f] that consumes from a supply [s] and may
    run out of it. *)
Definition mapS {S : Type} (f : A -> S -> option (B * S))
  : list A -> S -> option (list B * S) :=
    fix go (l : list A) (s : S) : option (list B * S) :=
      match l with
      | [] => Some ([], s)
      | x :: r =>
          match f x s with
          | Some (y, s') =>
              match go r s' with
              | Some (ys, s'') => Some (y :: ys, s'')
              | None => None
              end
          | None => None
          end
      end.

Definition forall2b (f : A -> B -> bool) : list A -> list B -> bool :=
    fix go (l1 : list A) (l2 : list B) : bool :=
      match l1, l2 with
      | [], [] => true
      | x :: r1, y :: r2 => f x y && go r1 r2
      | _, _ => false
      end.
End ListM.

(* ================================================================= *)
(** ** Python values *)

(** Abstract value of an array: [x.shape] and [x.dtype]. *)
Record aval : Type := mk_aval { shape : list nat; dtype : string }.

Inductive atom : Type :=
| AInt (z : Z)            (* int *)
| ABool (b : bool)        (* bool, a subclass of int *)
| AStr (s : string)       (* str *)
| AArray (a : aval)       (* JAX or NumPy array *)
| AStruct (a : aval)      (* jax.ShapeDtypeStruct *)
| AIfArray (axis : Z)     (* if_array(axis), a frozen dataclass, not a pytree *)
| AFun (id : nat)         (* function object, compared by identity *)
| AObj (id : nat).        (* any other object, compared by identity *)

(** Container kinds registered as PyTree nodes. *)
Inductive kind : Type :=
| KTuple
| KList
| KDict (keys : list string).

(** A Python object seen as a PyTree.  [None] is its own constructor: for
    [jax.tree_util] it is a node without children, unless the traversal is
    given [is_leaf=_is_none]. *)
Inductive pytree : Type :=
| Leaf (a : atom)
| PNone
| PNode (k : kind) (ts : list pytree).

Section PytreeInd.
Variable P : pytree -> Prop.
Hypothesis HLeaf : forall a, P (Leaf a).
Hypothesis HNone : P PNone.
Hypothesis HNode : forall k ts, Forall P ts -> P (PNode k ts).

Fixpoint pytree_ind' (t : pytree) : P t :=
    match t with
    | Leaf a => HLeaf a
    | PNone => HNone
    | PNode k ts =>
        HNode k
          ((fix go (l : list pytree) : Forall P l :=
              match l with
              | [] => Forall_nil P
              | x :: r => Forall_cons x (pytree_ind' x) (go r)
              end) ts)
    end.
End PytreeInd.

Definition aval_eq_dec (x y : aval) : {x = y} + {x <> y}.
Proof.
  decide equality; [apply string_dec | apply (list_eq_dec Nat.eq_dec)].
Defined.

Definition atom_eq_dec (x y : atom) : {x = y} + {x <> y}.
Proof.
  decide equality;
    first [apply Z.eq_dec | apply Bool.bool_dec | apply string_dec
          | apply aval_eq_dec | apply Nat.eq_dec].
Defined.

Definition kind_eq_dec (x y : kind) : {x = y} + {x <> y}.
Proof.
  decide equality. apply (list_eq_dec string_dec).
Defined.

Fixpoint pytree_eq_dec (x y : pytree) {struct x} : {x = y} + {x <> y}.
Proof.
  decide equality.
  - apply atom_eq_dec.
  - apply (list_eq_dec pytree_eq_dec).
  - apply kind_eq_dec.
Defined.

Definition kind_eqb (k1 k2 : kind) : bool :=
  if kind_eq_dec k1 k2 then true else false.

Definition TupleOf (ts : list pytree) : pytree := PNode KTuple ts.

(** [x is None] *)
Definition _is_none (x : pytree) : bool :=
  match x with PNone => true | _ => false end.

(** The integer that [x] denotes when [isinstance(x, int)] ([True == 1]). *)
Definition as_int (x : pytree) : option Z :=
  match x with
  | Leaf (AInt z) => Some z
  | Leaf (ABool b) => Some (if b then 1%Z else 0%Z)
  | _ => None
  end.

(** [isinstance(x, int)] *)
Definition is_int (x : pytree) : bool :=
  match as_int x with Some _ => true | None => false end.

(** [callable(x)] *)
Definition callable (x : pytree) : bool :=
  match x with
  | Leaf (AIfArray _) | Leaf (AFun _) => true
  | _ => false
  end.

Definition py_bool (b : bool) : pytree := Leaf (ABool b).
Definition py_int (z : Z) : pytree := Leaf (AInt z).
Definition py_array (s : list nat) (d : string) : pytree :=
  Leaf (AArray (mk_aval s d)).

(* ================================================================= *)
(** ** [jax.tree_util] *)

Module jtu.

(** Raised by [jax.tree_util] when a tree is not a prefix of another. *)
Definition structure_error : exn :=
  ValueError "Tree structure mismatch".

(** [jtu.tree_map(f, t)] and, with [nl = true],
    [jtu.tree_map(f, t, is_leaf=_is_none)].  [f] receives the leaf object. *)
Fixpoint tree_map (nl : bool) (f : pytree -> result pytree) (t : pytree)
  : result pytree :=
  match t with
  | Leaf a => f (Leaf a)
  | PNone => if nl then f PNone else Ok PNone
  | PNode k ts => ts' <- mapM (tree_map nl f) ts ;; Ok (PNode k ts')
  end.

(** [treedef.flatten_up_to(t)] succeeds: the first tree is a prefix of the
    second.  A leaf of the prefix matches any subtree; so does [None], which
    the [jax] of this code base accepts as a prefix of anything. *)
Fixpoint prefix_ok (p t : pytree) : bool :=
  match p with
  | Leaf _ | PNone => true
  | PNode k ps =>
      match t with
      | PNode k' ts => kind_eqb k k' && forall2b prefix_ok ps ts
      | _ => false
      end
  end.

Fixpoint map2_rec (nl : bool) (f : pytree -> pytree -> result pytree)
  (p t : pytree) : result pytree :=
  match p with
  | Leaf a => f (Leaf a) t
  | PNone => if nl then f PNone t else Ok PNone
  | PNode k ps =>
      match t with
      | PNode _ ts => rs <- zipM (map2_rec nl f) ps ts ;; Ok (PNode k rs)
      | _ => Raise structure_error
      end
  end.

(** [jtu.tree_map(f, p, t)] (and with [is_leaf=_is_none] when [nl]): the
    structure of [p] is checked against [t] before [f] is called at all. *)
Definition tree_map2 (nl : bool) (f : pytree -> pytree -> result pytree)
  (p t : pytree) : result pytree :=
  if prefix_ok p t then map2_rec nl f p t else Raise structure_error.

(** [jtu.tree_leaves(t)] *)
Fixpoint tree_leaves (t : pytree) : list atom :=
  match t with
  | Leaf a => [a]
  | PNone => []
  | PNode _ ts => flat_map tree_leaves ts
  end.

Inductive treedef : Type :=
| TDLeaf
| TDNone
| TDNode (k : kind) (cs : list treedef).

Fixpoint treedef_eq_dec (x y : treedef) {struct x} : {x = y} + {x <> y}.
Proof.
  decide equality.
  - apply (list_eq_dec treedef_eq_dec).
  - apply kind_eq_dec.
Defined.

(** [jtu.tree_structure(t)] *)
Fixpoint tree_structure (t : pytree) : treedef :=
  match t with
  | Leaf _ => TDLeaf
  | PNone => TDNone
  | PNode k ts => TDNode k (map tree_structure ts)
  end.

(** [jtu.tree_flatten(t)] *)
Definition tree_flatten (t : pytree) : list atom * treedef :=
  (tree_leaves t, tree_structure t).

Fixpoint unflatten_aux (d : treedef) (l : list atom)
  : option (pytree * list atom) :=
  match d with
  | TDLeaf => match l with a :: r => Some (Leaf a, r) | [] => None end
  | TDNone => Some (PNone, l)
  | TDNode k cs =>
      match mapS unflatten_aux cs l with
      | Some (ts, r) => Some (PNode k ts, r)
      | None => None
      end
  end.

(** [jtu.tree_unflatten(treedef, leaves)] *)
Definition tree_unflatten (d : treedef) (l : list atom) : result pytree :=
  match unflatten_aux d l with
  | Some (t, []) => Ok t
  | _ => Raise (ValueError "Wrong number of leaves for PyTreeDef")
  end.

(** [jtu.tree_reduce(f, t, init)] *)
Definition tree_reduce {A : Type} (f : A -> atom -> A) (t : pytree) (init : A)
  : A :=
  fold_left f (tree_leaves t) init.

(** [jtu.Partial] of [func] and some arguments: a callable that holds the
    first positional arguments of [func]. *)
Record Partial (W : Type) : Type := mk_Partial {
  func : W;
  args : list pytree
}.

End jtu.

(** The subtree reached by following child indices [p]. *)
Fixpoint subtree (t : pytree) (p : list nat) : option pytree :=
  match p with
  | [] => Some t
  | i :: q =>
      match t with
      | PNode _ ts =>
          match nth_error ts i with
          | Some c => subtree c q
          | None => None
          end
      | _ => None
      end
  end.

(** The leaf stored at position [p], if [p] is the position of a leaf. *)
Definition leaf_at (t : pytree) (p : list nat) : option atom :=
  match subtree t p with
  | Some (Leaf a) => Some a
  | _ => None
  end.

(** The entry of a prefix tree that governs position [p]: the first leaf or
    [None] met on the way down. *)
Fixpoint governing (t : pytree) (p : list nat) : option pytree :=
  match t with
  | PNode _ ts =>
      match p with
      | [] => None
      | i :: q =>
          match nth_error ts i with
          | Some c => governing c q
          | None => None
          end
      end
  | _ => Some t
  end.


(* ================================================================= *)
(** ** [jax.numpy] on shapes *)

Module jnp.

(** The index of dimension [axis] in an array of rank [rank], counting from
    the end when negative; nothing when out of bounds. *)
Definition canonicalize_axis (axis : Z) (rank : nat) : option nat :=
  if ((- Z.of_nat rank <=? axis) && (axis <? Z.of_nat rank))%Z
  then Some (Z.to_nat (if (axis <? 0)%Z then axis + Z.of_nat rank else axis))
  else None.

Fixpoint set_nth (i : nat) (x : nat) (l : list nat) : list nat :=
  match l, i with
  | [], _ => []
  | _ :: r, O => x :: r
  | y :: r, S j => y :: set_nth j x r
  end.

Definition swap_dims (i j : nat) (s : list nat) : list nat :=
  set_nth j (nth i s 0) (set_nth i (nth j s 0) s).

Definition insert_dim (i : nat) (n : nat) (s : list nat) : list nat :=
  firstn i s ++ n :: skipn i s.

Definition remove_dim (i : nat) (s : list nat) : list nat :=
  firstn i s ++ skipn (S i) s.

(** [jnp.swapaxes(array, axis1, axis2)] *)
Definition swapaxes (array : pytree) (axis1 axis2 : Z) : result pytree :=
  match array with
  | Leaf (AArray v) =>
      match canonicalize_axis axis1 (length (shape v)),
            canonicalize_axis axis2 (length (shape v)) with
      | Some i, Some j =>
          Ok (Leaf (AArray (mk_aval (swap_dims i j (shape v)) (dtype v))))
      | _, _ => Raise (ValueError "axis is out of bounds for array")
      end
  | _ => Raise (TypeError "swapaxes requires an array argument")
  end.

End jnp.

(* ================================================================= *)
(** ** [equinox.filters], [equinox.module.Static], [equinox.compile_utils] *)

(** Modelled from the spec: [Static] of [equinox/module.py] is not among the
    sources; it is the "opaque, non-traced side-channel value", "a hashable
    container": a PyTree without leaves that carries [value] past [jax]
    transformations. *)
Record Static (A : Type) : Type := mk_Static { value : A }.
Arguments mk_Static {A} value.
Arguments value {A} s.

Module filters.

(** Modelled from the spec: [equinox/filters.py] is not among the sources.
    An array-like leaf is "a multidimensional numeric tensor with a shape and
    dtype"; [is_array] accepts the array objects only. *)
Definition is_array (x : pytree) : bool :=
  match x with Leaf (AArray _) => true | _ => false end.

(** Modelled from the spec: as [is_array], and the Python scalars that [jax]
    converts to arrays. *)
Definition is_array_like (x : pytree) : bool :=
  match x with
  | Leaf (AArray _) | Leaf (AInt _) | Leaf (ABool _) => true
  | _ => false
  end.

(** A filter specification: a per-leaf predicate, or a prefix tree of
    booleans (the masks of this file hold no callables). *)
Inductive filter_spec : Type :=
| Where (p : pytree -> bool)
| Mask (m : pytree).

(** Every leaf replaced by [None]. *)
Fixpoint erase (t : pytree) : pytree :=
  match t with
  | PNode k ts => PNode k (map erase ts)
  | _ => PNone
  end.

Definition keep_if (b inverse : bool) (sub : pytree) : pytree :=
  if xorb b inverse then sub else erase sub.

(** Modelled from the spec: [filter(pytree, filter_spec, inverse)] of
    [equinox/filters.py], which "splits a nested structure into two co-shaped
    structures by a per-leaf predicate": the leaves selected by the
    specification are kept, the others become [None].  A boolean of a mask
    applies to the whole subtree it faces; a [None] of a mask selects
    nothing. *)
Definition filter (t : pytree) (spec : filter_spec) (inverse : bool)
  : result pytree :=
  match spec with
  | Where p => jtu.tree_map false (fun x => Ok (keep_if (p x) inverse x)) t
  | Mask m =>
      jtu.tree_map2 false
        (fun b sub =>
           match b with
           | Leaf (ABool b) => Ok (keep_if b inverse sub)
           | _ => Raise (ValueError
                    "`filter_spec` must consist of booleans and callables only.")
           end) m t
  end.

(** Modelled from the spec: [partition(pytree, filter_spec)], the selected
    part first. *)
Definition partition (t : pytree) (spec : filter_spec)
  : result (pytree * pytree) :=
  a <- filter t spec false ;;
  b <- filter t spec true ;;
  Ok (a, b).

(** [_combine] of its arguments: the first argument that is not [None]. *)
Fixpoint _combine (args : list pytree) : pytree :=
  match args with
  | [] => PNone
  | x :: r => if _is_none x then _combine r else x
  end.

Definition children (t : pytree) : list pytree :=
  match t with PNode _ ts => ts | _ => [] end.

Fixpoint combine_rec (a : pytree) (others : list pytree) {struct a}
  : result pytree :=
  match a with
  | PNode k ts =>
      rs <- mapM_cols combine_rec PNone ts (map children others) ;;
      Ok (PNode k rs)
  | _ => Ok (_combine (a :: others))
  end.

(** Modelled from the spec: [combine] of several trees, which "recombines" the
    parts: [jtu.tree_map] of [_combine] over them with [is_leaf=_is_none]. *)
Definition combine (pytrees : list pytree) : result pytree :=
  match pytrees with
  | [] => Raise (TypeError "combine() needs at least one pytree")
  | a :: others =>
      if forallb (jtu.prefix_ok a) others then combine_rec a others
      else Raise jtu.structure_error
  end.

End filters.

Module compile_utils.

(** Modelled from the spec: [hashable_partition] of
    [equinox/compile_utils.py]: a partition whose second part is flattened
    so that it can be hashed. *)
Definition hashable_partition (t : pytree) (p : pytree -> bool)
  : result (pytree * (list atom * jtu.treedef)) :=
  '(dynamic, static) <- filters.partition t (filters.Where p) ;;
  Ok (dynamic, jtu.tree_flatten static).

(** Modelled from the spec: [hashable_combine], its inverse. *)
Definition hashable_combine (dynamic : pytree) (static : list atom * jtu.treedef)
  : result pytree :=
  let '(static_leaves, static_treedef) := static in
  static <- jtu.tree_unflatten static_treedef static_leaves ;;
  filters.combine [dynamic; static].

End compile_utils.

(* ================================================================= *)
(** ** The environment: function objects and absent helpers *)

(** What the wrappers take from their surroundings: the function objects in
    memory, and the helpers of the package that are not part of the sources
    ([inspect.signature], [compile_utils.get_fun_names],
    [deprecate.deprecated_0_10]).  Nothing is assumed about them. *)
Record env : Type := mk_env {
  apply_fun : nat -> list pytree -> result pytree;
  signature_parameters : pytree -> list string;
  get_fun_names : pytree -> string * string;
  deprecated_0_10 : list (string * pytree) -> string -> result unit
}.

(** [f(x1, ..., xn)] *)
Definition call (E : env) (f : pytree) (args : list pytree) : result pytree :=
  match f with
  | Leaf (AFun id) => apply_fun E id args
  | Leaf (AIfArray axis) =>
      (* if_array.__call__: self.axis if is_array(x) else None *)
      match args with
      | [x] => Ok (if filters.is_array x then py_int axis else PNone)
      | _ => Raise (TypeError "__call__() takes 2 positional arguments")
      end
  | _ => Raise (TypeError "object is not callable")
  end.

(** The positional arguments of a call written with a star. *)
Definition star (args : pytree) : result (list pytree) :=
  match args with
  | PNode KTuple ts | PNode KList ts => Ok ts
  | _ => Raise (TypeError "argument after * must be an iterable")
  end.

(** Unpacking a tuple into a given number of targets. *)
Definition unpack (n : nat) (t : pytree) : result (list pytree) :=
  match t with
  | PNode KTuple ts | PNode KList ts =>
      if length ts =? n then Ok ts
      else Raise (ValueError "wrong number of values to unpack")
  | _ => Raise (TypeError "cannot unpack non-iterable object")
  end.

(** [range(lo, hi)] *)
Definition range (lo hi : Z) : list Z :=
  map (fun k => (lo + Z.of_nat k)%Z) (seq 0 (Z.to_nat (hi - lo))).

(** [a == i] for an integer [i] *)
Definition py_eq_int (a : pytree) (i : Z) : bool :=
  match as_int a with
  | Some z => (z =? i)%Z
  | None => false
  end.

(* ================================================================= *)
(** ** Axis resolution *)

Definition axis_spec_error : exn :=
  ValueError
    "`in_axes` and `out_axes` must consist of None, ints, and callables only.".

Definition _resolve_axis (E : env) (axis_spec elem : pytree) : result pytree :=
  if _is_none axis_spec || is_int axis_spec then
    jtu.tree_map false (fun _ => Ok axis_spec) elem
  else if callable axis_spec then
    jtu.tree_map false (fun x => call E axis_spec [x]) elem
  else
    Raise axis_spec_error.

Definition _resolve_axes (E : env) (pytree_ axes_spec : pytree) : result pytree :=
  jtu.tree_map2 true (_resolve_axis E) axes_spec pytree_.

(** [if_array(axis)] *)
Definition if_array (axis : Z) : pytree := Leaf (AIfArray axis).

(** [_swapaxes(array, axis)].  [jnp.swapaxes] takes Python integers for its
    axes; it raises a [ValueError] on a [bool]. *)
Definition _swapaxes (array axis : pytree) : result pytree :=
  match axis with
  | Leaf (AInt a) => jnp.swapaxes array 0 a
  | Leaf (ABool _) => Raise (ValueError "axis must be an integer, not a bool")
  | _ => Raise (TypeError "axis must be an integer")
  end.

(* ================================================================= *)
(** ** The mapping primitives of [jax], on shapes *)

(** [jax.vmap] and [jax.pmap] are collaborators of the wrappers.  They are
    modelled as [jax] traces them: the function is run once on arguments
    from which the mapped dimension has been removed, and the mapped
    dimension (of size [n]) is put back into the outputs at the position the
    output axes ask for.  Devices and compilation are not modelled. *)
Module jax.

(** The size of the mapped dimension that one argument leaf contributes. *)
Definition leaf_axis_size (axis : pytree) (x : atom) : result (option nat) :=
  match axis with
  | PNone => Ok None
  | _ =>
      match as_int axis, x with
      | Some a, AArray v =>
          match jnp.canonicalize_axis a (length (shape v)) with
          | Some i => Ok (Some (nth i (shape v) 0))
          | None => Raise (ValueError "mapped axis is out of bounds")
          end
      | Some _, _ =>
          Raise (ValueError "cannot map an argument that has no dimension")
      | None, _ => Raise (TypeError "in_axes must be an int or None")
      end
  end.

(** The leaves of [t], each with the entry of the prefix tree [p] it is
    under ([None] being an entry of [p]). *)
Fixpoint flat_axes (p t : pytree) : list (pytree * atom) :=
  match p with
  | PNode _ ps =>
      concat (zip_with flat_axes ps (filters.children t))
  | _ => map (pair p) (jtu.tree_leaves t)
  end.

Definition agrees (n : nat) (o : option nat) : bool :=
  match o with Some m => m =? n | None => true end.

Fixpoint first_size (l : list (option nat)) : option nat :=
  match l with
  | [] => None
  | Some n :: _ => Some n
  | None :: r => first_size r
  end.

(** The size of the mapped axis: the [axis_size] given, or else the size of
    the first mapped argument; the mapped arguments have to agree with it.
    (Where an explicit [axis_size] contradicts the arguments, [jax.vmap]
    does not compare them, and the shapes it returns depend on more than
    shapes; such calls are left out: they raise here.) *)
Definition mapped_axis_size (axis_size : option nat) (sizes : list (option nat))
  : result nat :=
  match (match axis_size with Some n => Some n | None => first_size sizes end) with
  | Some n =>
      if forallb (agrees n) sizes then Ok n
      else Raise (ValueError "inconsistent sizes for array axes to be mapped")
  | None => Raise (ValueError "at least one argument must be mapped")
  end.

(** One argument leaf as the traced function sees it. *)
Definition slice_leaf (axis x : pytree) : result pytree :=
  match axis with
  | PNone => Ok x
  | _ =>
      match as_int axis, x with
      | Some a, Leaf (AArray v) =>
          match jnp.canonicalize_axis a (length (shape v)) with
          | Some i => Ok (Leaf (AArray (mk_aval (jnp.remove_dim i (shape v)) (dtype v))))
          | None => Raise (ValueError "mapped axis is out of bounds")
          end
      | Some _, _ =>
          Raise (ValueError "cannot map an argument that has no dimension")
      | None, _ => Raise (TypeError "in_axes must be an int or None")
      end
  end.

(** The size of the mapped axis, and the arguments of the traced function. *)
Definition split_args (in_axes : pytree) (axis_size : option nat) (args : pytree)
  : result (nat * pytree) :=
  if jtu.prefix_ok in_axes args then
    sizes <- mapM (fun '(axis, x) => leaf_axis_size axis x) (flat_axes in_axes args) ;;
    n <- mapped_axis_size axis_size sizes ;;
    example <- jtu.map2_rec true
                 (fun axis sub => jtu.tree_map false (slice_leaf axis) sub)
                 in_axes args ;;
    Ok (n, example)
  else Raise jtu.structure_error.

(** The abstract value of an output leaf: an array, or a Python scalar that
    [jax] turns into an array without dimensions. *)
Definition leaf_aval (x : pytree) : result aval :=
  match x with
  | Leaf (AArray v) => Ok v
  | Leaf (AInt _) => Ok (mk_aval [] "int32")
  | Leaf (ABool _) => Ok (mk_aval [] "bool")
  | _ => Raise (TypeError "output is not a valid JAX type")
  end.

(** One output leaf with the mapped dimension put at [axis]. *)
Definition batch_leaf (n : nat) (axis x : pytree) : result pytree :=
  match axis with
  | PNone => Ok x
  | _ =>
      match as_int axis with
      | Some a =>
          v <- leaf_aval x ;;
          match jnp.canonicalize_axis a (S (length (shape v))) with
          | Some i => Ok (Leaf (AArray (mk_aval (jnp.insert_dim i n (shape v)) (dtype v))))
          | None => Raise (ValueError "out_axes is out of bounds for the output")
          end
      | None => Raise (TypeError "out_axes must be an int or None")
      end
  end.

(** The outputs with their mapped dimension, [out_axes] being a prefix of
    [out]. *)
Definition batch_out (n : nat) (out_axes out : pytree) : result pytree :=
  jtu.tree_map2 true
    (fun axis sub => jtu.tree_map false (batch_leaf n axis) sub) out_axes out.

(** [jax.vmap(f, in_axes=(in_axes,), out_axes=out_axes, axis_name=...,
    axis_size=..., **kwargs)(args)] for an [f] that returns a pair whose
    second component is a [Static]; [out_axes] is the pair of output axes. *)
Definition vmap {X : Type} (f : pytree -> result (pytree * Static X))
  (in_axes : pytree) (out_axes : pytree * pytree) (axis_name : pytree)
  (axis_size : option nat) (kwargs : list (string * pytree)) (args : pytree)
  : result (pytree * Static X) :=
  '(n, example) <- split_args in_axes axis_size args ;;
  '(out, static) <- f example ;;
  out' <- batch_out n (fst out_axes) out ;;
  Ok (out', static).

(** [jax.vmap(f, in_axes=(in_axes,), axis_name=..., axis_size=...)(args)]:
    the output axes default to [0]. *)
Definition vmap0 (f : pytree -> result pytree) (in_axes : pytree)
  (axis_name : pytree) (axis_size : option nat) (args : pytree) : result pytree :=
  '(n, example) <- split_args in_axes axis_size args ;;
  out <- f example ;;
  batch_out n (py_int 0) out.

Definition as_tracer (x : pytree) : pytree :=
  match x with Leaf (AStruct v) => Leaf (AArray v) | _ => x end.

Definition as_struct (x : pytree) : result pytree :=
  match x with
  | Leaf (AArray v) => Ok (Leaf (AStruct v))
  | Leaf (AInt _) => Ok (Leaf (AStruct (mk_aval [] "int32")))
  | Leaf (ABool _) => Ok (Leaf (AStruct (mk_aval [] "bool")))
  | _ => Raise (TypeError "output is not a valid JAX type")
  end.

(** [jax.eval_shape(f, args)] *)
Definition eval_shape (f : pytree -> result pytree) (args : pytree)
  : result pytree :=
  tracers <- jtu.tree_map false (fun x => Ok (as_tracer x)) args ;;
  out <- f tracers ;;
  jtu.tree_map false as_struct out.

(** [jax.pmap] does not count a negative axis from the end as [jax.vmap]
    does: where it takes the mapped dimension out of an input leaf, or puts
    it into an output leaf, it asserts that the index is not negative.  An
    axis that faces no leaf is never looked at. *)
Definition pmap_axis_ok (axis : pytree) : bool :=
  match as_int axis with
  | Some a => (0 <=? a)%Z
  | None => true
  end.

Definition pmap_slice_leaf (axis x : pytree) : result pytree :=
  if pmap_axis_ok axis then slice_leaf axis x else Raise AssertionError.

Definition pmap_batch_leaf (n : nat) (axis x : pytree) : result pytree :=
  if pmap_axis_ok axis then batch_leaf n axis x else Raise AssertionError.

Definition pmap_split_args (in_axes : pytree) (axis_size : option nat)
  (args : pytree) : result (nat * pytree) :=
  if jtu.prefix_ok in_axes args then
    sizes <- mapM (fun '(axis, x) => leaf_axis_size axis x) (flat_axes in_axes args) ;;
    n <- mapped_axis_size axis_size sizes ;;
    example <- jtu.map2_rec true
                 (fun axis sub => jtu.tree_map false (pmap_slice_leaf axis) sub)
                 in_axes args ;;
    Ok (n, example)
  else Raise jtu.structure_error.

Definition pmap_batch_out (n : nat) (out_axes out : pytree) : result pytree :=
  jtu.tree_map2 true
    (fun axis sub => jtu.tree_map false (pmap_batch_leaf n axis) sub) out_axes out.

(** Calling [jax.pmap(f, in_axes=(in_axes,), out_axes=out_axes, ...)] on
    [args], for an [f] that returns a list of trees, a tree and a [Static];
    [out_axes] is the triple given to [jax.pmap]. *)
Definition pmap_call {X : Type}
  (f : pytree -> result (list pytree * pytree * Static X))
  (in_axes out_axes : pytree) (axis_name : pytree) (axis_size : option nat)
  (kwargs : list (string * pytree)) (args : pytree)
  : result (list pytree * pytree * Static X) :=
  '(n, example) <- pmap_split_args in_axes axis_size args ;;
  '(outs, unmapped, static) <- f example ;;
  match out_axes with
  | PNode KTuple [axes; unmapped_axes; PNone] =>
      outs' <- pmap_batch_out n axes (PNode KList outs) ;;
      unmapped' <- pmap_batch_out n unmapped_axes unmapped ;;
      Ok (filters.children outs', unmapped', static)
  | _ => Raise jtu.structure_error
  end.

End jax.

(* ================================================================= *)
(** ** Dictionaries of keyword arguments *)

Definition dict : Type := list (string * pytree).

(** [k in d] *)
Definition dict_mem (k : string) (d : dict) : bool :=
  existsb (fun kv => String.eqb (fst kv) k) d.

(** [d.pop(k, default)]: the value and what is left of [d]. *)
Fixpoint dict_pop (k : string) (default : pytree) (d : dict) : pytree * dict :=
  match d with
  | [] => (default, [])
  | (k', v) :: r =>
      if String.eqb k' k then (v, r)
      else let '(x, r') := dict_pop k default r in (x, (k', v) :: r')
  end.

(** [d[k] = v] *)
Fixpoint dict_set (k : string) (v : pytree) (d : dict) : dict :=
  match d with
  | [] => [(k, v)]
  | (k', v') :: r =>
      if String.eqb k' k then (k, v) :: r else (k', v') :: dict_set k v r
  end.

(** The items of a dictionary object. *)
Definition dict_items (keys : list string) (vals : list pytree) : dict :=
  combine keys vals.

(* ================================================================= *)
(** ** The process-wide state *)

(** The arguments of [_filter_pmap_cache], which [compile_cache] turns into
    the key of the compiled entry. *)
Record key : Type := mk_key {
  key_fun_names : string * string;
  key_leaves : list atom;
  key_treedef : jtu.treedef;
  key_in_axes : pytree;
  key_axis_name : pytree;
  key_axis_size : option nat;
  key_pmapkwargs : dict
}.

(** What Python's [==] and [hash] see of a leaf: [bool] is a subclass of
    [int], with [True == 1] and [False == 0] and equal hashes.  Everything
    else is compared as it is (function objects by identity, frozen
    dataclasses and [ShapeDtypeStruct]s by their fields). *)
Definition py_atom (a : atom) : atom :=
  match a with
  | ABool b => AInt (if b then 1 else 0)
  | _ => a
  end.

Fixpoint py_tree (t : pytree) : pytree :=
  match t with
  | Leaf a => Leaf (py_atom a)
  | PNone => PNone
  | PNode k ts => PNode k (map py_tree ts)
  end.

(** A dictionary by its keys, whatever the order they were given in. *)
Fixpoint dict_insert (k : string) (v : pytree) (d : dict) : dict :=
  match d with
  | [] => [(k, v)]
  | (k', v') :: r =>
      if String.ltb k k' then (k, v) :: d
      else if String.eqb k k' then (k, v) :: r
      else (k', v') :: dict_insert k v r
  end.

Definition py_dict (d : dict) : dict :=
  fold_right (fun kv acc => dict_insert (fst kv) (py_tree (snd kv)) acc) [] d.

(** The key as the table sees it: two keys are the same key of the table
    exactly when they have the same [py_key]. *)
Definition py_key (k : key) : key :=
  mk_key (key_fun_names k) (map py_atom (key_leaves k)) (key_treedef k)
    (py_tree (key_in_axes k)) (py_tree (key_axis_name k)) (key_axis_size k)
    (py_dict (key_pmapkwargs k)).

Definition names_eq_dec (x y : string * string) : {x = y} + {x <> y}.
Proof.
  decide equality; apply string_dec.
Defined.

Definition item_eq_dec (x y : string * pytree) : {x = y} + {x <> y}.
Proof.
  decide equality; [apply pytree_eq_dec | apply string_dec].
Defined.

Definition axis_size_eq_dec (x y : option nat) : {x = y} + {x <> y}.
Proof.
  decide equality; apply Nat.eq_dec.
Defined.

Definition key_eq_dec (x y : key) : {x = y} + {x <> y}.
Proof.
  decide equality;
    first [ apply (list_eq_dec item_eq_dec)
          | apply axis_size_eq_dec
          | apply pytree_eq_dec
          | apply jtu.treedef_eq_dec
          | apply (list_eq_dec atom_eq_dec)
          | apply names_eq_dec ].
Defined.

(** The object that [jax.pmap(fun_wrapped, ...)] returns: what it was built
    from, and which object it is. *)
Record pmapped : Type := mk_pmapped {
  pm_id : nat;
  pm_name : string * string;      (* fun_wrapped.__name__, .__qualname__ *)
  pm_static : pytree;             (* closed over by fun_wrapped *)
  pm_max_out_size : nat;          (* closed over by fun_wrapped *)
  pm_in_axes : pytree;
  pm_out_axes : pytree;
  pm_axis_name : pytree;
  pm_axis_size : option nat;
  pm_kwargs : dict
}.

(** What has been asked of the backend. *)
Inductive event : Type :=
| Vmapped (in_axes dynamic_args : pytree)   (* jax.vmap(...)(dynamic_args) *)
| Pmapped (c : pmapped) (dynamic : pytree)  (* cached(dynamic) *)
| Lowering (c : pmapped) (dynamic : pytree). (* cached.lower(dynamic) *)

Record state : Type := mk_state {
  cache : list (key * pmapped);   (* the table of compile_cache *)
  compiles : nat;                 (* how often the body of _filter_pmap_cache ran *)
  backend_log : list event
}.

Definition empty_state : state := mk_state [] 0 [].

Definition M (A : Type) : Type := state -> result A * state.

Definition retM {A : Type} (a : A) : M A := fun st => (Ok a, st).

Definition raiseM {A : Type} (e : exn) : M A := fun st => (Raise e, st).

Definition liftR {A : Type} (r : result A) : M A := fun st => (r, st).

Definition bindM {A B : Type} (m : M A) (k : A -> M B) : M B :=
  fun st =>
    match m st with
    | (Ok a, st') => k a st'
    | (Raise e, st') => (Raise e, st')
    end.

Definition logM (ev : event) : M unit :=
  fun st => (Ok tt, mk_state (cache st) (compiles st) (backend_log st ++ [ev])).

Notation "x <-- m ;; k" := (bindM m (fun x => k))
  (at level 61, m at next level, right associativity).
Notation "' p <-- m ;; k" := (bindM m (fun x => let p := x in k))
  (at level 61, p pattern, m at next level, right associativity).

Fixpoint cache_lookup (k : key) (table : list (key * pmapped)) : option pmapped :=
  match table with
  | [] => None
  | (k', c) :: r => if key_eq_dec k k' then Some c else cache_lookup k r
  end.

(** Modelled from the spec: [compile_cache] of [equinox/compile_utils.py] is
    not among the sources.  The spec has the cache as "a memoization table",
    an entry being "created on first miss, retained for the life of the
    process-wide cache (no eviction)", and "the cache is left unmodified on a
    failed compile".  [body k id] is the decorated function run on the
    arguments [k], [id] being the identity of the object it creates.  The
    table is a Python dictionary, which finds a key by [==] and [hash]: its
    entries are kept under [py_key]. *)
Definition compile_cache (body : key -> nat -> result pmapped) (k : key)
  : M pmapped :=
  fun st =>
    match cache_lookup (py_key k) (cache st) with
    | Some c => (Ok c, st)
    | None =>
        match body k (compiles st) with
        | Ok c =>
            (Ok c,
             mk_state ((py_key k, c) :: cache st) (S (compiles st))
               (backend_log st))
        | Raise e =>
            (Raise e, mk_state (cache st) (S (compiles st)) (backend_log st))
        end
    end.

(* ================================================================= *)
(** ** Lifting: what [filter_vmap] and [filter_pmap] share *)

(** The keyword arguments of a lifting call. *)
Record options : Type := mk_options {
  opt_in_axes : pytree;
  opt_out_axes : pytree;
  opt_axis_name : pytree;
  opt_axis_size : option nat;
  opt_donate : string;            (* filter_pmap only *)
  opt_kwargs : dict               (* vmapkwargs / pmapkwargs *)
}.

(** The result of a lifting call: the wrapper, or, when no function was given,
    [ft.partial] of the lifting call with its keyword arguments. *)
Inductive lifted (W : Type) : Type :=
| Lifted (w : W)
| Pending (o : options).

Arguments Lifted {W} w.
Arguments Pending {W} o.

(** Calling [jtu.Partial(func, ...)]: the held arguments come first. *)
Definition call_Partial {W R : Type} (call_func : W -> list pytree -> dict -> R)
  (p : jtu.Partial W) (args : list pytree) (kwargs : dict) : R :=
  call_func (jtu.func p) (jtu.args p ++ args) kwargs.

(** What reading a wrapper stored as a class attribute gives. *)
Inductive attribute (W : Type) : Type :=
| Itself (w : W)
| Bound (p : jtu.Partial W).

Arguments Itself {W} w.
Arguments Bound {W} p.

(** The five removed arguments that both lifting calls reject. *)
Definition check_deprecated (E : env) (kwargs : dict) : result unit :=
  _ <- deprecated_0_10 E kwargs "default" ;;
  _ <- deprecated_0_10 E kwargs "fn" ;;
  _ <- deprecated_0_10 E kwargs "args" ;;
  _ <- deprecated_0_10 E kwargs "kwargs" ;;
  deprecated_0_10 E kwargs "out".

Definition unknown_in_axes_error : exn :=
  ValueError "The following `in_axes` did not correspond to any argument".

(** The [if isinstance(in_axes, dict)] block of both lifting calls. *)
Definition named_in_axes (E : env) (fun_ in_axes : pytree) : result pytree :=
  match in_axes with
  | PNode (KDict keys) vals =>
      let default := if_array 0 in
      let '(new_in_axes, in_axes) :=
        fold_left
          (fun '(new_in_axes, in_axes) param_name =>
             let '(v, in_axes) := dict_pop param_name default in_axes in
             (new_in_axes ++ [v], in_axes))
          (signature_parameters E fun_) ([], dict_items keys vals) in
      if negb (length in_axes =? 0) then Raise unknown_in_axes_error
      else Ok (TupleOf new_in_axes)
  | _ => Ok in_axes
  end.

(** Modelled from the spec: [module_update_wrapper] of [equinox/module.py]
    is not among the sources; it copies the name and docstring of [fun] onto
    the wrapper, which the model does not carry. *)
Definition module_update_wrapper {W : Type} (wrapper : W) (fun_ : pytree) : W :=
  wrapper.

(* ================================================================= *)
(** ** The batch-map wrapper *)

Module _VmapWrapper.

Record t : Type := mk {
  _fun : pytree;
  _in_axes : pytree;
  _out_axes : pytree;
  _axis_name : pytree;
  _axis_size : option nat;
  _vmapkwargs : dict
}.

Definition kwargs_error : exn :=
  RuntimeError
    "`filter_vmap` cannot be applied to functions accepting keyword arguments.".

(** The closure [_fun_wrapper] of [__call__]; it closes over [self] and
    [static_args]. *)
Definition _fun_wrapper (E : env) (self : t) (static_args _dynamic_args : pytree)
  : result (pytree * Static (pytree * pytree)) :=
  _args <- filters.combine [_dynamic_args; static_args] ;;
  _args <- star _args ;;
  _out <- call E (_fun self) _args ;;
  _out_axes <- _resolve_axes E _out (_out_axes self) ;;
  _none_axes <- jtu.tree_map true (fun x => Ok (py_bool (_is_none x))) _out_axes ;;
  '(_nonvmapd, _vmapd) <- filters.partition _out (filters.Mask _none_axes) ;;
  Ok (_vmapd, mk_Static (_nonvmapd, _out_axes)).

Definition __call__ (E : env) (self : t) (args : list pytree) (kwargs : dict)
  : M pytree :=
  if negb (length kwargs =? 0) then raiseM kwargs_error
  else
    let args := TupleOf args in
    unmapped_axis <-- liftR (jtu.tree_map true
                               (fun x => Ok (py_bool (_is_none x)))
                               (_in_axes self)) ;;
    '(static_args, dynamic_args) <--
        liftR (filters.partition args (filters.Mask unmapped_axis)) ;;
    in_axes <-- liftR (_resolve_axes E args (_in_axes self)) ;;
    _ <-- logM (Vmapped in_axes dynamic_args) ;;
    '(vmapd, static) <--
        liftR (jax.vmap (_fun_wrapper E self static_args) in_axes
                 (py_int 0, PNone) (_axis_name self) (_axis_size self)
                 (_vmapkwargs self) dynamic_args) ;;
    let '(nonvmapd, out_axes) := value static in
    if jtu.treedef_eq_dec (jtu.tree_structure vmapd) (jtu.tree_structure out_axes)
    then
      vmapd <-- liftR (jtu.tree_map2 false _swapaxes vmapd out_axes) ;;
      liftR (filters.combine [vmapd; nonvmapd])
    else raiseM AssertionError.

Definition __get__ (self : t) (instance owner : pytree) : attribute t :=
  if _is_none instance then Itself self
  else Bound (jtu.mk_Partial self [instance]).

End _VmapWrapper.

Definition filter_vmap (E : env) (fun_ : option pytree) (o : options)
  : result (lifted _VmapWrapper.t) :=
  match fun_ with
  | None => Ok (Pending o)
  | Some fun_ =>
      _ <- check_deprecated E (opt_kwargs o) ;;
      in_axes <- named_in_axes E fun_ (opt_in_axes o) ;;
      let vmap_wrapper :=
        _VmapWrapper.mk fun_ in_axes (opt_out_axes o) (opt_axis_name o)
          (opt_axis_size o) (opt_kwargs o) in
      Ok (Lifted (module_update_wrapper vmap_wrapper fun_))
  end.

(** The defaults of the keyword arguments of both lifting calls. *)
Definition default_options : options :=
  mk_options (if_array 0) (if_array 0) PNone None "none" [].

(* ================================================================= *)
(** ** The parallel-map wrapper and its cache *)

(** [y.ndim] of a leaf that [jax.eval_shape] returns. *)
Definition ndim (y : atom) : nat :=
  match y with
  | AArray v | AStruct v => length (shape v)
  | _ => 0
  end.

Definition out_axis_bounds_error : exn :=
  ValueError
    "integers in filter_pmap(..., out_axes=...) must correspond to a dimension of the output array".

Definition out_axis_kind_error : exn :=
  ValueError "filter_pmap(..., out_axes=...) must contain only integers and Nones".

(** The closure [_check_map_out_axis] of [_filter_pmap_cache]. *)
Definition _check_map_out_axis (max_out_size : nat) (x : pytree) : result pytree :=
  match as_int x with
  | Some z =>
      if (z <? - Z.of_nat max_out_size)%Z || (z >=? Z.of_nat max_out_size)%Z
      then Raise out_axis_bounds_error
      else Ok PNone
  | None =>
      if negb (_is_none x) then Raise out_axis_kind_error else Ok PNone
  end.

(** The closure [fun_abstract] of [_filter_pmap_cache], before [jax.vmap]. *)
Definition fun_abstract (E : env) (static _dynamic : pytree) : result pytree :=
  t <- filters.combine [_dynamic; static] ;;
  l <- unpack 4 t ;;
  match l with
  | [fun_; args; _; _] =>
      args <- star args ;;
      out <- call E fun_ args ;;
      filters.filter out (filters.Where filters.is_array_like) false
  | _ => Raise (ValueError "wrong number of values to unpack")
  end.

(** The closure [fun_wrapped] of [_filter_pmap_cache]. *)
Definition fun_wrapped (E : env) (static : pytree) (max_out_size : nat)
  (_dynamic : pytree)
  : result (list pytree * pytree * Static (list atom * jtu.treedef)) :=
  t <- filters.combine [_dynamic; static] ;;
  l <- unpack 4 t ;;
  match l with
  | [_fun; _args; _; _out_axes] =>
      _args <- star _args ;;
      _out <- call E _fun _args ;;
      _out_axes <- _resolve_axes E _out _out_axes ;;
      _ <- jtu.tree_map false (_check_map_out_axis max_out_size) _out_axes ;;
      _pmapd <- mapM
                  (fun i =>
                     _i_axes <- jtu.tree_map false
                                  (fun a => Ok (py_bool (py_eq_int a i)))
                                  _out_axes ;;
                     filters.filter _out (filters.Mask _i_axes) false)
                  (range (- Z.of_nat max_out_size) (Z.of_nat max_out_size)) ;;
      _none_axes <- jtu.tree_map true (fun x => Ok (py_bool (_is_none x))) _out_axes ;;
      _nonpmapd <- filters.filter _out (filters.Mask _none_axes) false ;;
      '(_dynamic_nonpmapd, _static_nonpmapd) <-
          compile_utils.hashable_partition _nonpmapd filters.is_array ;;
      Ok (_pmapd, _dynamic_nonpmapd, mk_Static _static_nonpmapd)
  | _ => Raise (ValueError "wrong number of values to unpack")
  end.

(** The body of [_filter_pmap_cache]; [id] is the identity of the object that
    [jax.pmap] creates. *)
Definition _filter_pmap_cache_body (E : env) (id : nat)
  (fun_names : string * string) (leaves : list atom) (treedef : jtu.treedef)
  (in_axes axis_name : pytree) (axis_size : option nat) (pmapkwargs : dict)
  : result pmapped :=
  t <- jtu.tree_unflatten treedef leaves ;;
  l <- unpack 2 t ;;
  match l with
  | [static; struct] =>
      struct_out <- jax.eval_shape
                      (jax.vmap0 (fun_abstract E static) in_axes axis_name axis_size)
                      struct ;;
      let max_out_size := jtu.tree_reduce (fun x y => max x (ndim y)) struct_out 0 in
      let out_axes :=
        TupleOf [PNode KList
                   (map py_int (range (- Z.of_nat max_out_size) (Z.of_nat max_out_size)));
                 PNone; PNone] in
      Ok (mk_pmapped id fun_names static max_out_size in_axes out_axes
            axis_name axis_size pmapkwargs)
  | _ => Raise (ValueError "wrong number of values to unpack")
  end.

(** [_filter_pmap_cache], the body under [@compile_cache]. *)
Definition _filter_pmap_cache (E : env)
  (fun_names : string * string) (leaves : list atom) (treedef : jtu.treedef)
  (in_axes axis_name : pytree) (axis_size : option nat) (pmapkwargs : dict)
  : M pmapped :=
  compile_cache
    (fun k id =>
       _filter_pmap_cache_body E id (key_fun_names k) (key_leaves k)
         (key_treedef k) (key_in_axes k) (key_axis_name k) (key_axis_size k)
         (key_pmapkwargs k))
    (mk_key fun_names leaves treedef in_axes axis_name axis_size pmapkwargs).

(** Every entry of the table is what the body of [_filter_pmap_cache]
    returned on the arguments of the call that created the entry, and is
    kept under the key of these arguments. *)
Definition cache_sound (E : env) (st : state) : Prop :=
  forall kn c,
    cache_lookup kn (cache st) = Some c ->
    exists k id,
      py_key k = kn
      /\ _filter_pmap_cache_body E id (key_fun_names k) (key_leaves k)
           (key_treedef k) (key_in_axes k) (key_axis_name k) (key_axis_size k)
           (key_pmapkwargs k) = Ok c.

(** [cached(dynamic)] *)
Definition run_cached (E : env) (cached : pmapped) (dynamic : pytree)
  : M (list pytree * pytree * Static (list atom * jtu.treedef)) :=
  _ <-- logM (Pmapped cached dynamic) ;;
  liftR (jax.pmap_call
           (fun_wrapped E (pm_static cached) (pm_max_out_size cached))
           (pm_in_axes cached) (pm_out_axes cached) (pm_axis_name cached)
           (pm_axis_size cached) (pm_kwargs cached) dynamic).

(** What a call of the wrapper gives: the output, or with [lower] a handle on
    the lowered computation. *)
Inductive outcome : Type :=
| Returned (out : pytree)
| Lowered (cached : pmapped) (dynamic : pytree).

(** [cached.lower(dynamic)]: traced like a call, not executed. *)
Definition lower_cached (E : env) (cached : pmapped) (dynamic : pytree)
  : M outcome :=
  _ <-- logM (Lowering cached dynamic) ;;
  _ <-- liftR (jax.pmap_call
                 (fun_wrapped E (pm_static cached) (pm_max_out_size cached))
                 (pm_in_axes cached) (pm_out_axes cached) (pm_axis_name cached)
                 (pm_axis_size cached) (pm_kwargs cached) dynamic) ;;
  retM (Lowered cached dynamic).

Definition ShapeDtypeStruct (x : pytree) : result pytree :=
  match x with
  | Leaf (AArray v) => Ok (Leaf (AStruct (mk_aval (shape v) (dtype v))))
  | _ => Raise (TypeError "object has no attribute shape")
  end.

Module _PmapWrapper.

Record t : Type := mk {
  _fun : pytree;
  _in_axes : pytree;
  _out_axes : pytree;
  _axis_name : pytree;
  _axis_size : option nat;
  _filter_warning : bool;
  _pmapkwargs : dict
}.

Definition kwargs_error : exn :=
  RuntimeError
    "`filter_pmap` cannot be applied to functions accepting keyword arguments.".

Definition _call (E : env) (self : t) (is_lower : bool) (args : list pytree)
  (kwargs : dict) : M outcome :=
  if negb (length kwargs =? 0) then raiseM kwargs_error
  else
    let args := TupleOf args in
    let maybe_dummy :=
      match _axis_size self with
      | None => py_int 0
      | Some n => py_array [n] "int64"    (* np.broadcast_to(0, axis_size) *)
      end in
    in_axes <-- liftR (_resolve_axes E args (_in_axes self)) ;;
    let in_axes := TupleOf [PNone; in_axes; py_int 0; PNone] in
    '(dynamic, static) <--
        liftR (filters.partition
                 (TupleOf [_fun self; args; maybe_dummy; _out_axes self])
                 (filters.Where filters.is_array)) ;;
    struct <-- liftR (jtu.tree_map false ShapeDtypeStruct dynamic) ;;
    let '(leaves, treedef) := jtu.tree_flatten (TupleOf [static; struct]) in
    cached <-- _filter_pmap_cache E (get_fun_names E (_fun self)) leaves treedef
                 in_axes (_axis_name self) (_axis_size self) (_pmapkwargs self) ;;
    if is_lower then lower_cached E cached dynamic
    else
      '(pmapd, dynamic_nonpmapd, static_nonpmapd) <-- run_cached E cached dynamic ;;
      nonpmapd <-- liftR (compile_utils.hashable_combine dynamic_nonpmapd
                            (value static_nonpmapd)) ;;
      out <-- liftR (filters.combine (pmapd ++ [nonpmapd])) ;;
      retM (Returned out).

(** Both branches of [__call__] make the same call; they differ in the
    warnings that are shown. *)
Definition __call__ (E : env) (self : t) (args : list pytree) (kwargs : dict)
  : M outcome :=
  if _filter_warning self then _call E self false args kwargs
  else _call E self false args kwargs.

Definition lower (E : env) (self : t) (args : list pytree) (kwargs : dict)
  : M outcome :=
  _call E self true args kwargs.

Definition __get__ (self : t) (instance owner : pytree) : attribute t :=
  if _is_none instance then Itself self
  else Bound (jtu.mk_Partial self [instance]).

End _PmapWrapper.

Definition reserved_pmapkwargs_error : exn :=
  ValueError
    "`pmapkwargs` cannot contain either 'static_broadcasted_argnums' or 'donate_argnums'".

Definition donate_error : exn :=
  ValueError
    "`filter_jit(..., donate=...)` must be one of 'arrays', 'warn', or 'none'".

Definition filter_pmap (E : env) (fun_ : option pytree) (o : options)
  : result (lifted _PmapWrapper.t) :=
  match fun_ with
  | None => Ok (Pending o)
  | Some fun_ =>
      let pmapkwargs := opt_kwargs o in
      let donate := opt_donate o in
      _ <- check_deprecated E pmapkwargs ;;
      if existsb (fun x => dict_mem x pmapkwargs)
           ["static_broadcasted_argnums"; "donate_argnums"]
      then Raise reserved_pmapkwargs_error
      else
        in_axes <- named_in_axes E fun_ (opt_in_axes o) ;;
        if negb (existsb (String.eqb donate) ["arrays"; "warn"; "none"])
        then Raise donate_error
        else
          let filter_warning := if String.eqb donate "arrays" then true else false in
          let pmapkwargs :=
            if negb (String.eqb donate "none")
            then dict_set "donate_argnums" (TupleOf [py_int 0]) pmapkwargs
            else pmapkwargs in
          let pmap_wrapper :=
            _PmapWrapper.mk fun_ in_axes (opt_out_axes o) (opt_axis_name o)
              (opt_axis_size o) filter_warning pmapkwargs in
          Ok (Lifted (module_update_wrapper pmap_wrapper fun_))
  end.

(** Applying the [ft.partial] that a lifting call without function returns. *)
Definition apply_pending {W : Type}
  (lift : env -> option pytree -> options -> result (lifted W))
  (E : env) (l : lifted W) (fun_ : pytree) : result (lifted W) :=
  match l with
  | Pending o => lift E (Some fun_) o
  | Lifted _ => Raise (TypeError "a wrapper is not a lifting call")
  end.

(* ================================================================= *)
(** ** A concrete environment *)

(** Three function objects: [0] is [lambda x: x], [1] returns a scalar
    array whatever it is given, [2] is [lambda x, y: x + y] on operands that
    broadcast to the shape of [x]. *)
Definition example_env : env :=
  mk_env
    (fun id args =>
       match id, args with
       | 0, [x] => Ok x
       | 1, _ => Ok (py_array [] "float32")
       | 2, [x; _] => Ok x
       | _, _ => Raise (TypeError "wrong number of positional arguments")
       end)
    (fun _ => ["x"; "y"])
    (fun f => match f with
              | Leaf (AFun 0) => ("identity", "identity")
              | Leaf (AFun 1) => ("scalar", "scalar")
              | _ => ("add", "add")
              end)
    (fun _ _ => Ok tt).

Definition identity_fun : pytree := Leaf (AFun 0).
Definition scalar_fun : pytree := Leaf (AFun 1).
Definition add_fun : pytree := Leaf (AFun 2).

(** [filter_vmap(add)] and [filter_pmap(scalar, out_axes=1)] as the lifting
    calls build them. *)
Definition vmap_add : _VmapWrapper.t :=
  _VmapWrapper.mk add_fun (if_array 0) (if_array 0) PNone None [].

(** [filter_vmap(add, in_axes=(0, None))] *)
Definition vmap_add_explicit : _VmapWrapper.t :=
  _VmapWrapper.mk add_fun (TupleOf [py_int 0; PNone]) (if_array 0) PNone None [].

(** [filter_vmap(identity, out_axes=1)] *)
Definition vmap_identity_out1 : _VmapWrapper.t :=
  _VmapWrapper.mk identity_fun (if_array 0) (py_int 1) PNone None [].

Definition pmap_scalar : _PmapWrapper.t :=
  _PmapWrapper.mk scalar_fun (if_array 0) (py_int 1) PNone None false [].

(** [filter_pmap(identity, out_axes=1)] *)
Definition pmap_identity_out1 : _PmapWrapper.t :=
  _PmapWrapper.mk identity_fun (if_array 0) (py_int 1) PNone None false [].

Definition pmap_identity : _PmapWrapper.t :=
  _PmapWrapper.mk identity_fun (if_array 0) (if_array 0) PNone None false [].

(** [filter_vmap(identity, out_axes=2)] and [filter_pmap(identity,
    out_axes=2)] *)
Definition vmap_identity_out2 : _VmapWrapper.t :=
  _VmapWrapper.mk identity_fun (if_array 0) (py_int 2) PNone None [].

Definition pmap_identity_out2 : _PmapWrapper.t :=
  _PmapWrapper.mk identity_fun (if_array 0) (py_int 2) PNone None false [].

(** [filter_pmap(scalar, out_axes=0)] *)
Definition pmap_scalar_out0 : _PmapWrapper.t :=
  _PmapWrapper.mk scalar_fun (if_array 0) (py_int 0) PNone None false [].




(** The keys of the calls [f(x)] of [filter_pmap(identity)] on arrays of
    shape [(2,)] and of shape [(3,)]. *)
Definition key_of_shape (n : nat) : key :=
  mk_key ("identity", "identity")
    [AFun 0; AInt 0; AIfArray 0; AStruct (mk_aval [n] "float32")]
    (jtu.TDNode KTuple
       [jtu.TDNode KTuple
          [jtu.TDLeaf; jtu.TDNode KTuple [jtu.TDNone]; jtu.TDLeaf; jtu.TDLeaf];
        jtu.TDNode KTuple
          [jtu.TDNone; jtu.TDNode KTuple [jtu.TDLeaf]; jtu.TDNone; jtu.TDNone]])
    (TupleOf [PNone; TupleOf [py_int 0]; py_int 0; PNone])
    PNone None [].

(* ================================================================= *)
(** ** Notions used to state further properties *)

(** [d.get(k)] *)
Fixpoint dict_get (k : string) (d : dict) : option pytree :=
  match d with
  | [] => None
  | (k', v) :: r => if String.eqb k' k then Some v else dict_get k r
  end.

(** [t] with every leaf replaced by some object: what a map over the leaves
    of [t] returns. *)
Inductive leafwise : pytree -> pytree -> Prop :=
| leafwise_leaf : forall a y, leafwise (Leaf a) y
| leafwise_none : leafwise PNone PNone
| leafwise_node : forall k ts rs,
    Forall2 leafwise ts rs -> leafwise (PNode k ts) (PNode k rs).

(** What the specification asks of the batch-map wrapper for a mapped
    output: the batch dimension "moved from its internal position 0 to
    requested position" [i], the other dimensions keeping their order. *)
Definition moved_dims (i : nat) (s : list nat) : list nat :=
  jnp.insert_dim i (hd 0 s) (tl s).

(** The ranks of the array-like leaves of an output, the Python scalars
    counting as arrays without dimensions: what the specification calls the
    output leaf ranks. *)
Definition leaf_ranks (out : pytree) : list nat :=
  flat_map
    (fun a => match a with
              | AArray v => [length (shape v)]
              | AInt _ | ABool _ => [0]
              | _ => []
              end)
    (jtu.tree_leaves out).

(** Lines 408 to 431 of [_PmapWrapper._call]: the arguments with which it
    calls [_filter_pmap_cache], that is the key of the call, and the dynamic
    part that it hands to the compiled function. *)
Definition call_key (E : env) (self : _PmapWrapper.t) (args : list pytree)
  : result (key * pytree) :=
  let args := TupleOf args in
  let maybe_dummy :=
    match _PmapWrapper._axis_size self with
    | None => py_int 0
    | Some n => py_array [n] "int64"
    end in
  in_axes <- _resolve_axes E args (_PmapWrapper._in_axes self) ;;
  let in_axes := TupleOf [PNone; in_axes; py_int 0; PNone] in
  '(dynamic, static) <-
      filters.partition
        (TupleOf [_PmapWrapper._fun self; args; maybe_dummy;
                  _PmapWrapper._out_axes self])
        (filters.Where filters.is_array) ;;
  struct <- jtu.tree_map false ShapeDtypeStruct dynamic ;;
  let '(leaves, treedef) := jtu.tree_flatten (TupleOf [static; struct]) in
  Ok (mk_key (get_fun_names E (_PmapWrapper._fun self)) leaves treedef in_axes
        (_PmapWrapper._axis_name self) (_PmapWrapper._axis_size self)
        (_PmapWrapper._pmapkwargs self),
      dynamic).

(** [_filter_pmap_cache] and its body, on the arguments that make a key. *)
Definition body_of_key (E : env) (k : key) (id : nat) : result pmapped :=
  _filter_pmap_cache_body E id (key_fun_names k) (key_leaves k)
    (key_treedef k) (key_in_axes k) (key_axis_name k) (key_axis_size k)
    (key_pmapkwargs k).

Definition compile_key (E : env) (k : key) : M pmapped :=
  _filter_pmap_cache E (key_fun_names k) (key_leaves k) (key_treedef k)
    (key_in_axes k) (key_axis_name k) (key_axis_size k) (key_pmapkwargs k).

(** The request that a call of the parallel-map wrapper makes of the
    backend. *)
Definition request (is_lower : bool) (c : pmapped) (dynamic : pytree) : event :=
  if is_lower then Lowering c dynamic else Pmapped c dynamic.



(** [1 + x.ndim] for the array-like leaves of an output, the Python scalars
    counting as arrays without dimensions. *)
Definition batched_ranks (out : pytree) : list nat :=
  flat_map
    (fun a => match a with
              | AArray v => [S (length (shape v))]
              | AInt _ | ABool _ => [1]
              | _ => []
              end)
    (jtu.tree_leaves out).

(* ================================================================= *)
(** * Properties *)

Unset Implicit Arguments.

(** ** Lists of results *)

Lemma bind_Ok {A B : Type} (m : result A) (k : A -> result B) (b : B) :
  bind m k = Ok b -> exists a, m = Ok a /\ k a = Ok b.
Proof.
  destruct m as [a|e]; simpl; intros H; [eauto | discriminate].
Qed.

Lemma bind_Raise {A B : Type} (m : result A) (k : A -> result B) (e : exn) :
  bind m k = Raise e -> m = Raise e \/ exists a, m = Ok a /\ k a = Raise e.
Proof.
  destruct m as [a|e']; simpl; intros H; [right; eauto | left; congruence].
Qed.

Ltac inv_bind H :=
  let a := fresh "x" in
  let Ha := fresh "Hx" in
  apply bind_Ok in H; destruct H as (a & Ha & H).

Lemma mapM_nth {A B : Type} (f : A -> result B) :
  forall l r, mapM f l = Ok r ->
  forall i x, nth_error l i = Some x ->
  exists y, f x = Ok y /\ nth_error r i = Some y.
Proof.
  induction l as [|a l IH]; simpl; intros r H i x Hi.
  - destruct i; discriminate.
  - inv_bind H. inv_bind H. injection H as <-.
    destruct i as [|i]; simpl in *.
    + injection Hi as <-. eauto.
    + eauto.
Qed.

Lemma mapM_nth_inv {A B : Type} (f : A -> result B) :
  forall l r, mapM f l = Ok r ->
  forall i y, nth_error r i = Some y ->
  exists x, nth_error l i = Some x /\ f x = Ok y.
Proof.
  induction l as [|a l IH]; simpl; intros r H i y Hi.
  - injection H as <-. destruct i; discriminate.
  - inv_bind H. inv_bind H. injection H as <-.
    destruct i as [|i]; simpl in *.
    + injection Hi as <-. eauto.
    + eauto.
Qed.

Lemma mapM_length {A B : Type} (f : A -> result B) :
  forall l r, mapM f l = Ok r -> length r = length l.
Proof.
  induction l as [|a l IH]; simpl; intros r H.
  - injection H as <-. reflexivity.
  - inv_bind H. inv_bind H. injection H as <-. simpl. f_equal. eauto.
Qed.

Lemma mapM_Raise {A B : Type} (f : A -> result B) :
  forall l e, mapM f l = Raise e -> exists x, In x l /\ f x = Raise e.
Proof.
  induction l as [|a l IH]; simpl; intros e H; [discriminate|].
  apply bind_Raise in H. destruct H as [H | (y & Hy & H)]; [eauto|].
  apply bind_Raise in H. destruct H as [H | (ys & _ & H)]; [|discriminate].
  destruct (IH _ H) as (x & Hin & Hx). eauto.
Qed.

Lemma mapM_total {A B : Type} (f : A -> result B) (g : A -> B) :
  (forall x, f x = Ok (g x)) -> forall l, mapM f l = Ok (map g l).
Proof.
  intros Hf. induction l as [|a l IH]; simpl; [reflexivity|].
  rewrite Hf. simpl. rewrite IH. reflexivity.
Qed.

Lemma zipM_nth {A B C : Type} (f : A -> B -> result C) :
  forall l1 l2 r, zipM f l1 l2 = Ok r ->
  forall i x s, nth_error l1 i = Some x -> nth_error l2 i = Some s ->
  exists y, f x s = Ok y /\ nth_error r i = Some y.
Proof.
  induction l1 as [|a l1 IH]; intros l2 r H i x s Hx Hs.
  - destruct i; discriminate.
  - destruct l2 as [|b l2]; [destruct i; discriminate|].
    simpl in H. inv_bind H. inv_bind H. injection H as <-.
    destruct i as [|i]; simpl in *.
    + injection Hx as <-. injection Hs as <-. eauto.
    + eauto.
Qed.

Lemma zipM_nth_inv {A B C : Type} (f : A -> B -> result C) :
  forall l1 l2 r, zipM f l1 l2 = Ok r ->
  forall i y, nth_error r i = Some y ->
  exists x s, nth_error l1 i = Some x /\ nth_error l2 i = Some s /\ f x s = Ok y.
Proof.
  induction l1 as [|a l1 IH]; intros l2 r H i y Hy.
  - simpl in H. injection H as <-. destruct i; discriminate.
  - destruct l2 as [|b l2].
    + simpl in H. injection H as <-. destruct i; discriminate.
    + simpl in H. inv_bind H. inv_bind H. injection H as <-.
      destruct i as [|i]; simpl in *.
      * injection Hy as <-. eauto.
      * eauto.
Qed.

Lemma forall2b_nth {A B : Type} (g : A -> B -> bool) :
  forall l1 l2, forall2b g l1 l2 = true ->
  forall i x, nth_error l1 i = Some x ->
  exists s, nth_error l2 i = Some s /\ g x s = true.
Proof.
  induction l1 as [|a l1 IH]; intros l2 H i x Hx.
  - destruct i; discriminate.
  - destruct l2 as [|b l2]; [discriminate|].
    simpl in H. apply andb_prop in H. destruct H as [Hab H].
    destruct i as [|i]; simpl in *.
    + injection Hx as <-. eauto.
    + eauto.
Qed.

Lemma forall2b_length {A B : Type} (g : A -> B -> bool) :
  forall l1 l2, forall2b g l1 l2 = true -> length l1 = length l2.
Proof.
  induction l1 as [|a l1 IH]; intros [|b l2] H; simpl in *;
    try discriminate; [reflexivity|].
  apply andb_prop in H. destruct H as [_ H]. f_equal. eauto.
Qed.

(** ** Paths into trees *)

Lemma subtree_app (t : pytree) :
  forall p q, subtree t (p ++ q)
              = match subtree t p with Some s => subtree s q | None => None end.
Proof.
  intros p. revert t. induction p as [|i p IH]; intros t q; simpl; [reflexivity|].
  destruct t as [a| |k ts]; try reflexivity.
  destruct (nth_error ts i); [apply IH | reflexivity].
Qed.

Lemma subtree_leaf_inv (a : atom) (p : list nat) (x : pytree) :
  subtree (Leaf a) p = Some x -> p = [] /\ x = Leaf a.
Proof.
  destruct p; simpl; intros H; [injection H as <-; auto | discriminate].
Qed.

Lemma subtree_none_inv (p : list nat) (x : pytree) :
  subtree PNone p = Some x -> p = [] /\ x = PNone.
Proof.
  destruct p; simpl; intros H; [injection H as <-; auto | discriminate].
Qed.

(** [jtu.tree_map] commutes with taking a subtree. *)
Lemma tree_map_subtree (nl : bool) (f : pytree -> result pytree) :
  forall p t r, jtu.tree_map nl f t = Ok r ->
  forall x, subtree t p = Some x ->
  exists y, jtu.tree_map nl f x = Ok y /\ subtree r p = Some y.
Proof.
  induction p as [|i p IH]; intros t r H x Hx; simpl in Hx.
  - injection Hx as <-. exists r. auto.
  - destruct t as [a| |k ts]; try discriminate.
    destruct (nth_error ts i) as [c|] eqn:Hc; [|discriminate].
    simpl in H. inv_bind H. injection H as <-.
    destruct (mapM_nth _ _ _ Hx0 _ _ Hc) as (c' & Hc' & Hn).
    destruct (IH _ _ Hc' _ Hx) as (y & Hy & Hs).
    exists y. split; [exact Hy|]. simpl. rewrite Hn. exact Hs.
Qed.

(** The same for two trees, the first a prefix of the second. *)
Lemma map2_rec_subtree (nl : bool) (f : pytree -> pytree -> result pytree) :
  forall q p t r, jtu.prefix_ok p t = true -> jtu.map2_rec nl f p t = Ok r ->
  forall x, subtree p q = Some x ->
  exists s y, subtree t q = Some s /\ jtu.prefix_ok x s = true
              /\ jtu.map2_rec nl f x s = Ok y /\ subtree r q = Some y.
Proof.
  induction q as [|i q IH]; intros p t r Hok H x Hx; simpl in Hx.
  - injection Hx as <-. exists t, r. auto.
  - destruct p as [a| |k ps]; try discriminate.
    destruct (nth_error ps i) as [c|] eqn:Hc; [|discriminate].
    simpl in Hok. destruct t as [b| |k' ts]; try discriminate.
    apply andb_prop in Hok. destruct Hok as [_ Hok].
    destruct (forall2b_nth _ _ _ Hok _ _ Hc) as (s0 & Hs0 & Hcs).
    simpl in H. inv_bind H. injection H as <-.
    destruct (zipM_nth _ _ _ _ Hx0 _ _ _ Hc Hs0) as (c' & Hc' & Hn).
    destruct (IH _ _ _ Hcs Hc' _ Hx) as (s & y & Hs & Hxs & Hy & Hr).
    exists s, y. simpl. rewrite Hs0, Hn. auto.
Qed.

Lemma tree_map2_subtree (nl : bool) (f : pytree -> pytree -> result pytree) :
  forall q p t r, jtu.tree_map2 nl f p t = Ok r ->
  forall x, subtree p q = Some x ->
  exists s y, subtree t q = Some s /\ jtu.tree_map2 nl f x s = Ok y
              /\ subtree r q = Some y.
Proof.
  unfold jtu.tree_map2. intros q p t r H x Hx.
  destruct (jtu.prefix_ok p t) eqn:Hok; [|discriminate].
  destruct (map2_rec_subtree nl f q _ _ _ Hok H _ Hx) as (s & y & Hs & Hxs & Hy & Hr).
  exists s, y. rewrite Hxs. auto.
Qed.


Lemma mapM_Forall_Ok {A B : Type} (f : A -> result B) :
  forall l, Forall (fun x => exists y, f x = Ok y) l -> exists r, mapM f l = Ok r.
Proof.
  induction 1 as [|a l (y & Hy) _ (r & Hr)]; simpl.
  - eauto.
  - rewrite Hy. simpl. rewrite Hr. simpl. eauto.
Qed.



Lemma tree_map2_terminal (nl : bool) (f : pytree -> pytree -> result pytree)
  (a : atom) (t : pytree) :
  jtu.tree_map2 nl f (Leaf a) t = f (Leaf a) t.
Proof. reflexivity. Qed.

Lemma tree_map2_none (f : pytree -> pytree -> result pytree) (t : pytree) :
  jtu.tree_map2 true f PNone t = f PNone t.
Proof. reflexivity. Qed.


Lemma resolve_axis_scalar (E : env) (s elem : pytree) :
  _is_none s || is_int s = true ->
  _resolve_axis E s elem = jtu.tree_map false (fun _ => Ok s) elem.
Proof.
  intros H. unfold _resolve_axis. rewrite H. reflexivity.
Qed.


(* ================================================================= *)
(** ** Axis resolution *)



(** An entry of a specification on which the resolver fails makes the
    resolution of the whole specification fail. *)
Lemma tree_map2_raises_at (nl : bool) (f : pytree -> pytree -> result pytree)
  (p t x : pytree) (q : list nat) :
  subtree p q = Some x ->
  (forall s, exists e, jtu.tree_map2 nl f x s = Raise e) ->
  raises (jtu.tree_map2 nl f p t).
Proof.
  intros Hq Hx. destruct (jtu.tree_map2 nl f p t) as [r|e] eqn:H.
  - destruct (tree_map2_subtree _ _ _ _ _ _ H _ Hq) as (s & y & _ & Hy & _).
    destruct (Hx s) as (e & He). congruence.
  - exists e. reflexivity.
Qed.

(** C7.  An entry of an axis specification that is not [None], not an integer
    and not callable makes the resolver raise the axis-specification error,
    whatever it is resolved against; a specification that has such an entry
    anywhere is never resolved. *)
Theorem resolve_rejects_other_axis_specs (E : env) (a : atom) :
  is_int (Leaf a) = false -> callable (Leaf a) = false ->
  (forall elem, _resolve_axis E (Leaf a) elem = Raise axis_spec_error)
  /\ (forall value, _resolve_axes E value (Leaf a) = Raise axis_spec_error)
  /\ (forall spec value q,
         subtree spec q = Some (Leaf a) -> raises (_resolve_axes E value spec)).
Proof.
  intros Hint Hcall.
  assert (H1 : forall elem, _resolve_axis E (Leaf a) elem = Raise axis_spec_error).
  { intros elem. unfold _resolve_axis. rewrite Hint, Hcall. reflexivity. }
  repeat split.
  - exact H1.
  - intros value. unfold _resolve_axes. rewrite tree_map2_terminal. apply H1.
  - intros spec value q Hq. unfold _resolve_axes.
    apply (tree_map2_raises_at _ _ _ _ _ _ Hq).
    intros s. exists axis_spec_error. rewrite tree_map2_terminal. apply H1.
Qed.

Lemma resolve_rejects_other_axis_specs_witness :
  (forall elem, _resolve_axis example_env (Leaf (AStr "batch")) elem
                = Raise axis_spec_error)
  /\ (forall value, _resolve_axes example_env value (Leaf (AStr "batch"))
                    = Raise axis_spec_error)
  /\ (forall spec value q,
         subtree spec q = Some (Leaf (AStr "batch")) ->
         raises (_resolve_axes example_env value spec)).
Proof.
  apply (resolve_rejects_other_axis_specs example_env (AStr "batch"));
    reflexivity.
Defined.

(* ================================================================= *)
(** ** Calls with keyword arguments *)

Lemma nonempty_length {A : Type} (l : list A) :
  l <> [] -> negb (length l =? 0) = true.
Proof.
  destruct l; [congruence | reflexivity].
Qed.

(** C9.  A call of either wrapper (and [lower] of the parallel one) with at
    least one keyword argument raises the usage error at once: the state is
    the one before the call, so nothing was compiled and the backend was not
    asked anything. *)
Theorem keyword_arguments_rejected (E : env) (v : _VmapWrapper.t)
  (w : _PmapWrapper.t) (args : list pytree) (kwargs : dict) (st : state) :
  kwargs <> [] ->
  _VmapWrapper.__call__ E v args kwargs st = (Raise _VmapWrapper.kwargs_error, st)
  /\ _PmapWrapper.__call__ E w args kwargs st = (Raise _PmapWrapper.kwargs_error, st)
  /\ _PmapWrapper.lower E w args kwargs st = (Raise _PmapWrapper.kwargs_error, st).
Proof.
  intros H. apply nonempty_length in H.
  unfold _VmapWrapper.__call__, _PmapWrapper.__call__, _PmapWrapper.lower,
    _PmapWrapper._call.
  rewrite H. destruct (_PmapWrapper._filter_warning w); auto.
Qed.

Lemma keyword_arguments_rejected_witness :
  _VmapWrapper.__call__ example_env vmap_add [py_array [3] "float32"]
    [("y", py_int 3)] empty_state
  = (Raise _VmapWrapper.kwargs_error, empty_state)
  /\ _PmapWrapper.__call__ example_env pmap_scalar [py_array [3] "float32"]
       [("y", py_int 3)] empty_state
     = (Raise _PmapWrapper.kwargs_error, empty_state)
  /\ _PmapWrapper.lower example_env pmap_scalar [py_array [3] "float32"]
       [("y", py_int 3)] empty_state
     = (Raise _PmapWrapper.kwargs_error, empty_state).
Proof.
  apply (keyword_arguments_rejected example_env vmap_add pmap_scalar
           [py_array [3] "float32"] [("y", py_int 3)] empty_state).
  discriminate.
Defined.

(* ================================================================= *)
(** ** Wrappers as class attributes *)

(** C10.  Read through the class ([instance] is [None]), a wrapper stored as
    a class attribute is the wrapper itself; read through an instance, it is
    a callable that holds the instance, and calling it calls the wrapper
    with the instance as first positional argument. *)
Theorem get_binds_instance (E : env) (v : _VmapWrapper.t) (w : _PmapWrapper.t)
  (instance owner : pytree) :
  _VmapWrapper.__get__ v PNone owner = Itself v
  /\ _PmapWrapper.__get__ w PNone owner = Itself w
  /\ (instance <> PNone ->
      (exists p,
          _VmapWrapper.__get__ v instance owner = Bound p
          /\ forall args kwargs,
              call_Partial (_VmapWrapper.__call__ E) p args kwargs
              = _VmapWrapper.__call__ E v (instance :: args) kwargs)
      /\ (exists p,
             _PmapWrapper.__get__ w instance owner = Bound p
             /\ forall args kwargs,
                 call_Partial (_PmapWrapper.__call__ E) p args kwargs
                 = _PmapWrapper.__call__ E w (instance :: args) kwargs)).
Proof.
  repeat split; try reflexivity.
  - exists (jtu.mk_Partial v [instance]). split; [|reflexivity].
    unfold _VmapWrapper.__get__. destruct instance; simpl; congruence.
  - exists (jtu.mk_Partial w [instance]). split; [|reflexivity].
    unfold _PmapWrapper.__get__. destruct instance; simpl; congruence.
Qed.

Lemma get_binds_instance_witness :
  (exists p,
      _VmapWrapper.__get__ vmap_add (Leaf (AObj 7)) (Leaf (AObj 1)) = Bound p
      /\ forall args kwargs,
          call_Partial (_VmapWrapper.__call__ example_env) p args kwargs
          = _VmapWrapper.__call__ example_env vmap_add (Leaf (AObj 7) :: args) kwargs)
  /\ (exists p,
         _PmapWrapper.__get__ pmap_scalar (Leaf (AObj 7)) (Leaf (AObj 1)) = Bound p
         /\ forall args kwargs,
             call_Partial (_PmapWrapper.__call__ example_env) p args kwargs
             = _PmapWrapper.__call__ example_env pmap_scalar
                 (Leaf (AObj 7) :: args) kwargs).
Proof.
  apply (get_binds_instance example_env vmap_add pmap_scalar
           (Leaf (AObj 7)) (Leaf (AObj 1))).
  discriminate.
Defined.

(* ================================================================= *)
(** ** Validation at lift time *)

Lemma donate_unknown (donate : string) :
  donate <> "arrays" -> donate <> "warn" -> donate <> "none" ->
  existsb (String.eqb donate) ["arrays"; "warn"; "none"] = false.
Proof.
  intros H1 H2 H3. simpl.
  apply String.eqb_neq in H1, H2, H3. rewrite H1, H2, H3. reflexivity.
Qed.

(** C8.  Lifting a function with [filter_pmap] raises, before a wrapper
    exists that could be called, when [donate] is none of ["arrays"],
    ["warn"], ["none"], and when [static_broadcasted_argnums] or
    [donate_argnums] is among the backend options.  The error is a
    [ValueError] unless [deprecated_0_10] raised something else first; it is
    the error of the failed check itself when the checks before it pass.
    Lifting without a function only records the options, and raises the same
    once the function is supplied. *)
Theorem filter_pmap_validates_options (E : env) (fun_ : pytree) (o : options) :
  ((opt_donate o <> "arrays" /\ opt_donate o <> "warn" /\ opt_donate o <> "none")
   \/ dict_mem "static_broadcasted_argnums" (opt_kwargs o) = true
   \/ dict_mem "donate_argnums" (opt_kwargs o) = true) ->
  (exists e,
      filter_pmap E (Some fun_) o = Raise e
      /\ apply_pending filter_pmap E (Pending o) fun_ = Raise e
      /\ filter_pmap E None o = Ok (Pending o)
      /\ (check_deprecated E (opt_kwargs o) = Ok tt -> is_value_error e = true))
  /\ (check_deprecated E (opt_kwargs o) = Ok tt ->
      (dict_mem "static_broadcasted_argnums" (opt_kwargs o) = true
       \/ dict_mem "donate_argnums" (opt_kwargs o) = true) ->
      filter_pmap E (Some fun_) o = Raise reserved_pmapkwargs_error)
  /\ (check_deprecated E (opt_kwargs o) = Ok tt ->
      dict_mem "static_broadcasted_argnums" (opt_kwargs o) = false ->
      dict_mem "donate_argnums" (opt_kwargs o) = false ->
      (exists in_axes, named_in_axes E fun_ (opt_in_axes o) = Ok in_axes) ->
      filter_pmap E (Some fun_) o = Raise donate_error).
Proof.
  intros H.
  assert (Hres : forall d, dict_mem "static_broadcasted_argnums" d = true
                           \/ dict_mem "donate_argnums" d = true ->
                           existsb (fun x => dict_mem x d)
                             ["static_broadcasted_argnums"; "donate_argnums"] = true).
  { intros d [Hd | Hd]; simpl; rewrite Hd; [reflexivity | apply orb_true_r]. }
  split; [|split].
  - unfold apply_pending, filter_pmap.
    destruct (check_deprecated E (opt_kwargs o)) as [[]|e] eqn:Hdep; cbn [bind].
    2:{ exists e. repeat split. intros Hc. discriminate Hc. }
    destruct (existsb (fun x => dict_mem x (opt_kwargs o))
                ["static_broadcasted_argnums"; "donate_argnums"]) eqn:Hr.
    { exists reserved_pmapkwargs_error. repeat split. }
    destruct H as [(H1 & H2 & H3) | H]; [|rewrite (Hres _ H) in Hr; discriminate].
    destruct (named_in_axes E fun_ (opt_in_axes o)) as [in_axes|e] eqn:Hin;
      cbn [bind].
    + rewrite (donate_unknown _ H1 H2 H3). cbn [negb].
      exists donate_error. repeat split.
    + exists e. repeat split. intros _.
      unfold named_in_axes in Hin.
      destruct (opt_in_axes o) as [a| |[| |keys] vals]; try discriminate.
      destruct (fold_left _ _ _) as [new rest].
      destruct (negb (length rest =? 0)); [|discriminate].
      injection Hin as <-. reflexivity.
  - intros Hdep Hr. unfold filter_pmap. rewrite Hdep. cbn [bind].
    rewrite (Hres _ Hr). reflexivity.
  - intros Hdep H1 H2 (in_axes & Hin).
    destruct H as [(Ha & Hb & Hc) | [H | H]]; [|congruence|congruence].
    assert (Hr : existsb (fun x => dict_mem x (opt_kwargs o))
                   ["static_broadcasted_argnums"; "donate_argnums"] = false)
      by (simpl; rewrite H1, H2; reflexivity).
    unfold filter_pmap. rewrite Hdep. cbn [bind]. rewrite Hr, Hin. cbn [bind].
    rewrite (donate_unknown _ Ha Hb Hc). reflexivity.
Qed.

Lemma filter_pmap_validates_options_witness :
  (exists e,
      filter_pmap example_env (Some scalar_fun)
        (mk_options (if_array 0) (if_array 0) PNone None "bogus" []) = Raise e
      /\ apply_pending filter_pmap example_env
           (Pending (mk_options (if_array 0) (if_array 0) PNone None "bogus" []))
           scalar_fun = Raise e
      /\ filter_pmap example_env None
           (mk_options (if_array 0) (if_array 0) PNone None "bogus" [])
         = Ok (Pending (mk_options (if_array 0) (if_array 0) PNone None "bogus" []))
      /\ (check_deprecated example_env [] = Ok tt -> is_value_error e = true))
  /\ filter_pmap example_env (Some scalar_fun)
       (mk_options (if_array 0) (if_array 0) PNone None "bogus" [])
     = Raise donate_error.
Proof.
  destruct (filter_pmap_validates_options example_env scalar_fun
              (mk_options (if_array 0) (if_array 0) PNone None "bogus" []))
    as (H1 & _ & H3).
  - left. repeat split; discriminate.
  - split; [exact H1|].
    apply H3; try reflexivity. exists (if_array 0). reflexivity.
Defined.

(* ================================================================= *)
(** ** Output axes of the parallel map *)

(** An exception of a map is an exception of the mapped function. *)
Lemma tree_map_Raise (nl : bool) (f : pytree -> result pytree) (e : exn) :
  forall t, jtu.tree_map nl f t = Raise e -> exists x, f x = Raise e.
Proof.
  induction t as [a| |k ts IH] using pytree_ind'; simpl; intros H.
  - eauto.
  - destruct nl; [eauto | discriminate].
  - apply bind_Raise in H. destruct H as [H | (ts' & _ & H)]; [|discriminate].
    apply mapM_Raise in H. destruct H as (x & Hin & Hx).
    rewrite Forall_forall in IH. exact (IH x Hin Hx).
Qed.

Lemma check_map_out_axis_errors (R : nat) (x : pytree) (e : exn) :
  _check_map_out_axis R x = Raise e ->
  e = out_axis_bounds_error \/ e = out_axis_kind_error.
Proof.
  unfold _check_map_out_axis. destruct (as_int x) as [z|].
  - destruct (_ || _); intros H; [injection H as <-; auto | discriminate].
  - destruct (negb _); intros H; [injection H as <-; auto | discriminate].
Qed.

Lemma check_map_out_axis_bounds (R : nat) (x : pytree) (z : Z) :
  as_int x = Some z -> (z < - Z.of_nat R \/ Z.of_nat R <= z)%Z ->
  _check_map_out_axis R x = Raise out_axis_bounds_error.
Proof.
  intros Hx Hz. unfold _check_map_out_axis. rewrite Hx.
  destruct Hz as [Hz | Hz].
  - apply Z.ltb_lt in Hz. rewrite Hz. reflexivity.
  - apply Z.geb_le in Hz. rewrite Hz, orb_true_r. reflexivity.
Qed.

Lemma check_map_out_axis_kind (R : nat) (x : pytree) :
  as_int x = None -> x <> PNone ->
  _check_map_out_axis R x = Raise out_axis_kind_error.
Proof.
  intros Hx Hn. unfold _check_map_out_axis. rewrite Hx.
  destruct x; try reflexivity. congruence.
Qed.

(* ================================================================= *)
(** ** The compiled-entry cache *)

Lemma cache_lookup_same (k : key) (c : pmapped) (table : list (key * pmapped)) :
  cache_lookup k ((k, c) :: table) = Some c.
Proof.
  simpl. destruct (key_eq_dec k k); [reflexivity | congruence].
Qed.

Lemma cache_lookup_other (k k' : key) (c : pmapped)
  (table : list (key * pmapped)) :
  k <> k' -> cache_lookup k ((k', c) :: table) = cache_lookup k table.
Proof.
  intros H. simpl. destruct (key_eq_dec k k'); [congruence | reflexivity].
Qed.

(** A call that succeeded leaves its key in the table, with what it
    returned. *)
Lemma compile_cache_stores (body : key -> nat -> result pmapped) (k : key)
  (st st1 : state) (c : pmapped) :
  compile_cache body k st = (Ok c, st1) ->
  cache_lookup (py_key k) (cache st1) = Some c.
Proof.
  unfold compile_cache.
  destruct (cache_lookup (py_key k) (cache st)) as [c0|] eqn:Hl.
  - intros H. injection H as <- <-. exact Hl.
  - destruct (body k (compiles st)) as [c0|e]; intros H; [|discriminate].
    injection H as <- <-. apply cache_lookup_same.
Qed.

(** A call does not touch the entries of other keys. *)
Lemma compile_cache_keeps (body : key -> nat -> result pmapped) (k : key)
  (kn : key) (st : state) :
  kn <> py_key k ->
  cache_lookup kn (cache (snd (compile_cache body k st)))
  = cache_lookup kn (cache st).
Proof.
  intros Hk. unfold compile_cache.
  destruct (cache_lookup (py_key k) (cache st)) as [c0|]; [reflexivity|].
  destruct (body k (compiles st)) as [c0|e]; simpl; [|reflexivity].
  apply cache_lookup_other. exact Hk.
Qed.

(* ================================================================= *)
(** ** Steps of the state monad *)

Lemma bindM_Ok {A B : Type} (m : M A) (k : A -> M B) (st st' : state) (b : B) :
  bindM m k st = (Ok b, st') ->
  exists a st1, m st = (Ok a, st1) /\ k a st1 = (Ok b, st').
Proof.
  unfold bindM. destruct (m st) as [[a|e] st1]; intros H; [eauto | discriminate].
Qed.

Lemma liftR_Ok {A : Type} (r : result A) (st st' : state) (a : A) :
  liftR r st = (Ok a, st') -> r = Ok a /\ st' = st.
Proof.
  unfold liftR. intros H. injection H as -> ->. auto.
Qed.

Ltac inv_bindM H :=
  let a := fresh "x" in
  let st := fresh "st" in
  let Ha := fresh "Hx" in
  apply bindM_Ok in H; destruct H as (a & st & Ha & H).

Ltac inv_liftR H :=
  let Hst := fresh "Hst" in
  apply liftR_Ok in H; destruct H as (H & Hst); subst.

(* ================================================================= *)
(** ** Dimensions *)

Lemma canonicalize_axis_lt (a : Z) (rank i : nat) :
  jnp.canonicalize_axis a rank = Some i -> i < rank.
Proof.
  unfold jnp.canonicalize_axis.
  destruct (_ && _) eqn:H; [|discriminate].
  apply andb_prop in H. destruct H as [H1 H2].
  apply Z.leb_le in H1. apply Z.ltb_lt in H2.
  intros Hi. injection Hi as <-.
  destruct (a <? 0)%Z eqn:Ha; [apply Z.ltb_lt in Ha | apply Z.ltb_ge in Ha]; lia.
Qed.

Lemma canonicalize_axis_0 (rank : nat) :
  jnp.canonicalize_axis 0 (S rank) = Some 0.
Proof.
  unfold jnp.canonicalize_axis.
  replace ((- Z.of_nat (S rank) <=? 0)%Z) with true
    by (symmetry; apply Z.leb_le; lia).
  replace ((0 <? Z.of_nat (S rank))%Z) with true
    by (symmetry; apply Z.ltb_lt; lia).
  reflexivity.
Qed.

Lemma set_nth_length (i x : nat) (l : list nat) :
  length (jnp.set_nth i x l) = length l.
Proof.
  revert i. induction l as [|y l IH]; intros [|i]; simpl; auto.
Qed.

Lemma nth_set_nth (i x : nat) (l : list nat) (d : nat) :
  i < length l -> nth i (jnp.set_nth i x l) d = x.
Proof.
  revert i. induction l as [|y l IH]; intros [|i]; simpl; intros H;
    try lia; auto. apply IH. lia.
Qed.

(** Swapping dimension [0] with dimension [i] puts the leading dimension at
    position [i], and changes nothing when [i] is [0]. *)
Lemma swap_dims_leading (i n : nat) (s : list nat) :
  i < S (length s) ->
  nth i (jnp.swap_dims 0 i (n :: s)) 0 = n
  /\ length (jnp.swap_dims 0 i (n :: s)) = S (length s)
  /\ (i = 0 -> jnp.swap_dims 0 i (n :: s) = n :: s).
Proof.
  intros Hi. unfold jnp.swap_dims. repeat split.
  - apply nth_set_nth. rewrite set_nth_length. simpl. exact Hi.
  - rewrite !set_nth_length. reflexivity.
  - intros ->. reflexivity.
Qed.

(* ================================================================= *)
(** ** Recombination *)

Lemma mapM_cols_nth {A B C : Type} (f : A -> list B -> result C) (d : B) :
  forall l cols r, mapM_cols f d l cols = Ok r ->
  forall i x, nth_error l i = Some x ->
  exists y, f x (map (fun col => nth i col d) cols) = Ok y
            /\ nth_error r i = Some y.
Proof.
  induction l as [|a l IH]; intros cols r H i x Hx.
  - destruct i; discriminate.
  - simpl in H. inv_bind H. inv_bind H. injection H as <-.
    destruct i as [|i]; simpl in Hx.
    + injection Hx as <-. exists x0. split; [|reflexivity].
      rewrite <- Hx0. f_equal. apply map_ext. intros [|b col]; reflexivity.
    + destruct (IH _ _ Hx1 _ _ Hx) as (y & Hy & Hn).
      exists y. split; [|exact Hn].
      rewrite <- Hy. f_equal. rewrite map_map. apply map_ext.
      intros [|b col]; simpl; [destruct i|]; reflexivity.
Qed.

Lemma mapM_cols_nth_inv {A B C : Type} (f : A -> list B -> result C) (d : B) :
  forall l cols r, mapM_cols f d l cols = Ok r ->
  forall i y, nth_error r i = Some y ->
  exists x, nth_error l i = Some x
            /\ f x (map (fun col => nth i col d) cols) = Ok y.
Proof.
  induction l as [|a l IH]; intros cols r H i y Hy.
  - simpl in H. injection H as <-. destruct i; discriminate.
  - simpl in H. inv_bind H. inv_bind H. injection H as <-.
    destruct i as [|i]; simpl in Hy.
    + injection Hy as <-. exists a. split; [reflexivity|].
      rewrite <- Hx. f_equal. apply map_ext. intros [|b col]; reflexivity.
    + destruct (IH _ _ Hx0 _ _ Hy) as (c & Hn & Hf).
      exists c. split; [exact Hn|].
      rewrite <- Hf. f_equal. rewrite map_map. apply map_ext.
      intros [|b col]; simpl; [destruct i|]; reflexivity.
Qed.

(** The [i]-th children of trees that a node is a prefix of. *)
Lemma prefix_ok_children (k : kind) (ts : list pytree) (i : nat) (c : pytree) :
  nth_error ts i = Some c ->
  forall others, forallb (jtu.prefix_ok (PNode k ts)) others = true ->
  forallb (jtu.prefix_ok c)
    (map (fun col => nth i col PNone) (map filters.children others)) = true
  /\ Forall2 (fun o s => subtree o [i] = Some s) others
       (map (fun col => nth i col PNone) (map filters.children others)).
Proof.
  intros Hc. induction others as [|o others IH]; simpl; intros H.
  - split; [reflexivity | constructor].
  - apply andb_prop in H. destruct H as [Ho H].
    destruct (IH H) as (IH1 & IH2).
    destruct o as [b| |k' os]; try discriminate.
    apply andb_prop in Ho. destruct Ho as [_ Ho].
    destruct (forall2b_nth _ _ _ Ho _ _ Hc) as (s & Hs & Hcs).
    simpl. rewrite (nth_error_nth _ _ PNone Hs), Hcs, IH1.
    split; [reflexivity|]. constructor; [|exact IH2].
    simpl. rewrite Hs. reflexivity.
Qed.

Lemma Forall2_subtree_step (i : nat) (q : list nat) :
  forall others mids ss,
    Forall2 (fun o s => subtree o [i] = Some s) others mids ->
    Forall2 (fun o s => subtree o q = Some s) mids ss ->
    Forall2 (fun o s => subtree o (i :: q) = Some s) others ss.
Proof.
  intros others mids ss H. revert ss.
  induction H as [|o m others mids Hom _ IH]; intros ss Hs;
    inversion Hs; subst; constructor; [|auto].
  change (i :: q) with ([i] ++ q). rewrite subtree_app, Hom. assumption.
Qed.

(** [combine] commutes with taking a subtree of its first argument. *)
Lemma combine_rec_subtree :
  forall p a others r,
    forallb (jtu.prefix_ok a) others = true ->
    filters.combine_rec a others = Ok r ->
    forall x, subtree a p = Some x ->
    exists ss y,
      Forall2 (fun o s => subtree o p = Some s) others ss
      /\ forallb (jtu.prefix_ok x) ss = true
      /\ filters.combine_rec x ss = Ok y
      /\ subtree r p = Some y.
Proof.
  induction p as [|i p IH]; intros a others r Hok H x Hx; simpl in Hx.
  - injection Hx as <-. exists others, r. repeat split; try assumption.
    clear. induction others; constructor; auto.
  - destruct a as [b| |k ts]; try discriminate.
    destruct (nth_error ts i) as [c|] eqn:Hc; [|discriminate].
    simpl in H. inv_bind H. injection H as <-.
    destruct (mapM_cols_nth _ _ _ _ _ Hx0 _ _ Hc) as (y0 & Hy0 & Hn).
    destruct (prefix_ok_children k ts i c Hc others Hok) as (Hok' & Hmid).
    destruct (IH _ _ _ Hok' Hy0 _ Hx) as (ss & y & Hss & Hxs & Hy & Hr).
    exists ss, y. repeat split; try assumption.
    + apply (Forall2_subtree_step i p _ _ _ Hmid Hss).
    + simpl. rewrite Hn. exact Hr.
Qed.

Lemma combine_subtree (a : pytree) (others : list pytree) (r : pytree)
  (p : list nat) (x : pytree) :
  filters.combine (a :: others) = Ok r ->
  subtree a p = Some x ->
  exists ss y,
    Forall2 (fun o s => subtree o p = Some s) others ss
    /\ filters.combine (x :: ss) = Ok y
    /\ subtree r p = Some y.
Proof.
  unfold filters.combine. intros H Hx.
  destruct (forallb (jtu.prefix_ok a) others) eqn:Hok; [|discriminate].
  destruct (combine_rec_subtree p a others r Hok H x Hx)
    as (ss & y & Hss & Hxs & Hy & Hr).
  exists ss, y. rewrite Hxs. auto.
Qed.

(** A leaf of the first argument of [combine] is a leaf of the result. *)
Lemma combine_leaf (a : pytree) (others : list pytree) (r : pytree)
  (p : list nat) (x : atom) :
  filters.combine (a :: others) = Ok r ->
  subtree a p = Some (Leaf x) -> subtree r p = Some (Leaf x).
Proof.
  intros H Hx.
  destruct (combine_subtree a others r p (Leaf x) H Hx) as (ss & y & _ & Hy & Hr).
  unfold filters.combine in Hy.
  destruct (forallb _ ss); [|discriminate].
  simpl in Hy. injection Hy as <-. exact Hr.
Qed.

(* ================================================================= *)
(** ** Output axes of the batch map *)

Lemma partition_Ok (t : pytree) (spec : filters.filter_spec) (a b : pytree) :
  filters.partition t spec = Ok (a, b) ->
  filters.filter t spec false = Ok a /\ filters.filter t spec true = Ok b.
Proof.
  unfold filters.partition. intros H. inv_bind H. inv_bind H.
  injection H as <- <-. auto.
Qed.

(** The mask of the [None] entries of a tree of resolved axes. *)
Lemma none_mask_at (axes m : pytree) (p : list nat) (a : atom) :
  jtu.tree_map true (fun x => Ok (py_bool (_is_none x))) axes = Ok m ->
  subtree axes p = Some (Leaf a) ->
  subtree m p = Some (py_bool false).
Proof.
  intros H Hp.
  destruct (tree_map_subtree _ _ _ _ _ H _ Hp) as (y & Hy & Hm).
  simpl in Hy. injection Hy as <-. exact Hm.
Qed.

(** What a boolean of a mask does to the subtree it faces. *)
Lemma filter_mask_at (t m r : pytree) (inverse b : bool) (p : list nat) :
  filters.filter t (filters.Mask m) inverse = Ok r ->
  subtree m p = Some (Leaf (ABool b)) ->
  exists s, subtree t p = Some s
            /\ subtree r p = Some (filters.keep_if b inverse s).
Proof.
  unfold filters.filter. intros H Hp.
  destruct (tree_map2_subtree _ _ _ _ _ _ H _ Hp) as (s & y & Hs & Hy & Hr).
  rewrite tree_map2_terminal in Hy. injection Hy as <-. eauto.
Qed.

Ltac step_M H a st Ha :=
  apply bindM_Ok in H; destruct H as (a & st & Ha & H).

Ltac step_R H a Ha :=
  apply bind_Ok in H; destruct H as (a & Ha & H).

Lemma vmap_output_leaves (E : env) (self : _VmapWrapper.t)
  (args : list pytree) (st st' : state) (out : pytree) :
  _VmapWrapper.__call__ E self args [] st = (Ok out, st') ->
  exists n in_axes static_args dynamic_args _args _out _out_axes vmapd nonvmapd,
    call E (_VmapWrapper._fun self) _args = Ok _out
    /\ jax.vmap (_VmapWrapper._fun_wrapper E self static_args) in_axes
      (py_int 0, PNone) (_VmapWrapper._axis_name self)
      (_VmapWrapper._axis_size self) (_VmapWrapper._vmapkwargs self)
      dynamic_args
    = Ok (vmapd, mk_Static (nonvmapd, _out_axes))
    /\ _resolve_axes E _out (_VmapWrapper._out_axes self) = Ok _out_axes
    /\ forall p x axis z,
        leaf_at _out p = Some x ->
        subtree _out_axes p = Some axis ->
        axis = py_int z ->
        exists v i,
          jax.leaf_aval (Leaf x) = Ok v
          /\ leaf_at vmapd p = Some (AArray (mk_aval (n :: shape v) (dtype v)))
          /\ jnp.canonicalize_axis z (S (length (shape v))) = Some i
          /\ leaf_at out p
             = Some (AArray (mk_aval (jnp.swap_dims 0 i (n :: shape v)) (dtype v)))
          /\ nth i (jnp.swap_dims 0 i (n :: shape v)) 0 = n
          /\ (i = 0 -> jnp.swap_dims 0 i (n :: shape v) = n :: shape v).
Proof.
  unfold _VmapWrapper.__call__. cbn [length Nat.eqb negb].
  intros H.
  step_M H unmapped_axis st1 H1. inv_liftR H1.
  step_M H parts st2 H2. inv_liftR H2. destruct parts as [static_args dynamic_args].
  step_M H in_axes st3 H3. inv_liftR H3.
  step_M H u st4 H4.
  step_M H res st5 H5. inv_liftR H5.
  destruct res as [vmapd [[nonvmapd out_axes]]].
  cbn [value] in H.
  destruct (jtu.treedef_eq_dec _ _) as [Hstruct|]; [|discriminate].
  step_M H swapped st6 H6. inv_liftR H6. inv_liftR H.
  pose proof H5 as Hvmap.
  unfold jax.vmap in H5.
  step_R H5 ne Hsplit. destruct ne as [n example].
  step_R H5 fw Hfw. destruct fw as [_vmapd static].
  step_R H5 vb Hbatch. injection H5 as -> ->.
  unfold _VmapWrapper._fun_wrapper in Hfw.
  step_R Hfw _args0 Hcomb. step_R Hfw _args Hstar. step_R Hfw _out Hcall.
  step_R Hfw _out_axes Hres. step_R Hfw _none_axes Hnone.
  step_R Hfw parts Hpart. destruct parts as [_nonvmapd _vmapd'].
  injection Hfw as -> Hst. 
  subst.
  exists n, in_axes, static_args, dynamic_args, _args, _out, out_axes, vmapd,
    nonvmapd.
  split; [exact Hcall|]. split; [exact Hvmap|]. split; [exact Hres|].
  intros p x axis z Hleaf Haxis ->. unfold py_int in Haxis.
  pose proof (none_mask_at _ _ p (AInt z) Hnone Haxis) as Hmask.
  apply partition_Ok in Hpart. destruct Hpart as [_ Hv].
  destruct (filter_mask_at _ _ _ _ _ p Hv Hmask) as (s & Hs & Hvp).
  unfold leaf_at in Hleaf. rewrite Hs in Hleaf.
  destruct s as [x'| |]; try discriminate. injection Hleaf as ->.
  cbn in Hvp.
  cbn [fst] in Hbatch. unfold jax.batch_out, py_int in Hbatch.
  rewrite tree_map2_terminal in Hbatch.
  destruct (tree_map_subtree _ _ _ _ _ Hbatch _ Hvp) as (y & Hy & Hvb).
  cbn [jtu.tree_map] in Hy. unfold jax.batch_leaf in Hy. cbn [as_int] in Hy.
  step_R Hy v Hav. rewrite canonicalize_axis_0 in Hy. injection Hy as <-.
  change (jnp.insert_dim 0 n (shape v)) with (n :: shape v) in Hvb.
  destruct (tree_map2_subtree _ _ _ _ _ _ H6 _ Hvb) as (s & y & Hs2 & Hy2 & Hsw).
  rewrite Haxis in Hs2. injection Hs2 as <-.
  rewrite tree_map2_terminal in Hy2. unfold _swapaxes in Hy2.
  cbv beta iota in Hy2.
  unfold jnp.swapaxes in Hy2. cbn [shape dtype length] in Hy2.
  rewrite canonicalize_axis_0 in Hy2.
  destruct (jnp.canonicalize_axis z (S (length (shape v)))) as [i|] eqn:Hi;
    [|discriminate].
  injection Hy2 as <-.
  pose proof (combine_leaf _ _ _ p _ H Hsw) as Hout.
  destruct (swap_dims_leading i n (shape v) (canonicalize_axis_lt _ _ _ Hi))
    as (Hn & _ & H0).
  exists v, i. unfold leaf_at. rewrite Hvb, Hout. auto 10.
Qed.

Lemma vmap_identity_out_axis_1 (n d : nat) (dt : string) :
  filter_vmap example_env (Some identity_fun)
    (mk_options (if_array 0) (py_int 1) PNone None "none" [])
  = Ok (Lifted vmap_identity_out1)
  /\ _VmapWrapper.__call__ example_env vmap_identity_out1 [py_array [n; d] dt] []
       empty_state
     = (Ok (py_array [d; n] dt),
        mk_state [] 0
          [Vmapped (TupleOf [py_int 0]) (TupleOf [py_array [n; d] dt])]).
Proof.
  split; [reflexivity|].
  cbv -[Nat.eqb]. rewrite !Nat.eqb_refl. reflexivity.
Qed.

(* ================================================================= *)
(** ** Leaves of filtered trees *)

Lemma leaf_at_node (k : kind) (ts : list pytree) (i : nat) (q : list nat) :
  leaf_at (PNode k ts) (i :: q)
  = match nth_error ts i with Some c => leaf_at c q | None => None end.
Proof.
  unfold leaf_at. simpl. destruct (nth_error ts i); reflexivity.
Qed.

Lemma leaf_at_terminal (t : pytree) (p : list nat) (x : atom) :
  leaf_at t p = Some x -> forall k ts, t = PNode k ts -> p <> [].
Proof.
  intros H k ts -> ->. discriminate.
Qed.

Lemma governing_leaf (a : atom) (p : list nat) :
  governing (Leaf a) p = Some (Leaf a).
Proof. destruct p; reflexivity. Qed.

Lemma governing_none (p : list nat) : governing PNone p = Some PNone.
Proof. destruct p; reflexivity. Qed.

Lemma governing_node (k : kind) (ts : list pytree) (i : nat) (q : list nat) :
  governing (PNode k ts) (i :: q)
  = match nth_error ts i with Some c => governing c q | None => None end.
Proof. reflexivity. Qed.

Lemma erase_no_leaf (t : pytree) : forall p, leaf_at (filters.erase t) p = None.
Proof.
  induction t as [a| |k ts IH] using pytree_ind'; intros p; simpl.
  - destruct p; reflexivity.
  - destruct p; reflexivity.
  - destruct p as [|i q]; [reflexivity|].
    rewrite leaf_at_node, nth_error_map.
    destruct (nth_error ts i) as [c|] eqn:Hc; [|reflexivity].
    simpl. rewrite Forall_forall in IH.
    apply IH. apply (nth_error_In _ _ Hc).
Qed.

Lemma zipM_nth_none {A B C : Type} (f : A -> B -> result C) :
  forall l1 l2 r i, zipM f l1 l2 = Ok r ->
  nth_error l1 i = None -> nth_error r i = None.
Proof.
  intros l1 l2 r i H Hn.
  destruct (nth_error r i) as [y|] eqn:Hy; [|reflexivity].
  destruct (zipM_nth_inv _ _ _ _ H _ _ Hy) as (x & s & Hx & _). congruence.
Qed.

(** The leaves of [filter(t, mask, inverse)]: the leaves of [t] under a
    boolean of the mask that selects them. *)
Lemma filter_mask_leaves (inverse : bool) :
  forall m t r,
    filters.filter t (filters.Mask m) inverse = Ok r ->
    forall p x,
      leaf_at r p = Some x
      <-> (leaf_at t p = Some x
           /\ exists b, governing m p = Some (Leaf (ABool b))
                        /\ xorb b inverse = true).
Proof.
  unfold filters.filter, jtu.tree_map2.
  induction m as [a| |k ms IH] using pytree_ind'; intros t r H p x.
  - simpl in H.
    destruct a as [z|b|s|v|v|ax|id|id]; try discriminate.
    injection H as <-. unfold filters.keep_if. rewrite governing_leaf.
    destruct (xorb b inverse) eqn:Hb.
    + split; [intros Hl; split; eauto | intros [Hl _]; exact Hl].
    + rewrite erase_no_leaf. split; [discriminate|].
      intros (_ & b' & Hb' & Hx). injection Hb' as <-. congruence.
  - simpl in H. injection H as <-. rewrite governing_none.
    split; [destruct p; discriminate|].
    intros (_ & b & Hb & _). discriminate.
  - destruct (jtu.prefix_ok (PNode k ms) t) eqn:Hok; [|discriminate].
    simpl in Hok. destruct t as [a| |k' ts]; try discriminate.
    apply andb_prop in Hok. destruct Hok as [_ Hok].
    simpl in H. apply bind_Ok in H. destruct H as (rs & Hrs & H).
    injection H as <-.
    destruct p as [|i q].
    { split; [discriminate|]. intros [Hl _]. discriminate. }
    rewrite !leaf_at_node, governing_node.
    destruct (nth_error ms i) as [c|] eqn:Hc.
    + destruct (forall2b_nth _ _ _ Hok _ _ Hc) as (s & Hs & Hcs).
      destruct (zipM_nth _ _ _ _ Hrs _ _ _ Hc Hs) as (y & Hy & Hn).
      rewrite Hs, Hn. rewrite Forall_forall in IH.
      apply (IH c (nth_error_In _ _ Hc) s y). rewrite Hcs. exact Hy.
    + rewrite (zipM_nth_none _ _ _ _ _ Hrs Hc).
      split; [discriminate|]. intros (_ & b & Hb & _). discriminate.
Qed.

(** The entry that governs a position, after a map that puts a leaf at every
    leaf. *)
Lemma tree_map_leafwise_governing (nl : bool) (h : pytree -> atom) :
  forall t r,
    jtu.tree_map nl (fun x => Ok (Leaf (h x))) t = Ok r ->
    forall p,
      governing r p
      = match governing t p with
        | Some (Leaf a) => Some (Leaf (h (Leaf a)))
        | Some PNone => Some (if nl then Leaf (h PNone) else PNone)
        | _ => None
        end.
Proof.
  induction t as [a| |k ts IH] using pytree_ind'; intros r H p.
  - simpl in H. injection H as <-. rewrite !governing_leaf. reflexivity.
  - simpl in H. rewrite governing_none.
    destruct nl; injection H as <-;
      [apply governing_leaf | apply governing_none].
  - simpl in H. apply bind_Ok in H. destruct H as (rs & Hrs & H).
    injection H as <-. destruct p as [|i q]; [reflexivity|].
    rewrite !governing_node.
    destruct (nth_error ts i) as [c|] eqn:Hc.
    + destruct (mapM_nth _ _ _ Hrs _ _ Hc) as (y & Hy & Hn).
      rewrite Hn. rewrite Forall_forall in IH.
      apply (IH c (nth_error_In _ _ Hc) y Hy).
    + destruct (nth_error rs i) as [y|] eqn:Hy; [|reflexivity].
      destruct (mapM_nth_inv _ _ _ Hrs _ _ Hy) as (x & Hx & _). congruence.
Qed.

Lemma py_eq_int_spec (a : pytree) (i : Z) :
  py_eq_int a i = true <-> as_int a = Some i.
Proof.
  unfold py_eq_int. destruct (as_int a) as [z|].
  - rewrite Z.eqb_eq. split; congruence.
  - split; discriminate.
Qed.

(** The leaves of the bucket of axis [i]. *)
Lemma bucket_leaves (_out _out_axes _i_axes bucket : pytree) (i : Z) :
  jtu.tree_map false (fun a => Ok (py_bool (py_eq_int a i))) _out_axes
  = Ok _i_axes ->
  filters.filter _out (filters.Mask _i_axes) false = Ok bucket ->
  forall p x,
    leaf_at bucket p = Some x
    <-> (leaf_at _out p = Some x
         /\ exists a, governing _out_axes p = Some (Leaf a)
                      /\ as_int (Leaf a) = Some i).
Proof.
  intros Hm Hf p x.
  rewrite (filter_mask_leaves false _ _ _ Hf p x).
  pose proof (tree_map_leafwise_governing false
                (fun a => ABool (py_eq_int a i)) _ _ Hm p) as Hg.
  rewrite Hg. split; intros [Hl H]; (split; [exact Hl|]).
  - destruct H as (b & Hb & Hx).
    destruct (governing _out_axes p) as [[a| |k ts]|]; try discriminate.
    injection Hb as <-. exists a. split; [reflexivity|].
    apply py_eq_int_spec. destruct (py_eq_int (Leaf a) i); [reflexivity|discriminate].
  - destruct H as (a & Ha & Hi). rewrite Ha. exists true.
    apply py_eq_int_spec in Hi. rewrite Hi. auto.
Qed.

Lemma range_length (lo hi : Z) : length (range lo hi) = Z.to_nat (hi - lo).
Proof.
  unfold range. rewrite length_map, length_seq. reflexivity.
Qed.

Lemma range_nth (lo hi : Z) (k : nat) :
  k < Z.to_nat (hi - lo) ->
  nth_error (range lo hi) k = Some (lo + Z.of_nat k)%Z.
Proof.
  intros Hk. unfold range.
  rewrite nth_error_map, nth_error_seq.
  apply Nat.ltb_lt in Hk. rewrite Hk. reflexivity.
Qed.

Lemma range_symmetric (R k : nat) :
  length (range (- Z.of_nat R) (Z.of_nat R)) = 2 * R
  /\ (k < 2 * R ->
      nth_error (range (- Z.of_nat R) (Z.of_nat R)) k
      = Some (Z.of_nat k - Z.of_nat R)%Z).
Proof.
  split.
  - rewrite range_length. lia.
  - intros Hk. rewrite range_nth by lia. f_equal. lia.
Qed.

(* ================================================================= *)
(** ** The buckets of the parallel map *)

(** What a successful run of [fun_wrapped] went through. *)
Lemma fun_wrapped_Ok (E : env) (static : pytree) (R : nat) (_dynamic : pytree)
  (pmapd : list pytree) (dyn : pytree) (stat : Static (list atom * jtu.treedef)) :
  fun_wrapped E static R _dynamic = Ok (pmapd, dyn, stat) ->
  exists t f args_ dummy out_axes _args _out _out_axes _none_axes _nonpmapd,
    filters.combine [_dynamic; static] = Ok t
    /\ unpack 4 t = Ok [f; args_; dummy; out_axes]
    /\ star args_ = Ok _args
    /\ call E f _args = Ok _out
    /\ _resolve_axes E _out out_axes = Ok _out_axes
    /\ (exists u, jtu.tree_map false (_check_map_out_axis R) _out_axes = Ok u)
    /\ mapM
         (fun i =>
            _i_axes <- jtu.tree_map false
                         (fun a => Ok (py_bool (py_eq_int a i))) _out_axes ;;
            filters.filter _out (filters.Mask _i_axes) false)
         (range (- Z.of_nat R) (Z.of_nat R)) = Ok pmapd
    /\ jtu.tree_map true (fun x => Ok (py_bool (_is_none x))) _out_axes
       = Ok _none_axes
    /\ filters.filter _out (filters.Mask _none_axes) false = Ok _nonpmapd
    /\ compile_utils.hashable_partition _nonpmapd filters.is_array
       = Ok (dyn, value stat).
Proof.
  unfold fun_wrapped. intros H.
  step_R H t Hcomb. step_R H l Hunpack.
  destruct l as [|f [|args_ [|dummy [|out_axes [|extra l]]]]]; try discriminate.
  step_R H _args Hstar. step_R H _out Hcall. step_R H _out_axes Hres.
  step_R H u Hchk. step_R H _pmapd Hmap. step_R H _none_axes Hnone.
  step_R H _nonpmapd Hfil. step_R H parts Hpart.
  destruct parts as [d s]. injection H as <- <- <-.
  exists t, f, args_, dummy, out_axes, _args, _out, _out_axes, _none_axes,
    _nonpmapd.
  repeat split; eauto.
Qed.

(** The leaves of the part that is not mapped: those under a [None] of the
    resolved axes. *)
Lemma unmapped_leaves (_out _out_axes _none_axes _nonpmapd : pytree) :
  jtu.tree_map true (fun x => Ok (py_bool (_is_none x))) _out_axes
  = Ok _none_axes ->
  filters.filter _out (filters.Mask _none_axes) false = Ok _nonpmapd ->
  forall p x,
    leaf_at _nonpmapd p = Some x
    <-> (leaf_at _out p = Some x /\ governing _out_axes p = Some PNone).
Proof.
  intros Hm Hf p x.
  rewrite (filter_mask_leaves false _ _ _ Hf p x).
  pose proof (tree_map_leafwise_governing true
                (fun a => ABool (_is_none a)) _ _ Hm p) as Hg.
  rewrite Hg. split; intros [Hl H]; (split; [exact Hl|]).
  - destruct H as (b & Hb & Hx).
    destruct (governing _out_axes p) as [[a| |k ts]|]; try discriminate.
    + injection Hb as <-. discriminate.
    + reflexivity.
  - rewrite H. exists true. auto.
Qed.

Lemma fun_wrapped_buckets (E : env) (static : pytree) (R : nat)
  (_dynamic : pytree) (pmapd : list pytree) (dyn : pytree)
  (stat : Static (list atom * jtu.treedef)) :
  fun_wrapped E static R _dynamic = Ok (pmapd, dyn, stat) ->
  exists t f args_ dummy out_axes _args _out _out_axes _nonpmapd,
    filters.combine [_dynamic; static] = Ok t
    /\ unpack 4 t = Ok [f; args_; dummy; out_axes]
    /\ star args_ = Ok _args
    /\ call E f _args = Ok _out
    /\ _resolve_axes E _out out_axes = Ok _out_axes
    /\ length pmapd = 2 * R
    /\ (forall k, k < 2 * R ->
        exists bucket,
          nth_error pmapd k = Some bucket
          /\ forall p x,
              leaf_at bucket p = Some x
              <-> (leaf_at _out p = Some x
                   /\ exists a, governing _out_axes p = Some (Leaf a)
                                /\ as_int (Leaf a)
                                   = Some (Z.of_nat k - Z.of_nat R)%Z))
    /\ compile_utils.hashable_partition _nonpmapd filters.is_array
       = Ok (dyn, value stat)
    /\ (forall p x,
           leaf_at _nonpmapd p = Some x
           <-> (leaf_at _out p = Some x /\ governing _out_axes p = Some PNone)).
Proof.
  intros H.
  destruct (fun_wrapped_Ok _ _ _ _ _ _ _ H)
    as (t & f & args_ & dummy & out_axes & _args & _out & _out_axes
        & _none_axes & _nonpmapd & Hcomb & Hunpack & Hstar & Hcall & Hres
        & _ & Hmap & Hnone & Hfil & Hpart).
  exists t, f, args_, dummy, out_axes, _args, _out, _out_axes, _nonpmapd.
  repeat (split; [assumption|]).
  destruct (range_symmetric R 0) as [Hlen _].
  split; [rewrite (mapM_length _ _ _ Hmap); exact Hlen|].
  split; [|split; [exact Hpart | apply (unmapped_leaves _ _ _ _ Hnone Hfil)]].
  intros k Hk.
  destruct (range_symmetric R k) as [_ Hnth].
  destruct (mapM_nth _ _ _ Hmap _ _ (Hnth Hk)) as (bucket & Hb & Hn).
  exists bucket. split; [exact Hn|].
  step_R Hb _i_axes Hi.
  apply (bucket_leaves _ _ _ _ _ Hi Hb).
Qed.

(** The output axes that [_filter_pmap_cache] gives to [jax.pmap]. *)
Lemma pmap_out_axes_layout (E : env) (id : nat) (fun_names : string * string)
  (leaves : list atom) (treedef : jtu.treedef) (in_axes axis_name : pytree)
  (axis_size : option nat) (pmapkwargs : dict) (c : pmapped) :
  _filter_pmap_cache_body E id fun_names leaves treedef in_axes axis_name
    axis_size pmapkwargs = Ok c ->
  pm_out_axes c
  = TupleOf [PNode KList
               (map py_int (range (- Z.of_nat (pm_max_out_size c))
                              (Z.of_nat (pm_max_out_size c))));
             PNone; PNone]
  /\ pm_in_axes c = in_axes /\ pm_axis_size c = axis_size
  /\ exists struct, jtu.tree_unflatten treedef leaves
                    = Ok (TupleOf [pm_static c; struct])
                    \/ jtu.tree_unflatten treedef leaves
                       = Ok (PNode KList [pm_static c; struct]).
Proof.
  unfold _filter_pmap_cache_body. intros H.
  step_R H t Hun. step_R H l Hunpack.
  destruct l as [|static [|struct [|extra l]]]; try discriminate.
  step_R H struct_out Heval. injection H as <-. simpl.
  repeat split. exists struct.
  unfold unpack in Hunpack.
  destruct t as [a| |[| |keys] ts]; try discriminate;
    destruct (length ts =? 2); try discriminate;
    injection Hunpack as ->; auto.
Qed.

(* ================================================================= *)
(** ** Flattening *)

Lemma mapS_unflatten (ts : list pytree) :
  Forall (fun t => forall rest,
              jtu.unflatten_aux (jtu.tree_structure t) (jtu.tree_leaves t ++ rest)
              = Some (t, rest)) ts ->
  forall rest,
    mapS jtu.unflatten_aux (map jtu.tree_structure ts)
      (flat_map jtu.tree_leaves ts ++ rest) = Some (ts, rest).
Proof.
  induction 1 as [|t ts Ht _ IH]; intros rest; simpl; [reflexivity|].
  rewrite <- app_assoc, Ht, IH. reflexivity.
Qed.

Lemma unflatten_aux_flatten (t : pytree) :
  forall rest,
    jtu.unflatten_aux (jtu.tree_structure t) (jtu.tree_leaves t ++ rest)
    = Some (t, rest).
Proof.
  induction t as [a| |k ts IH] using pytree_ind'; intros rest; simpl;
    try reflexivity.
  rewrite (mapS_unflatten ts IH). reflexivity.
Qed.

(** [tree_unflatten] undoes [tree_flatten]. *)
Lemma tree_unflatten_flatten (t : pytree) :
  jtu.tree_unflatten (snd (jtu.tree_flatten t)) (fst (jtu.tree_flatten t)) = Ok t.
Proof.
  unfold jtu.tree_unflatten, jtu.tree_flatten. simpl.
  rewrite <- (app_nil_r (jtu.tree_leaves t)), unflatten_aux_flatten.
  reflexivity.
Qed.

(* ================================================================= *)
(** ** The table holds compiled entries only *)

Lemma cache_sound_empty (E : env) : cache_sound E empty_state.
Proof.
  intros k c H. discriminate.
Qed.

Lemma filter_pmap_cache_sound (E : env) (fun_names : string * string)
  (leaves : list atom) (treedef : jtu.treedef) (in_axes axis_name : pytree)
  (axis_size : option nat) (pmapkwargs : dict) (st st' : state)
  (r : result pmapped) :
  cache_sound E st ->
  _filter_pmap_cache E fun_names leaves treedef in_axes axis_name axis_size
    pmapkwargs st = (r, st') ->
  cache_sound E st'
  /\ backend_log st' = backend_log st
  /\ forall c, r = Ok c ->
       exists k0 id,
         py_key k0
         = py_key (mk_key fun_names leaves treedef in_axes axis_name axis_size
                     pmapkwargs)
         /\ _filter_pmap_cache_body E id (key_fun_names k0) (key_leaves k0)
              (key_treedef k0) (key_in_axes k0) (key_axis_name k0)
              (key_axis_size k0) (key_pmapkwargs k0) = Ok c.
Proof.
  intros Hs. unfold _filter_pmap_cache, compile_cache.
  set (k := mk_key fun_names leaves treedef in_axes axis_name axis_size
              pmapkwargs).
  destruct (cache_lookup (py_key k) (cache st)) as [c0|] eqn:Hl.
  - intros H. injection H as <- <-. repeat split; try assumption.
    intros c Hc. injection Hc as <-. apply (Hs (py_key k) c0 Hl).
  - destruct (_filter_pmap_cache_body E (compiles st) (key_fun_names k)
                (key_leaves k) (key_treedef k) (key_in_axes k)
                (key_axis_name k) (key_axis_size k) (key_pmapkwargs k))
      as [c0|e] eqn:Hb; intros H; injection H as <- <-.
    + repeat split.
      * intros k' c Hk'. simpl in Hk'.
        destruct (key_eq_dec k' (py_key k)) as [->|Hne].
        -- injection Hk' as <-. exists k, (compiles st). auto.
        -- apply (Hs k' c Hk').
      * intros c Hc. injection Hc as <-. exists k, (compiles st). auto.
    + repeat split; [exact Hs | discriminate].
Qed.

(* ================================================================= *)
(** ** Picking the first tree that has something at a position *)

Lemma combine_terminals (x : pytree) (ss : list pytree) (y : pytree) :
  (forall k ts, x <> PNode k ts) ->
  filters.combine (x :: ss) = Ok y -> y = filters._combine (x :: ss).
Proof.
  intros Hx. unfold filters.combine.
  destruct (forallb _ ss); [|discriminate].
  destruct x as [a| |k ts]; simpl; intros H;
    [injection H as <-; reflexivity | injection H as <-; reflexivity|].
  exfalso. apply (Hx k ts). reflexivity.
Qed.

Lemma _combine_picks :
  forall k Ts y,
    nth_error Ts k = Some (Leaf y) ->
    (forall j s, j < k -> nth_error Ts j = Some s -> s = PNone) ->
    filters._combine Ts = Leaf y.
Proof.
  induction k as [|k IH]; intros [|t Ts] y Hk Hbefore; try discriminate.
  - simpl in Hk. injection Hk as ->. reflexivity.
  - simpl in Hk. simpl.
    rewrite (Hbefore 0 t (Nat.lt_0_succ k) eq_refl). simpl.
    apply (IH Ts y Hk). intros j s Hj Hs.
    apply (Hbefore (S j) s); [lia | exact Hs].
Qed.

Lemma Forall2_nth_error_r {A B : Type} (P : A -> B -> Prop) :
  forall l1 l2, Forall2 P l1 l2 ->
  forall j s, nth_error l2 j = Some s ->
  exists o, nth_error l1 j = Some o /\ P o s.
Proof.
  induction 1 as [|a b l1 l2 Hab _ IH]; intros [|j] s Hs; simpl in *;
    try discriminate.
  - injection Hs as <-. eauto.
  - eauto.
Qed.

Lemma Forall2_nth_error_l {A B : Type} (P : A -> B -> Prop) :
  forall l1 l2, Forall2 P l1 l2 ->
  forall j o, nth_error l1 j = Some o ->
  exists s, nth_error l2 j = Some s /\ P o s.
Proof.
  induction 1 as [|a b l1 l2 Hab _ IH]; intros [|j] o Ho; simpl in *;
    try discriminate.
  - injection Ho as <-. eauto.
  - eauto.
Qed.

(** If the [k]-th tree has a leaf at [p] and the trees before it have [None]
    there, [combine] has that leaf at [p]. *)
Lemma combine_position (L : list pytree) (out : pytree) (p : list nat)
  (k : nat) (o : pytree) (y : atom) :
  filters.combine L = Ok out ->
  (forall j t, j < k -> nth_error L j = Some t -> subtree t p = Some PNone) ->
  nth_error L k = Some o -> subtree o p = Some (Leaf y) ->
  subtree out p = Some (Leaf y).
Proof.
  intros H Hbefore Hk Ho.
  destruct L as [|a others]; [destruct k; discriminate|].
  destruct k as [|k].
  - simpl in Hk. injection Hk as ->. apply (combine_leaf _ _ _ _ _ H Ho).
  - pose proof (Hbefore 0 a (Nat.lt_0_succ k) eq_refl) as Ha.
    destruct (combine_subtree _ _ _ _ _ H Ha) as (ss & y0 & Hss & Hy0 & Hout).
    apply combine_terminals in Hy0; [|discriminate].
    rewrite Hout, Hy0. f_equal. simpl.
    simpl in Hk.
    destruct (Forall2_nth_error_l _ _ _ Hss _ _ Hk) as (s & Hs & Hos).
    rewrite Ho in Hos. injection Hos as <-.
    apply (_combine_picks k ss y Hs).
    intros j s Hj Hsj.
    destruct (Forall2_nth_error_r _ _ _ Hss _ _ Hsj) as (t & Ht & Hts).
    rewrite (Hbefore (S j) t) in Hts; [congruence | lia | exact Ht].
Qed.

(* ================================================================= *)
(** ** One position of the output, through the parallel map *)

Lemma mapM_id {A : Type} (f : A -> result A) (l : list A) :
  Forall (fun x => f x = Ok x) l -> mapM f l = Ok l.
Proof.
  induction 1 as [|x l Hx _ IH]; simpl; [reflexivity|].
  rewrite Hx. simpl. rewrite IH. reflexivity.
Qed.

Lemma tree_map_id (f : pytree -> result pytree) :
  (forall x, f x = Ok x) -> forall t, jtu.tree_map false f t = Ok t.
Proof.
  intros Hf. induction t as [a| |k ts IH] using pytree_ind'; simpl.
  - apply Hf.
  - reflexivity.
  - rewrite (mapM_id _ _ IH). reflexivity.
Qed.

(** An output whose axis is [None] comes back as the function returned it. *)
Lemma batch_out_none (n : nat) (t r : pytree) :
  jax.batch_out n PNone t = Ok r -> r = t.
Proof.
  unfold jax.batch_out. rewrite tree_map2_none.
  rewrite (tree_map_id (jax.batch_leaf n PNone)); [congruence|].
  reflexivity.
Qed.

(** The two parts of [hashable_partition(t, is_array)] at the position of a
    leaf of [t], and what [hashable_combine] makes of them. *)
Lemma hashable_partition_combine (t dyn : pytree)
  (static : list atom * jtu.treedef) (r : pytree) :
  compile_utils.hashable_partition t filters.is_array = Ok (dyn, static) ->
  compile_utils.hashable_combine dyn static = Ok r ->
  forall p,
    (forall x, subtree t p = Some (Leaf x) -> subtree r p = Some (Leaf x))
    /\ (subtree t p = Some PNone -> subtree r p = Some PNone).
Proof.
  unfold compile_utils.hashable_partition, compile_utils.hashable_combine.
  intros Hp Hc p.
  step_R Hp parts Hpart. destruct parts as [d s]. injection Hp as <- <-.
  apply partition_Ok in Hpart. destruct Hpart as [Hd Hs].
  pose proof (tree_unflatten_flatten s) as Hrt.
  destruct (jtu.tree_flatten s) as [leaves treedef]. simpl in Hrt.
  rewrite Hrt in Hc. cbn [bind] in Hc.
  unfold filters.filter in Hd, Hs.
  split.
  - intros x Hx.
    destruct (tree_map_subtree _ _ _ _ _ Hd _ Hx) as (yd & Hyd & Hdp).
    destruct (tree_map_subtree _ _ _ _ _ Hs _ Hx) as (ys & Hys & Hsp).
    cbn [jtu.tree_map] in Hyd, Hys.
    injection Hyd as <-. injection Hys as <-.
    assert (Hcase : (subtree d p = Some (Leaf x))
                    \/ (subtree d p = Some PNone /\ subtree s p = Some (Leaf x))).
    { destruct x; cbn in Hdp, Hsp; auto. }
    destruct Hcase as [Hd1 | [Hd1 Hs1]].
    + apply (combine_leaf _ _ _ _ _ Hc Hd1).
    + apply (combine_position [d; s] r p 1 s x Hc); [|reflexivity|exact Hs1].
      intros [|j] t0 Hj Ht0; [|lia]. injection Ht0 as <-. exact Hd1.
  - intros Hx.
    destruct (tree_map_subtree _ _ _ _ _ Hd _ Hx) as (yd & Hyd & Hdp).
    destruct (tree_map_subtree _ _ _ _ _ Hs _ Hx) as (ys & Hys & Hsp).
    cbn [jtu.tree_map] in Hyd, Hys.
    injection Hyd as <-. injection Hys as <-.
    destruct (combine_subtree _ _ _ _ _ Hc Hdp) as (ss & y & Hss & Hy & Hr).
    inversion Hss as [|o s0 l l' Hos Hl]; subst. inversion Hl; subst.
    rewrite Hsp in Hos. injection Hos as <-.
    apply combine_terminals in Hy; [|discriminate].
    rewrite Hr, Hy. reflexivity.
Qed.

(** The bucket of axis [i] at a position of the output. *)
Lemma bucket_at (_out _out_axes bucket : pytree) (i : Z) (p : list nat)
  (x : atom) :
  (_i_axes <- jtu.tree_map false (fun a => Ok (py_bool (py_eq_int a i)))
                _out_axes ;;
   filters.filter _out (filters.Mask _i_axes) false) = Ok bucket ->
  subtree _out p = Some (Leaf x) ->
  (forall a, subtree _out_axes p = Some (Leaf a) ->
             subtree bucket p
             = Some (if py_eq_int (Leaf a) i then Leaf x else PNone))
  /\ (subtree _out_axes p = Some PNone -> subtree bucket p = Some PNone).
Proof.
  intros H Hx. step_R H _i_axes Hm. split.
  - intros a Ha.
    destruct (tree_map_subtree _ _ _ _ _ Hm _ Ha) as (y & Hy & Hmp).
    cbn [jtu.tree_map] in Hy. injection Hy as <-.
    destruct (filter_mask_at _ _ _ _ _ _ H Hmp) as (s & Hs & Hb).
    rewrite Hx in Hs. injection Hs as <-. rewrite Hb.
    destruct (py_eq_int (Leaf a) i); reflexivity.
  - intros Ha.
    destruct (tree_map_subtree _ _ _ _ _ Hm _ Ha) as (y & Hy & Hmp).
    cbn [jtu.tree_map] in Hy. injection Hy as <-.
    unfold filters.filter in H.
    destruct (tree_map2_subtree _ _ _ _ _ _ H _ Hmp) as (s & y & _ & Hy & Hb).
    cbn in Hy. injection Hy as <-. exact Hb.
Qed.

(** The buckets as [jax.pmap] returns them: the [j]-th one with the mapped
    dimension at axis [j - R]. *)
Lemma batch_out_buckets (n R : nat) (outs : list pytree) (outs' : pytree) :
  jax.batch_out n
    (PNode KList (map py_int (range (- Z.of_nat R) (Z.of_nat R))))
    (PNode KList outs) = Ok outs' ->
  (forall j b,
      nth_error outs j = Some b -> j < 2 * R ->
      exists y,
        nth_error (filters.children outs') j = Some y
        /\ jtu.tree_map false
             (jax.batch_leaf n (py_int (Z.of_nat j - Z.of_nat R))) b = Ok y)
  /\ (forall j y,
         nth_error (filters.children outs') j = Some y ->
         exists b,
           nth_error outs j = Some b /\ j < 2 * R
           /\ jtu.tree_map false
                (jax.batch_leaf n (py_int (Z.of_nat j - Z.of_nat R))) b = Ok y).
Proof.
  unfold jax.batch_out, jtu.tree_map2.
  destruct (jtu.prefix_ok _ _) eqn:Hok; [|discriminate].
  cbn [jtu.map2_rec]. intros H. step_R H rs Hrs. injection H as <-.
  cbn [filters.children].
  destruct (range_symmetric R 0) as [Hlen _].
  split.
  - intros j b Hb Hj.
    destruct (range_symmetric R j) as [_ Hnth].
    assert (Ha : nth_error (map py_int (range (- Z.of_nat R) (Z.of_nat R))) j
                 = Some (py_int (Z.of_nat j - Z.of_nat R))).
    { rewrite nth_error_map, (Hnth Hj). reflexivity. }
    destruct (zipM_nth _ _ _ _ Hrs _ _ _ Ha Hb) as (y & Hy & Hn).
    exists y. split; [exact Hn | exact Hy].
  - intros j y Hy.
    destruct (zipM_nth_inv _ _ _ _ Hrs _ _ Hy) as (a & b & Ha & Hb & Hf).
    assert (Hj : j < 2 * R).
    { rewrite <- Hlen, <- (length_map py_int). apply nth_error_Some. congruence. }
    destruct (range_symmetric R j) as [_ Hnth].
    rewrite nth_error_map, (Hnth Hj) in Ha. injection Ha as <-.
    exists b. auto.
Qed.

Lemma zipM_length {A B C : Type} (f : A -> B -> result C) :
  forall l1 l2 r, zipM f l1 l2 = Ok r -> length l1 = length l2 ->
  length r = length l1.
Proof.
  induction l1 as [|a l1 IH]; intros [|b l2] r H Hl; simpl in *;
    try discriminate.
  - injection H as <-. reflexivity.
  - step_R H y Hy. step_R H ys Hys. injection H as <-. simpl.
    f_equal. apply (IH l2 ys Hys). lia.
Qed.

Lemma batch_out_buckets_length (n R : nat) (outs : list pytree)
  (outs' : pytree) :
  jax.batch_out n
    (PNode KList (map py_int (range (- Z.of_nat R) (Z.of_nat R))))
    (PNode KList outs) = Ok outs' ->
  length (filters.children outs') = 2 * R.
Proof.
  unfold jax.batch_out, jtu.tree_map2.
  destruct (jtu.prefix_ok _ _) eqn:Hok; [|discriminate].
  simpl in Hok. apply forall2b_length in Hok.
  cbn [jtu.map2_rec]. intros H. step_R H rs Hrs. injection H as <-.
  cbn [filters.children].
  rewrite (zipM_length _ _ _ _ Hrs Hok), length_map.
  apply (proj1 (range_symmetric R 0)).
Qed.

(** The check of the output axes passed: an integer axis is in [[-R, R)]. *)
Lemma check_map_out_axis_Ok (R : nat) (x y : pytree) (i : Z) :
  _check_map_out_axis R x = Ok y -> as_int x = Some i ->
  (- Z.of_nat R <= i < Z.of_nat R)%Z.
Proof.
  unfold _check_map_out_axis. intros H Hi. rewrite Hi in H.
  destruct (i <? - Z.of_nat R)%Z eqn:H1; [discriminate|].
  destruct (i >=? Z.of_nat R)%Z eqn:H2; [discriminate|].
  apply Z.ltb_ge in H1. rewrite Z.geb_leb in H2. apply Z.leb_gt in H2. lia.
Qed.

(** What succeeds with the functions of [jax.pmap] succeeds with those of
    [jax.vmap], with the same result. *)
Lemma mapM_mono {A B : Type} (f g : A -> result B) :
  forall l, Forall (fun x => forall y, f x = Ok y -> g x = Ok y) l ->
  forall r, mapM f l = Ok r -> mapM g l = Ok r.
Proof.
  induction 1 as [|x l Hx _ IH]; simpl; intros r H; [exact H|].
  step_R H y Hy. step_R H ys Hys. injection H as <-.
  rewrite (Hx y Hy). simpl. rewrite (IH ys Hys). reflexivity.
Qed.

Lemma tree_map_mono (nl : bool) (f g : pytree -> result pytree) :
  (forall x y, f x = Ok y -> g x = Ok y) ->
  forall t r, jtu.tree_map nl f t = Ok r -> jtu.tree_map nl g t = Ok r.
Proof.
  intros Hfg. induction t as [a| |k ts IH] using pytree_ind'; simpl; intros r H.
  - auto.
  - destruct nl; auto.
  - step_R H rs Hrs. injection H as <-.
    rewrite (mapM_mono _ _ _ IH rs Hrs). reflexivity.
Qed.

Lemma zipM_mono {A B C : Type} (f g : A -> B -> result C) :
  forall l1, Forall (fun x => forall s y, f x s = Ok y -> g x s = Ok y) l1 ->
  forall l2 r, zipM f l1 l2 = Ok r -> zipM g l1 l2 = Ok r.
Proof.
  induction 1 as [|x l1 Hx _ IH]; intros [|s l2] r H; simpl in *; try exact H.
  step_R H y Hy. step_R H ys Hys. injection H as <-.
  rewrite (Hx s y Hy). simpl. rewrite (IH l2 ys Hys). reflexivity.
Qed.

Lemma map2_rec_mono (nl : bool) (f g : pytree -> pytree -> result pytree) :
  (forall x s y, f x s = Ok y -> g x s = Ok y) ->
  forall p t r, jtu.map2_rec nl f p t = Ok r -> jtu.map2_rec nl g p t = Ok r.
Proof.
  intros Hfg. induction p as [a| |k ps IH] using pytree_ind'; simpl;
    intros t r H.
  - auto.
  - destruct nl; auto.
  - destruct t as [b| |k' ts]; try discriminate.
    step_R H rs Hrs. injection H as <-.
    rewrite (zipM_mono _ _ _ IH ts rs Hrs). reflexivity.
Qed.

Lemma pmap_slice_leaf_Ok (axis x y : pytree) :
  jax.pmap_slice_leaf axis x = Ok y ->
  jax.slice_leaf axis x = Ok y /\ jax.pmap_axis_ok axis = true.
Proof.
  unfold jax.pmap_slice_leaf. destruct (jax.pmap_axis_ok axis); [auto|].
  discriminate.
Qed.

Lemma pmap_batch_leaf_Ok (n : nat) (axis x y : pytree) :
  jax.pmap_batch_leaf n axis x = Ok y ->
  jax.batch_leaf n axis x = Ok y /\ jax.pmap_axis_ok axis = true.
Proof.
  unfold jax.pmap_batch_leaf. destruct (jax.pmap_axis_ok axis); [auto|].
  discriminate.
Qed.

Lemma pmap_split_args_Ok (in_axes : pytree) (axis_size : option nat)
  (args : pytree) (r : nat * pytree) :
  jax.pmap_split_args in_axes axis_size args = Ok r ->
  jax.split_args in_axes axis_size args = Ok r.
Proof.
  unfold jax.pmap_split_args, jax.split_args.
  destruct (jtu.prefix_ok in_axes args); [|auto].
  intros H. step_R H sizes Hs. step_R H n Hn. step_R H example Hex.
  rewrite Hs. cbn [bind]. rewrite Hn. cbn [bind].
  rewrite (map2_rec_mono true _
             (fun axis sub => jtu.tree_map false (jax.slice_leaf axis) sub)
             (fun axis s y =>
                tree_map_mono false _ _
                  (fun x y Hy => proj1 (pmap_slice_leaf_Ok axis x y Hy)) s y)
             _ _ _ Hex).
  exact H.
Qed.

Lemma pmap_batch_out_Ok (n : nat) (out_axes out r : pytree) :
  jax.pmap_batch_out n out_axes out = Ok r ->
  jax.batch_out n out_axes out = Ok r.
Proof.
  unfold jax.pmap_batch_out, jax.batch_out, jtu.tree_map2.
  destruct (jtu.prefix_ok out_axes out); [|auto].
  apply map2_rec_mono. intros axis s y.
  apply tree_map_mono. intros x y' Hy.
  apply (proj1 (pmap_batch_leaf_Ok n axis x y' Hy)).
Qed.

(** A bucket that [jax.pmap] accepted at a negative axis has no leaf. *)
Lemma pmap_bucket_axis (n : nat) (axis : Z) (b y : pytree) (p : list nat)
  (x : atom) :
  jtu.tree_map false (jax.pmap_batch_leaf n (py_int axis)) b = Ok y ->
  subtree b p = Some (Leaf x) -> (0 <= axis)%Z.
Proof.
  intros H Hb. destruct (tree_map_subtree _ _ _ _ _ H _ Hb) as (y' & Hy' & _).
  cbn [jtu.tree_map] in Hy'. apply pmap_batch_leaf_Ok in Hy'.
  destruct Hy' as [_ Hok]. unfold jax.pmap_axis_ok, py_int in Hok.
  cbn [as_int] in Hok. apply Z.leb_le. exact Hok.
Qed.

(** The buckets as [jax.pmap] takes them. *)
Lemma pmap_batch_out_buckets (n R : nat) (outs : list pytree) (outs' : pytree) :
  jax.pmap_batch_out n
    (PNode KList (map py_int (range (- Z.of_nat R) (Z.of_nat R))))
    (PNode KList outs) = Ok outs' ->
  forall j y,
    nth_error (filters.children outs') j = Some y ->
    exists b,
      nth_error outs j = Some b /\ j < 2 * R
      /\ jtu.tree_map false
           (jax.pmap_batch_leaf n (py_int (Z.of_nat j - Z.of_nat R))) b = Ok y.
Proof.
  unfold jax.pmap_batch_out, jtu.tree_map2.
  destruct (jtu.prefix_ok _ _) eqn:Hok; [|discriminate].
  cbn [jtu.map2_rec]. intros H. step_R H rs Hrs. injection H as <-.
  cbn [filters.children].
  destruct (range_symmetric R 0) as [Hlen _].
  intros j y Hy.
  destruct (zipM_nth_inv _ _ _ _ Hrs _ _ Hy) as (a & b & Ha & Hb & Hf).
  assert (Hj : j < 2 * R).
  { rewrite <- Hlen, <- (length_map py_int). apply nth_error_Some. congruence. }
  destruct (range_symmetric R j) as [_ Hnth].
  rewrite nth_error_map, (Hnth Hj) in Ha. injection Ha as <-.
  exists b. auto.
Qed.

(** What a successful call of the compiled function went through. *)
Lemma pmap_call_Ok (E : env) (c : pmapped) (dynamic : pytree)
  (pmapd : list pytree) (dyn : pytree) (stat : Static (list atom * jtu.treedef)) :
  pm_out_axes c
  = TupleOf [PNode KList
               (map py_int (range (- Z.of_nat (pm_max_out_size c))
                              (Z.of_nat (pm_max_out_size c))));
             PNone; PNone] ->
  jax.pmap_call (fun_wrapped E (pm_static c) (pm_max_out_size c))
    (pm_in_axes c) (pm_out_axes c) (pm_axis_name c) (pm_axis_size c)
    (pm_kwargs c) dynamic = Ok (pmapd, dyn, stat) ->
  exists n example outs outs',
    jax.pmap_split_args (pm_in_axes c) (pm_axis_size c) dynamic
    = Ok (n, example)
    /\ fun_wrapped E (pm_static c) (pm_max_out_size c) example
       = Ok (outs, dyn, stat)
    /\ jax.pmap_batch_out n
         (PNode KList
            (map py_int (range (- Z.of_nat (pm_max_out_size c))
                           (Z.of_nat (pm_max_out_size c)))))
         (PNode KList outs) = Ok outs'
    /\ pmapd = filters.children outs'.
Proof.
  intros Hlayout. unfold jax.pmap_call. rewrite Hlayout. intros H.
  step_R H ne Hsplit. destruct ne as [n example].
  step_R H fw Hfw. destruct fw as [[outs unmapped] stat0].
  cbn [TupleOf] in H.
  step_R H outs' Hb. step_R H unmapped' Hu. injection H as <- <- <-.
  apply pmap_batch_out_Ok, batch_out_none in Hu. subst unmapped'.
  exists n, example, outs, outs'. auto.
Qed.

(** One leaf of a bucket after [jax.pmap] put the mapped dimension in. *)
Lemma batched_bucket_at (n : nat) (axis : Z) (b y : pytree) (p : list nat) :
  jtu.tree_map false (jax.batch_leaf n (py_int axis)) b = Ok y ->
  (subtree b p = Some PNone -> subtree y p = Some PNone)
  /\ (forall x, subtree b p = Some (Leaf x) ->
       exists v j,
         jax.leaf_aval (Leaf x) = Ok v
         /\ jnp.canonicalize_axis axis (S (length (shape v))) = Some j
         /\ subtree y p
            = Some (Leaf (AArray (mk_aval (jnp.insert_dim j n (shape v))
                                    (dtype v))))).
Proof.
  intros H. split.
  - intros Hb. destruct (tree_map_subtree _ _ _ _ _ H _ Hb) as (y' & Hy' & Hp).
    cbn in Hy'. injection Hy' as <-. exact Hp.
  - intros x Hb. destruct (tree_map_subtree _ _ _ _ _ H _ Hb) as (y' & Hy' & Hp).
    cbn [jtu.tree_map] in Hy'. unfold jax.batch_leaf, py_int in Hy'.
    cbn [as_int] in Hy'. step_R Hy' v Hv.
    destruct (jnp.canonicalize_axis axis (S (length (shape v)))) as [j|] eqn:Hj;
      [|discriminate].
    injection Hy' as <-. exists v, j. auto.
Qed.

Lemma cache_sound_ext (E : env) (st st' : state) :
  cache st' = cache st -> cache_sound E st -> cache_sound E st'.
Proof.
  intros Hc Hs k c. rewrite Hc. apply Hs.
Qed.

(** A call of the wrapper keeps the table sound. *)
Lemma call_keeps_cache_sound (E : env) (self : _PmapWrapper.t)
  (is_lower : bool) (args : list pytree) (kwargs : dict) (st st' : state)
  (r : result outcome) :
  cache_sound E st ->
  _PmapWrapper._call E self is_lower args kwargs st = (r, st') ->
  cache_sound E st'.
Proof.
  intros Hs. unfold _PmapWrapper._call.
  destruct (negb (length kwargs =? 0)).
  { unfold raiseM. intros H. injection H as <- <-. exact Hs. }
  unfold bindM at 1. unfold liftR at 1.
  destruct (_resolve_axes E (TupleOf args) (_PmapWrapper._in_axes self))
    as [in_axes|e]; [|intros H; injection H as <- <-; exact Hs].
  unfold bindM at 1. unfold liftR at 1.
  destruct (filters.partition _ _) as [[dynamic static]|e];
    [|intros H; injection H as <- <-; exact Hs].
  unfold bindM at 1. unfold liftR at 1.
  destruct (jtu.tree_map false ShapeDtypeStruct dynamic) as [struct|e];
    [|intros H; injection H as <- <-; exact Hs].
  destruct (jtu.tree_flatten (TupleOf [static; struct])) as [leaves treedef].
  unfold bindM at 1.
  destruct (_filter_pmap_cache E _ leaves treedef _ _ _ _ st) as [rc st4] eqn:H4.
  destruct (filter_pmap_cache_sound _ _ _ _ _ _ _ _ _ _ _ Hs H4) as (Hs4 & _ & _).
  destruct rc as [cached|e]; [|intros H; injection H as <- <-; exact Hs4].
  assert (Hlog : forall ev, cache_sound E
                   (mk_state (cache st4) (compiles st4) (backend_log st4 ++ [ev]))).
  { intros ev. apply (cache_sound_ext E st4); [reflexivity | exact Hs4]. }
  destruct is_lower.
  - unfold lower_cached, bindM, logM, liftR, retM.
    destruct (jax.pmap_call _ _ _ _ _ _ _) as [x|e];
      intros H; injection H as <- <-; apply Hlog.
  - unfold run_cached, bindM, logM, liftR, retM.
    destruct (jax.pmap_call _ _ _ _ _ _ _) as [[[pmapd dyn] stat]|e];
      [|intros H; injection H as <- <-; apply Hlog].
    destruct (compile_utils.hashable_combine dyn (value stat)) as [nonpmapd|e];
      [|intros H; injection H as <- <-; apply Hlog].
    destruct (filters.combine (pmapd ++ [nonpmapd])) as [out|e];
      intros H; injection H as <- <-; apply Hlog.
Qed.

(* ================================================================= *)
(** ** Which arguments enter [jax.vmap] *)

(** What the partition of [__call__] does: the leaves that go to [jax.vmap]
    are those under an entry of the specification [self._in_axes] that is
    not [None], the leaves that are closed over are those under a [None] of
    the specification; the resolved axes play no part. *)
Lemma vmap_partition_follows_spec (self : _VmapWrapper.t) (args : list pytree)
  (unmapped_axis static_args dynamic_args : pytree) :
  jtu.tree_map true (fun x => Ok (py_bool (_is_none x)))
    (_VmapWrapper._in_axes self) = Ok unmapped_axis ->
  filters.partition (TupleOf args) (filters.Mask unmapped_axis)
  = Ok (static_args, dynamic_args) ->
  forall p x,
    (leaf_at dynamic_args p = Some x
     <-> (leaf_at (TupleOf args) p = Some x
          /\ exists a, governing (_VmapWrapper._in_axes self) p = Some (Leaf a)))
    /\ (leaf_at static_args p = Some x
        <-> (leaf_at (TupleOf args) p = Some x
             /\ governing (_VmapWrapper._in_axes self) p = Some PNone)).
Proof.
  intros Hm Hp p x. apply partition_Ok in Hp. destruct Hp as [Hs Hd].
  rewrite (filter_mask_leaves true _ _ _ Hd p x).
  rewrite (filter_mask_leaves false _ _ _ Hs p x).
  rewrite (tree_map_leafwise_governing true (fun a => ABool (_is_none a))
             _ _ Hm p).
  destruct (governing (_VmapWrapper._in_axes self) p) as [[a| |k ts]|];
    (split; split; intros [Hl H]; (split; [exact Hl|]));
    try (destruct H as (b & Hb & Hx); try discriminate;
         injection Hb as <-; try discriminate);
    try (destruct H as (a' & Ha'); discriminate);
    try discriminate; eauto.
Qed.

(** C3, on the code.  [filter_vmap(add)] with the default [in_axes] called
    as [f(x, 3)], [x] of shape [(3,)]: the input axes resolve to [(0, None)],
    so the leaf [3] has the resolved axis [None]; yet the partition of
    [__call__], which looks at the specification before it is resolved, puts
    [3] among the dynamic arguments, nothing among the static ones, and [3]
    is handed to [jax.vmap].  With [in_axes=(0, None)] written out, the same
    call keeps [3] out of the arguments of [jax.vmap]. *)
Theorem vmap_passes_unmapped_leaf_to_backend :
  _resolve_axes example_env (TupleOf [py_array [3] "float32"; py_int 3])
    (_VmapWrapper._in_axes vmap_add)
  = Ok (TupleOf [py_int 0; PNone])
  /\ (unmapped_axis <- jtu.tree_map true (fun x => Ok (py_bool (_is_none x)))
                         (_VmapWrapper._in_axes vmap_add) ;;
      filters.partition (TupleOf [py_array [3] "float32"; py_int 3])
        (filters.Mask unmapped_axis))
     = Ok (TupleOf [PNone; PNone], TupleOf [py_array [3] "float32"; py_int 3])
  /\ _VmapWrapper.__call__ example_env vmap_add
       [py_array [3] "float32"; py_int 3] [] empty_state
     = (Ok (py_array [3] "float32"),
        mk_state [] 0
          [Vmapped (TupleOf [py_int 0; PNone])
             (TupleOf [py_array [3] "float32"; py_int 3])])
  /\ _VmapWrapper.__call__ example_env vmap_add_explicit
       [py_array [3] "float32"; py_int 3] [] empty_state
     = (Ok (py_array [3] "float32"),
        mk_state [] 0
          [Vmapped (TupleOf [py_int 0; PNone])
             (TupleOf [py_array [3] "float32"; PNone])]).
Proof.
  repeat split.
Qed.

(* ================================================================= *)
(** * Further properties *)

(** ** Callable axis specifications *)





(** ** The check of the output axes *)

(** X2.  [_check_map_out_axis] lets through [None] and the integers of
    [[-R, R)], nothing else; and the check of a tree of resolved output axes
    passes exactly when every leaf of the tree is such an integer (a [None]
    of the tree is not looked at). *)
Theorem check_map_out_axis_accepts (R : nat) :
  (forall x,
      (exists y, _check_map_out_axis R x = Ok y)
      <-> (x = PNone
           \/ exists z, as_int x = Some z
                        /\ (- Z.of_nat R <= z < Z.of_nat R)%Z))
  /\ (forall axes,
         (exists u, jtu.tree_map false (_check_map_out_axis R) axes = Ok u)
         <-> (forall p a,
                 subtree axes p = Some (Leaf a) ->
                 exists z, as_int (Leaf a) = Some z
                           /\ (- Z.of_nat R <= z < Z.of_nat R)%Z)).
Proof.
  assert (H1 : forall x,
             (exists y, _check_map_out_axis R x = Ok y)
             <-> (x = PNone
                  \/ exists z, as_int x = Some z
                               /\ (- Z.of_nat R <= z < Z.of_nat R)%Z)).
  { intros x. split.
    - intros (y & Hy). destruct (as_int x) as [z|] eqn:Hz.
      + right. exists z. split; [reflexivity|].
        apply (check_map_out_axis_Ok R x y z Hy Hz).
      + left. unfold _check_map_out_axis in Hy. rewrite Hz in Hy.
        destruct x; try discriminate. reflexivity.
    - intros [-> | (z & Hz & Hr)]; [exists PNone; reflexivity|].
      exists PNone. unfold _check_map_out_axis. rewrite Hz.
      replace (z <? - Z.of_nat R)%Z with false
        by (symmetry; apply Z.ltb_ge; lia).
      replace (z >=? Z.of_nat R)%Z with false
        by (symmetry; rewrite Z.geb_leb; apply Z.leb_gt; lia).
      reflexivity. }
  split; [exact H1|].
  intros axes. split.
  - intros (u & Hu) p a Hp.
    destruct (tree_map_subtree _ _ _ _ _ Hu _ Hp) as (y & Hy & _).
    simpl in Hy.
    destruct (proj1 (H1 (Leaf a)) (ex_intro _ y Hy)) as [Hn | Hz];
      [discriminate | exact Hz].
  - induction axes as [a| |k ts IH] using pytree_ind'; intros H.
    + simpl. apply H1. right. apply (H [] a). reflexivity.
    + exists PNone. reflexivity.
    + simpl.
      assert (Hall : Forall (fun c => exists y,
                        jtu.tree_map false (_check_map_out_axis R) c = Ok y) ts).
      { rewrite Forall_forall in IH. apply Forall_forall. intros c Hc.
        apply (IH c Hc). intros p a Hp.
        destruct (In_nth_error _ _ Hc) as (i & Hi).
        apply (H (i :: p) a). simpl. rewrite Hi. exact Hp. }
      destruct (mapM_Forall_Ok _ _ Hall) as (rs & Hrs).
      rewrite Hrs. simpl. eauto.
Qed.

(** ** Input axes given by parameter name *)

Lemma filter_all {A : Type} (f : A -> bool) (l : list A) :
  (forall x, In x l -> f x = true) -> List.filter f l = l.
Proof.
  induction l as [|a l IH]; simpl; intros H; [reflexivity|].
  rewrite (H a (or_introl eq_refl)). f_equal. apply IH. intros x Hx.
  apply H. right. exact Hx.
Qed.

Lemma filter_none {A : Type} (f : A -> bool) (l : list A) :
  (forall x, In x l -> f x = false) -> List.filter f l = [].
Proof.
  induction l as [|a l IH]; simpl; intros H; [reflexivity|].
  rewrite (H a (or_introl eq_refl)). apply IH. intros x Hx.
  apply H. right. exact Hx.
Qed.

Lemma filter_filter {A : Type} (f g : A -> bool) (l : list A) :
  List.filter g (List.filter f l) = List.filter (fun x => f x && g x) l.
Proof.
  induction l as [|a l IH]; simpl; [reflexivity|].
  destruct (f a); simpl; [destruct (g a)|]; rewrite IH; reflexivity.
Qed.

Lemma NoDup_map_filter {A B : Type} (h : A -> B) (f : A -> bool) (l : list A) :
  NoDup (map h l) -> NoDup (map h (List.filter f l)).
Proof.
  induction l as [|a l IH]; simpl; intros H; [constructor|].
  inversion H as [|x xs Hn Hd]; subst.
  destruct (f a); simpl; [|auto].
  constructor; [|auto]. intros Hin. apply Hn.
  apply in_map_iff in Hin. destruct Hin as (y & Hy & Hyl).
  apply filter_In in Hyl. apply in_map_iff. exists y. tauto.
Qed.

Lemma dict_get_none (k : string) (d : dict) :
  ~ In k (map fst d) -> dict_get k d = None.
Proof.
  induction d as [|[k' v] d IH]; simpl; intros H; [reflexivity|].
  destruct (String.eqb_spec k' k) as [->|Hne]; [tauto|].
  apply IH. tauto.
Qed.

Lemma dict_mem_get (k : string) (d : dict) :
  dict_mem k d = false -> dict_get k d = None.
Proof.
  unfold dict_mem. induction d as [|[k' v] d IH]; simpl; [reflexivity|].
  destruct (String.eqb k' k); simpl; [discriminate | exact IH].
Qed.

(** [d.pop(k, default)] takes the value of [k] and leaves the other items. *)
Lemma dict_pop_spec (k : string) (default : pytree) (d : dict) :
  NoDup (map fst d) ->
  dict_pop k default d
  = (match dict_get k d with Some v => v | None => default end,
     List.filter (fun kv => negb (String.eqb (fst kv) k)) d).
Proof.
  induction d as [|[k' v] d IH]; simpl; intros H; [reflexivity|].
  inversion H as [|x xs Hn Hd]; subst.
  destruct (String.eqb_spec k' k) as [->|Hne]; simpl.
  - f_equal. symmetry. apply filter_all. intros [k2 v2] Hin. simpl.
    destruct (String.eqb_spec k2 k) as [->|]; [|reflexivity].
    exfalso. apply Hn. apply in_map_iff. exists (k, v2). auto.
  - rewrite (IH Hd). reflexivity.
Qed.

Lemma dict_get_filter (k : string) (f : string * pytree -> bool) (d : dict) :
  (forall v, f (k, v) = true) ->
  dict_get k (List.filter f d) = dict_get k d.
Proof.
  intros Hf. induction d as [|[k' v] d IH]; simpl; [reflexivity|].
  destruct (String.eqb_spec k' k) as [->|Hne].
  - rewrite Hf. simpl. rewrite String.eqb_refl. reflexivity.
  - destruct (f (k', v)); simpl; [|exact IH].
    destruct (String.eqb_spec k' k); [congruence | exact IH].
Qed.

(** The loop over the parameters of the function. *)
Lemma named_in_axes_loop (default : pytree) :
  forall params acc d,
    NoDup params -> NoDup (map fst d) ->
    fold_left
      (fun '(new_in_axes, in_axes) param_name =>
         let '(v, in_axes) := dict_pop param_name default in_axes in
         (new_in_axes ++ [v], in_axes))
      params (acc, d)
    = (acc ++ map (fun name => match dict_get name d with
                               | Some v => v
                               | None => default
                               end) params,
       List.filter (fun kv => negb (existsb (String.eqb (fst kv)) params)) d).
Proof.
  induction params as [|name params IH]; intros acc d Hp Hd; simpl.
  - rewrite app_nil_r. f_equal. symmetry. apply filter_all. reflexivity.
  - inversion Hp as [|x xs Hn Hp']; subst.
    rewrite (dict_pop_spec name default d Hd).
    rewrite (IH _ _ Hp' (NoDup_map_filter _ _ _ Hd)).
    rewrite <- app_assoc. simpl. f_equal.
    + f_equal. f_equal. apply map_ext_in. intros n Hin.
      rewrite dict_get_filter; [reflexivity|].
      intros v. simpl. destruct (String.eqb_spec n name) as [->|]; [tauto|].
      reflexivity.
    + rewrite filter_filter. apply filter_ext. intros [k v]. simpl.
      rewrite negb_orb. reflexivity.
Qed.

Lemma map_fst_dict_items (keys : list string) :
  forall vals, length keys = length vals ->
  map fst (dict_items keys vals) = keys.
Proof.
  unfold dict_items.
  induction keys as [|k keys IH]; intros [|v vals] H; simpl in *;
    try discriminate; [reflexivity|].
  f_equal. apply IH. lia.
Qed.

Ltac rewrite_loop Hloop :=
  match type of Hloop with
  | _ = ?r =>
      match goal with
      | |- context [fold_left ?f ?l ?a] =>
          replace (fold_left f l a) with r by (symmetry; exact Hloop)
      end
  end.

(** X3.  With [in_axes] a dictionary, both lifting calls build the tuple of
    input axes from the parameters of the function, in their order: the entry
    of the dictionary for a parameter that has one, [if_array(0)] for the
    others; they raise the [ValueError] for names that "did not correspond to
    any argument" exactly when a key of the dictionary is not a parameter.
    Anything that is not a dictionary is taken as it is. *)
Theorem named_in_axes_by_parameter (E : env) (fun_ : pytree)
  (keys : list string) (vals : list pytree) :
  NoDup keys -> length keys = length vals ->
  NoDup (signature_parameters E fun_) ->
  ((forall k, In k keys -> In k (signature_parameters E fun_)) ->
   named_in_axes E fun_ (PNode (KDict keys) vals)
   = Ok (TupleOf
           (map (fun name =>
                   match dict_get name (dict_items keys vals) with
                   | Some v => v
                   | None => if_array 0
                   end)
              (signature_parameters E fun_))))
  /\ (forall k, In k keys -> ~ In k (signature_parameters E fun_) ->
      named_in_axes E fun_ (PNode (KDict keys) vals)
      = Raise unknown_in_axes_error
      /\ forall o,
          check_deprecated E (opt_kwargs o) = Ok tt ->
          opt_in_axes o = PNode (KDict keys) vals ->
          filter_vmap E (Some fun_) o = Raise unknown_in_axes_error)
  /\ (forall a, named_in_axes E fun_ (Leaf a) = Ok (Leaf a))
  /\ named_in_axes E fun_ PNone = Ok PNone
  /\ (forall ts, named_in_axes E fun_ (TupleOf ts) = Ok (TupleOf ts)).
Proof.
  intros Hk Hlen Hp.
  assert (Hd : NoDup (map fst (dict_items keys vals)))
    by (rewrite (map_fst_dict_items keys vals Hlen); exact Hk).
  assert (Hloop := named_in_axes_loop (if_array 0) (signature_parameters E fun_)
                     [] (dict_items keys vals) Hp Hd).
  split; [|split; [|repeat split]].
  - intros Hall. unfold named_in_axes. cbv zeta. rewrite_loop Hloop.
    rewrite filter_none.
    + reflexivity.
    + intros [k v] Hin. simpl. apply negb_false_iff. apply existsb_exists.
      exists k. split; [|apply String.eqb_refl].
      apply Hall. rewrite <- (map_fst_dict_items keys vals Hlen).
      apply in_map_iff. exists (k, v). auto.
  - intros k Hin Hnot.
    assert (Hraise : named_in_axes E fun_ (PNode (KDict keys) vals)
                     = Raise unknown_in_axes_error).
    { unfold named_in_axes. cbv zeta. rewrite_loop Hloop.
      rewrite <- (map_fst_dict_items keys vals Hlen) in Hin.
      apply in_map_iff in Hin. destruct Hin as ([k' v] & Hk' & Hin).
      simpl in Hk'. subst k'.
      assert (Hf : In (k, v)
                     (List.filter
                        (fun kv => negb (existsb (String.eqb (fst kv))
                                           (signature_parameters E fun_)))
                        (dict_items keys vals))).
      { apply filter_In. split; [exact Hin|]. simpl.
        apply negb_true_iff. apply not_true_is_false. intros Hex.
        apply existsb_exists in Hex. destruct Hex as (n & Hn & Heq).
        apply String.eqb_eq in Heq. subst n. tauto. }
      destruct (List.filter _ (dict_items keys vals)); [destruct Hf|].
      reflexivity. }
    split; [exact Hraise|].
    intros o Hdep Ho. unfold filter_vmap. rewrite Hdep. cbn [bind].
    rewrite Ho, Hraise. reflexivity.
Qed.

Lemma named_in_axes_by_parameter_witness :
  named_in_axes example_env add_fun (PNode (KDict ["y"]) [PNone])
  = Ok (TupleOf
          (map (fun name =>
                  match dict_get name (dict_items ["y"] [PNone]) with
                  | Some v => v
                  | None => if_array 0
                  end)
             (signature_parameters example_env add_fun)))
  /\ named_in_axes example_env add_fun (PNode (KDict ["z"]) [PNone])
     = Raise unknown_in_axes_error.
Proof.
  split.
  - apply (proj1 (named_in_axes_by_parameter example_env add_fun ["y"] [PNone]
                    ltac:(repeat constructor; simpl; tauto) eq_refl
                    ltac:(repeat constructor; simpl;
                          intuition discriminate))).
    simpl. intuition.
  - apply (proj1 (proj2 (named_in_axes_by_parameter example_env add_fun
                           ["z"] [PNone]
                           ltac:(repeat constructor; simpl; tauto) eq_refl
                           ltac:(repeat constructor; simpl;
                                 intuition discriminate))) "z").
    + simpl. tauto.
    + simpl. intuition discriminate.
Defined.

(** ** The options that [filter_pmap] hands to the backend *)

Lemma dict_get_set_same (k : string) (v : pytree) (d : dict) :
  dict_get k (dict_set k v d) = Some v.
Proof.
  induction d as [|[k' v'] d IH]; simpl.
  - rewrite String.eqb_refl. reflexivity.
  - destruct (String.eqb_spec k' k) as [->|Hne]; simpl.
    + rewrite String.eqb_refl. reflexivity.
    + destruct (String.eqb_spec k' k); [congruence | exact IH].
Qed.

Lemma dict_get_set_other (k k2 : string) (v : pytree) (d : dict) :
  k2 <> k -> dict_get k2 (dict_set k v d) = dict_get k2 d.
Proof.
  intros Hne. induction d as [|[k' v'] d IH]; simpl.
  - destruct (String.eqb_spec k k2); [congruence | reflexivity].
  - destruct (String.eqb_spec k' k) as [->|Hk]; simpl.
    + destruct (String.eqb_spec k k2); [congruence | reflexivity].
    + destruct (String.eqb_spec k' k2); [reflexivity | exact IH].
Qed.

(** X4.  When its checks pass, [filter_pmap] returns a wrapper of the given
    function that keeps the output axes, the axis name and the axis size as
    given and the input axes as [named_in_axes] returns them.  The wrapper
    warns about unused donations exactly when [donate] is ["arrays"]; its
    backend options have [donate_argnums = (0,)] exactly when [donate] is
    not ["none"], and are the given ones at every other key. *)
Theorem filter_pmap_donation (E : env) (fun_ : pytree) (o : options)
  (in_axes : pytree) :
  check_deprecated E (opt_kwargs o) = Ok tt ->
  dict_mem "static_broadcasted_argnums" (opt_kwargs o) = false ->
  dict_mem "donate_argnums" (opt_kwargs o) = false ->
  named_in_axes E fun_ (opt_in_axes o) = Ok in_axes ->
  opt_donate o = "arrays" \/ opt_donate o = "warn" \/ opt_donate o = "none" ->
  exists w,
    filter_pmap E (Some fun_) o = Ok (Lifted w)
    /\ _PmapWrapper._fun w = fun_
    /\ _PmapWrapper._in_axes w = in_axes
    /\ _PmapWrapper._out_axes w = opt_out_axes o
    /\ _PmapWrapper._axis_name w = opt_axis_name o
    /\ _PmapWrapper._axis_size w = opt_axis_size o
    /\ (_PmapWrapper._filter_warning w = true <-> opt_donate o = "arrays")
    /\ dict_get "donate_argnums" (_PmapWrapper._pmapkwargs w)
       = (if String.eqb (opt_donate o) "none" then None
          else Some (TupleOf [py_int 0]))
    /\ (forall k, k <> "donate_argnums" ->
        dict_get k (_PmapWrapper._pmapkwargs w) = dict_get k (opt_kwargs o)).
Proof.
  intros Hdep Hs Hd Hin Hdon.
  unfold filter_pmap. rewrite Hdep. cbn [bind].
  assert (Hex : existsb (fun x => dict_mem x (opt_kwargs o))
                  ["static_broadcasted_argnums"; "donate_argnums"] = false)
    by (simpl; rewrite Hs, Hd; reflexivity).
  rewrite Hex, Hin. cbn [bind].
  destruct Hdon as [Hdon|[Hdon|Hdon]]; rewrite Hdon; simpl;
    eexists; (split; [reflexivity|]); simpl; repeat split;
    try congruence; try discriminate;
    try (apply dict_get_set_same);
    try (intros k Hk; apply dict_get_set_other; exact Hk).
  apply dict_mem_get. exact Hd.
Qed.

Lemma filter_pmap_donation_witness :
  exists w,
    filter_pmap example_env (Some scalar_fun)
      (mk_options (if_array 0) (if_array 0) PNone None "warn" [])
    = Ok (Lifted w)
    /\ _PmapWrapper._filter_warning w = false
    /\ dict_get "donate_argnums" (_PmapWrapper._pmapkwargs w)
       = Some (TupleOf [py_int 0]).
Proof.
  destruct (filter_pmap_donation example_env scalar_fun
              (mk_options (if_array 0) (if_array 0) PNone None "warn" [])
              (if_array 0) eq_refl eq_refl eq_refl eq_refl
              (or_intror (or_introl eq_refl)))
    as (w & Hw & _ & _ & _ & _ & _ & Hwarn & Hget & _).
  exists w. split; [exact Hw|]. split; [|exact Hget].
  destruct (_PmapWrapper._filter_warning w); [|reflexivity].
  destruct Hwarn as [Hwarn _]. discriminate (Hwarn eq_refl).
Defined.

(** ** Calls of the parallel-map wrapper after the first *)

Lemma bindM_step {A B : Type} (m : M A) (k : A -> M B) (st st' : state) (a : A) :
  m st = (Ok a, st') -> bindM m k st = k a st'.
Proof. unfold bindM. intros ->. reflexivity. Qed.

Lemma compile_cache_hit (body : key -> nat -> result pmapped) (k : key)
  (st : state) (c : pmapped) :
  cache_lookup (py_key k) (cache st) = Some c ->
  compile_cache body k st = (Ok c, st).
Proof. unfold compile_cache. intros ->. reflexivity. Qed.

Lemma compile_cache_log (body : key -> nat -> result pmapped) (k : key)
  (st st1 : state) (r : result pmapped) :
  compile_cache body k st = (r, st1) -> backend_log st1 = backend_log st.
Proof.
  unfold compile_cache.
  destruct (cache_lookup (py_key k) (cache st));
    [|destruct (body k (compiles st))];
    intros H; injection H as _ <-; reflexivity.
Qed.

Ltac replay_R H :=
  erewrite bindM_step by (unfold liftR; rewrite H; reflexivity);
  cbv beta iota.

Lemma pmap_call_again (E : env) (self : _PmapWrapper.t) (args : list pytree)
  (st st1 : state) (out : pytree) :
  _PmapWrapper._call E self false args [] st = (Ok (Returned out), st1) ->
  exists cached dynamic,
    backend_log st1 = backend_log st ++ [Pmapped cached dynamic]
    /\ forall st2,
        cache st2 = cache st1 ->
        _PmapWrapper._call E self false args [] st2
        = (Ok (Returned out),
           mk_state (cache st2) (compiles st2)
             (backend_log st2 ++ [Pmapped cached dynamic]))
        /\ _PmapWrapper._call E self true args [] st2
           = (Ok (Lowered cached dynamic),
              mk_state (cache st2) (compiles st2)
                (backend_log st2 ++ [Lowering cached dynamic])).
Proof.
  intros H. unfold _PmapWrapper._call in H. cbn [length Nat.eqb negb] in H.
  step_M H in_axes sta H1. inv_liftR H1.
  step_M H parts stb H2. inv_liftR H2. destruct parts as [dynamic static].
  step_M H struct stc H3. inv_liftR H3.
  destruct (jtu.tree_flatten (TupleOf [static; struct])) as [leaves treedef]
    eqn:Hflat.
  step_M H cached std Hc.
  step_M H res ste Hrun. destruct res as [[pmapd dyn] stat].
  step_M H nonpmapd stf H4. inv_liftR H4.
  step_M H out' stg H5. inv_liftR H5.
  unfold retM in H. injection H as -> ->.
  unfold run_cached in Hrun. step_M Hrun u sth Hlog. inv_liftR Hrun.
  unfold logM in Hlog. injection Hlog as _ <-.
  unfold _filter_pmap_cache in Hc.
  pose proof (compile_cache_log _ _ _ _ _ Hc) as Hlog.
  pose proof (compile_cache_stores _ _ _ _ _ Hc) as Hlook.
  exists cached, dynamic. split; [simpl; rewrite Hlog; reflexivity|].
  intros st2 Hst2.
  assert (Hhit : _filter_pmap_cache E (get_fun_names E (_PmapWrapper._fun self))
                   leaves treedef
                   (TupleOf [PNone; in_axes; py_int 0; PNone])
                   (_PmapWrapper._axis_name self) (_PmapWrapper._axis_size self)
                   (_PmapWrapper._pmapkwargs self) st2
                 = (Ok cached, st2)).
  { unfold _filter_pmap_cache. apply compile_cache_hit.
    rewrite Hst2. exact Hlook. }
  split.
  - unfold _PmapWrapper._call. cbn [length Nat.eqb negb].
    replay_R H1. replay_R H2. replay_R H3. rewrite Hflat.
    erewrite bindM_step by exact Hhit. cbv beta iota.
    unfold run_cached.
    erewrite bindM_step
      by (erewrite bindM_step by reflexivity; unfold liftR; rewrite Hrun;
          reflexivity).
    cbv beta iota.
    replay_R H4. replay_R H5. reflexivity.
  - unfold _PmapWrapper._call. cbn [length Nat.eqb negb].
    replay_R H1. replay_R H2. replay_R H3. rewrite Hflat.
    erewrite bindM_step by exact Hhit. cbv beta iota.
    unfold lower_cached.
    erewrite bindM_step by reflexivity.
    replay_R Hrun. reflexivity.
Qed.

(** X5.  A call of the parallel-map wrapper that has returned left its
    compiled entry in the cache: as long as the table is the same, the same
    call returns the same output without running the body of
    [_filter_pmap_cache] again, and [lower] on the same arguments lowers the
    very entry that the call ran; both only add their request to what was
    asked of the backend. *)
Theorem pmap_call_again_hits_cache (E : env) (self : _PmapWrapper.t)
  (args : list pytree) (st st1 : state) (out : pytree) :
  _PmapWrapper.__call__ E self args [] st = (Ok (Returned out), st1) ->
  exists cached dynamic,
    backend_log st1 = backend_log st ++ [Pmapped cached dynamic]
    /\ forall st2,
        cache st2 = cache st1 ->
        _PmapWrapper.__call__ E self args [] st2
        = (Ok (Returned out),
           mk_state (cache st2) (compiles st2)
             (backend_log st2 ++ [Pmapped cached dynamic]))
        /\ _PmapWrapper.lower E self args [] st2
           = (Ok (Lowered cached dynamic),
              mk_state (cache st2) (compiles st2)
                (backend_log st2 ++ [Lowering cached dynamic])).
Proof.
  unfold _PmapWrapper.__call__, _PmapWrapper.lower.
  destruct (_PmapWrapper._filter_warning self); apply pmap_call_again.
Qed.

Lemma pmap_call_again_hits_cache_witness :
  exists cached dynamic,
    backend_log
      (snd (_PmapWrapper.__call__ example_env pmap_identity
              [py_array [2; 3] "float32"] [] empty_state))
    = backend_log empty_state ++ [Pmapped cached dynamic]
    /\ forall st2,
        cache st2
        = cache (snd (_PmapWrapper.__call__ example_env pmap_identity
                        [py_array [2; 3] "float32"] [] empty_state)) ->
        _PmapWrapper.__call__ example_env pmap_identity
          [py_array [2; 3] "float32"] [] st2
        = (Ok (Returned (py_array [2; 3] "float32")),
           mk_state (cache st2) (compiles st2)
             (backend_log st2 ++ [Pmapped cached dynamic]))
        /\ _PmapWrapper.lower example_env pmap_identity
             [py_array [2; 3] "float32"] [] st2
           = (Ok (Lowered cached dynamic),
              mk_state (cache st2) (compiles st2)
                (backend_log st2 ++ [Lowering cached dynamic])).
Proof.
  apply (pmap_call_again_hits_cache example_env pmap_identity
           [py_array [2; 3] "float32"] empty_state).
  vm_compute. reflexivity.
Defined.

(** ** The steps of a call of the batch-map wrapper *)

Lemma vmap_call_steps (E : env) (self : _VmapWrapper.t)
  (args : list pytree) (st st' : state) (out : pytree) :
  _VmapWrapper.__call__ E self args [] st = (Ok out, st') ->
  exists unmapped_axis static_args dynamic_args in_axes n example _args0 _args
         _out _out_axes _none_axes _nonvmapd _vmapd vmapd swapped,
    jtu.tree_map true (fun x => Ok (py_bool (_is_none x)))
      (_VmapWrapper._in_axes self) = Ok unmapped_axis
    /\ filters.partition (TupleOf args) (filters.Mask unmapped_axis)
       = Ok (static_args, dynamic_args)
    /\ _resolve_axes E (TupleOf args) (_VmapWrapper._in_axes self) = Ok in_axes
    /\ jax.split_args in_axes (_VmapWrapper._axis_size self) dynamic_args
       = Ok (n, example)
    /\ filters.combine [example; static_args] = Ok _args0
    /\ star _args0 = Ok _args
    /\ call E (_VmapWrapper._fun self) _args = Ok _out
    /\ _resolve_axes E _out (_VmapWrapper._out_axes self) = Ok _out_axes
    /\ jtu.tree_map true (fun x => Ok (py_bool (_is_none x))) _out_axes
       = Ok _none_axes
    /\ filters.partition _out (filters.Mask _none_axes) = Ok (_nonvmapd, _vmapd)
    /\ jax.batch_out n (py_int 0) _vmapd = Ok vmapd
    /\ jax.vmap (_VmapWrapper._fun_wrapper E self static_args) in_axes
         (py_int 0, PNone) (_VmapWrapper._axis_name self)
         (_VmapWrapper._axis_size self) (_VmapWrapper._vmapkwargs self)
         dynamic_args
       = Ok (vmapd, mk_Static (_nonvmapd, _out_axes))
    /\ jtu.tree_structure vmapd = jtu.tree_structure _out_axes
    /\ jtu.tree_map2 false _swapaxes vmapd _out_axes = Ok swapped
    /\ filters.combine [swapped; _nonvmapd] = Ok out
    /\ st' = mk_state (cache st) (compiles st)
               (backend_log st ++ [Vmapped in_axes dynamic_args]).
Proof.
  unfold _VmapWrapper.__call__. cbn [length Nat.eqb negb].
  intros H.
  step_M H unmapped_axis st1 H1. inv_liftR H1.
  step_M H parts st2 H2. inv_liftR H2. destruct parts as [static_args dynamic_args].
  step_M H in_axes st3 H3. inv_liftR H3.
  step_M H u st4 H4. unfold logM in H4. injection H4 as _ <-.
  step_M H res st5 H5. inv_liftR H5.
  destruct res as [vmapd [[nonvmapd out_axes]]].
  cbn [value] in H.
  destruct (jtu.treedef_eq_dec _ _) as [Hstruct|]; [|discriminate].
  step_M H swapped st6 H6. inv_liftR H6. inv_liftR H.
  pose proof H5 as Hvmap.
  unfold jax.vmap in H5.
  step_R H5 ne Hsplit. destruct ne as [n example].
  step_R H5 fw Hfw. destruct fw as [_vmapd static].
  step_R H5 vb Hbatch. injection H5 as -> ->.
  unfold _VmapWrapper._fun_wrapper in Hfw.
  step_R Hfw _args0 Hcomb. step_R Hfw _args Hstar. step_R Hfw _out Hcall.
  step_R Hfw _out_axes Hres. step_R Hfw _none_axes Hnone.
  step_R Hfw parts Hpart. destruct parts as [_nonvmapd _vmapd'].
  injection Hfw as -> Hst.
  subst.
  cbn [fst] in Hbatch.
  do 15 eexists.
  repeat (split; [eassumption|]). reflexivity.
Qed.

Lemma none_mask_at_none (axes m : pytree) (p : list nat) :
  jtu.tree_map true (fun x => Ok (py_bool (_is_none x))) axes = Ok m ->
  subtree axes p = Some PNone ->
  subtree m p = Some (py_bool true).
Proof.
  intros H Hp.
  destruct (tree_map_subtree _ _ _ _ _ H _ Hp) as (y & Hy & Hm).
  simpl in Hy. injection Hy as <-. exact Hm.
Qed.

(** X6.  In every call of the batch-map wrapper that returns, a leaf of the
    output of the function whose resolved output axis is [None] is not among
    the outputs that [jax.vmap] maps: it goes around [jax.vmap] in the
    [Static] part and the call returns it as the function returned it,
    without a mapped dimension. *)
Theorem vmap_keeps_unmapped_output_leaf (E : env) (self : _VmapWrapper.t)
  (args : list pytree) (st st' : state) (out : pytree) :
  _VmapWrapper.__call__ E self args [] st = (Ok out, st') ->
  exists in_axes static_args dynamic_args _args _out _out_axes vmapd nonvmapd,
    call E (_VmapWrapper._fun self) _args = Ok _out
    /\ jax.vmap (_VmapWrapper._fun_wrapper E self static_args) in_axes
         (py_int 0, PNone) (_VmapWrapper._axis_name self)
         (_VmapWrapper._axis_size self) (_VmapWrapper._vmapkwargs self)
         dynamic_args
       = Ok (vmapd, mk_Static (nonvmapd, _out_axes))
    /\ _resolve_axes E _out (_VmapWrapper._out_axes self) = Ok _out_axes
    /\ forall p x,
        leaf_at _out p = Some x ->
        subtree _out_axes p = Some PNone ->
        leaf_at vmapd p = None
        /\ leaf_at nonvmapd p = Some x
        /\ leaf_at out p = Some x.
Proof.
  intros H.
  destruct (vmap_call_steps _ _ _ _ _ _ H)
    as (unmapped_axis & static_args & dynamic_args & in_axes & n & example
        & _args0 & _args & _out & _out_axes & _none_axes & _nonvmapd & _vmapd
        & vmapd & swapped & _ & _ & _ & _ & _ & _ & Hcall & Hres & Hnone
        & Hpart & Hbatch & Hvmap & _ & Hswap & Hcomb & _).
  exists in_axes, static_args, dynamic_args, _args, _out, _out_axes, vmapd,
    _nonvmapd.
  split; [exact Hcall|]. split; [exact Hvmap|]. split; [exact Hres|].
  intros p x Hleaf Haxis.
  pose proof (none_mask_at_none _ _ p Hnone Haxis) as Hmask.
  apply partition_Ok in Hpart. destruct Hpart as [Hn Hv].
  destruct (filter_mask_at _ _ _ _ _ p Hn Hmask) as (s & Hs & Hnp).
  destruct (filter_mask_at _ _ _ _ _ p Hv Hmask) as (s' & Hs' & Hvp).
  rewrite Hs in Hs'. injection Hs' as <-.
  unfold leaf_at in Hleaf. rewrite Hs in Hleaf.
  destruct s as [x'| |]; try discriminate. injection Hleaf as ->.
  cbn in Hnp, Hvp.
  unfold jax.batch_out, py_int in Hbatch.
  rewrite tree_map2_terminal in Hbatch.
  destruct (tree_map_subtree _ _ _ _ _ Hbatch _ Hvp) as (y & Hy & Hvb).
  cbn [jtu.tree_map] in Hy. injection Hy as <-.
  destruct (tree_map2_subtree _ _ _ _ _ _ Hswap _ Hvb) as (s & y & _ & Hy2 & Hsw).
  unfold jtu.tree_map2 in Hy2. cbn in Hy2. injection Hy2 as <-.
  assert (Hout : subtree out p = Some (Leaf x)).
  { apply (combine_position [swapped; _nonvmapd] out p 1 _nonvmapd x Hcomb).
    - intros j t Hj Ht. destruct j as [|j]; [|lia].
      simpl in Ht. injection Ht as <-. exact Hsw.
    - reflexivity.
    - exact Hnp. }
  unfold leaf_at. rewrite Hvb, Hnp, Hout. auto.
Qed.

Lemma vmap_keeps_unmapped_output_leaf_witness :
  exists in_axes static_args dynamic_args _args _out _out_axes vmapd nonvmapd,
    call example_env scalar_fun _args = Ok _out
    /\ jax.vmap
         (_VmapWrapper._fun_wrapper example_env
            (_VmapWrapper.mk scalar_fun (if_array 0) PNone PNone None [])
            static_args)
         in_axes (py_int 0, PNone) PNone None [] dynamic_args
       = Ok (vmapd, mk_Static (nonvmapd, _out_axes))
    /\ _resolve_axes example_env _out PNone = Ok _out_axes
    /\ forall p x,
        leaf_at _out p = Some x ->
        subtree _out_axes p = Some PNone ->
        leaf_at vmapd p = None
        /\ leaf_at nonvmapd p = Some x
        /\ leaf_at (py_array [] "float32") p = Some x.
Proof.
  apply (vmap_keeps_unmapped_output_leaf example_env
           (_VmapWrapper.mk scalar_fun (if_array 0) PNone PNone None [])
           [py_array [4] "float32"] empty_state
           (mk_state [] 0
              [Vmapped (TupleOf [py_int 0])
                 (TupleOf [py_array [4] "float32"])])
           (py_array [] "float32")).
  reflexivity.
Defined.

(** ** The assertion of the batch-map wrapper *)

Lemma tree_map_leafwise (f : pytree -> result pytree) :
  forall t r, jtu.tree_map false f t = Ok r -> leafwise t r.
Proof.
  induction t as [a| |k ts IH] using pytree_ind'; simpl; intros r H.
  - constructor.
  - injection H as <-. constructor.
  - step_R H rs Hrs. injection H as <-. constructor.
    revert rs Hrs. induction IH as [|t ts Ht _ IHts]; simpl; intros rs Hrs.
    + injection Hrs as <-. constructor.
    + step_R Hrs y Hy. step_R Hrs ys Hys. injection Hrs as <-.
      constructor; auto.
Qed.

Lemma resolve_axis_leafwise (E : env) (spec t axes : pytree) :
  _resolve_axis E spec t = Ok axes -> leafwise t axes.
Proof.
  unfold _resolve_axis.
  destruct (_is_none spec || is_int spec); [apply tree_map_leafwise|].
  destruct (callable spec); [apply tree_map_leafwise | discriminate].
Qed.

Lemma kind_eqb_eq (k k' : kind) : kind_eqb k k' = true -> k = k'.
Proof. unfold kind_eqb. destruct (kind_eq_dec k k'); [auto | discriminate]. Qed.

(** The resolved axes of a tree are the tree with other leaves. *)
Lemma resolve_axes_leafwise (E : env) :
  forall spec t axes, _resolve_axes E t spec = Ok axes -> leafwise t axes.
Proof.
  unfold _resolve_axes, jtu.tree_map2.
  induction spec as [a| |k ps IH] using pytree_ind'; intros t axes H;
    destruct (jtu.prefix_ok _ t) eqn:Hok; try discriminate.
  - apply (resolve_axis_leafwise E (Leaf a)). exact H.
  - apply (resolve_axis_leafwise E PNone). exact H.
  - simpl in Hok. destruct t as [b| |k' ts]; try discriminate.
    apply andb_prop in Hok. destruct Hok as [Hk Hok].
    apply kind_eqb_eq in Hk. subst k'.
    simpl in H. step_R H rs Hrs. injection H as <-. constructor.
    revert ts rs Hok Hrs.
    induction IH as [|p ps Hp _ IHps]; intros [|t ts] rs Hok Hrs;
      simpl in Hok; try discriminate.
    + simpl in Hrs. injection Hrs as <-. constructor.
    + apply andb_prop in Hok. destruct Hok as [Hpt Hok].
      simpl in Hrs. step_R Hrs y Hy. step_R Hrs ys Hys. injection Hrs as <-.
      constructor; [|eauto].
      apply Hp. rewrite Hpt. exact Hy.
Qed.

(** What [jax.vmap] returns for the part of the output that is mapped has
    the structure of the resolved output axes. *)
Lemma vmapd_structure (n : nat) :
  forall t axes, leafwise t axes ->
  forall m v r,
    jtu.tree_map true (fun x => Ok (py_bool (_is_none x))) axes = Ok m ->
    filters.filter t (filters.Mask m) true = Ok v ->
    jtu.tree_map false (jax.batch_leaf n (Leaf (AInt 0))) v = Ok r ->
    jtu.tree_structure r = jtu.tree_structure axes.
Proof.
  unfold filters.filter, jtu.tree_map2.
  induction t as [a| |k ts IH] using pytree_ind'; intros axes Hl m v r Hm Hv Hr;
    inversion Hl; subst.
  - destruct axes as [b| |k ys].
    + simpl in Hm. injection Hm as <-. cbn in Hv. injection Hv as <-.
      cbn [jtu.tree_map] in Hr. unfold jax.batch_leaf in Hr. cbn [as_int] in Hr.
      step_R Hr w Hw. destruct (jnp.canonicalize_axis _ _); [|discriminate].
      injection Hr as <-. reflexivity.
    + simpl in Hm. injection Hm as <-. cbn in Hv. injection Hv as <-.
      simpl in Hr. injection Hr as <-. reflexivity.
    + simpl in Hm. step_R Hm ms Hms. injection Hm as <-.
      simpl in Hv. discriminate.
  - simpl in Hm. injection Hm as <-. cbn in Hv. injection Hv as <-.
    simpl in Hr. injection Hr as <-. reflexivity.
  - simpl in Hm. step_R Hm ms Hms. injection Hm as <-.
    destruct (jtu.prefix_ok (PNode k ms) (PNode k ts)) eqn:Hok; [|discriminate].
    simpl in Hok. apply andb_prop in Hok. destruct Hok as [_ Hok].
    simpl in Hv. step_R Hv vs Hvs. injection Hv as <-.
    simpl in Hr. step_R Hr outs Houts. injection Hr as <-.
    simpl. f_equal.
    clear Hl.
    match goal with H : Forall2 leafwise ts ?rs |- _ =>
      revert IH ms vs outs Hms Hok Hvs Houts;
      induction H as [|t y ts ys Hty Hrest IHrest]
    end; intros IH ms vs outs Hms Hok Hvs Houts.
    + simpl in Hms. injection Hms as <-. simpl in Hvs. injection Hvs as <-.
      simpl in Houts. injection Houts as <-. reflexivity.
    + simpl in Hms. step_R Hms m0 Hm0. step_R Hms ms' Hms'. injection Hms as <-.
      simpl in Hok. apply andb_prop in Hok. destruct Hok as [Hok0 Hok].
      simpl in Hvs. step_R Hvs v0 Hv0. step_R Hvs vs' Hvs'. injection Hvs as <-.
      simpl in Houts. step_R Houts o0 Ho0. step_R Houts outs' Houts'.
      injection Houts as <-.
      inversion IH as [|? ? IH0 IHts]; subst.
      simpl. f_equal.
      * apply (IH0 y Hty m0 v0 o0 Hm0); [|exact Ho0].
        rewrite Hok0. exact Hv0.
      * apply (IHrest IHts ms' vs' outs' Hms' Hok Hvs' Houts').
Qed.

(** X7.  The assertion of [_VmapWrapper.__call__] cannot fail: whenever
    [jax.vmap] returns from the wrapped function, the mapped outputs it
    returns have the tree structure of the resolved output axes, whatever the
    function returns and whatever the output axes are. *)
Theorem vmap_assertion_holds (E : env) (self : _VmapWrapper.t)
  (static_args in_axes dynamic_args vmapd nonvmapd out_axes : pytree) :
  jax.vmap (_VmapWrapper._fun_wrapper E self static_args) in_axes
    (py_int 0, PNone) (_VmapWrapper._axis_name self)
    (_VmapWrapper._axis_size self) (_VmapWrapper._vmapkwargs self)
    dynamic_args
  = Ok (vmapd, mk_Static (nonvmapd, out_axes)) ->
  jtu.tree_structure vmapd = jtu.tree_structure out_axes.
Proof.
  intros H5. unfold jax.vmap in H5.
  step_R H5 ne Hsplit. destruct ne as [n example].
  step_R H5 fw Hfw. destruct fw as [_vmapd static].
  step_R H5 vb Hbatch. injection H5 as -> ->.
  unfold _VmapWrapper._fun_wrapper in Hfw.
  step_R Hfw _args0 Hcomb. step_R Hfw _args Hstar. step_R Hfw _out Hcall.
  step_R Hfw _out_axes Hres. step_R Hfw _none_axes Hnone.
  step_R Hfw parts Hpart. destruct parts as [_nonvmapd _vmapd'].
  injection Hfw as -> Hst. subst.
  apply partition_Ok in Hpart. destruct Hpart as [_ Hv].
  cbn [fst] in Hbatch. unfold jax.batch_out, py_int in Hbatch.
  rewrite tree_map2_terminal in Hbatch.
  eapply (vmapd_structure n _out out_axes (resolve_axes_leafwise E _ _ _ Hres));
    eassumption.
Qed.

Lemma vmap_assertion_holds_witness :
  jtu.tree_structure (py_array [4] "float32")
  = jtu.tree_structure (py_int 0).
Proof.
  apply (vmap_assertion_holds example_env vmap_add
           (TupleOf [PNone; py_int 3]) (TupleOf [py_int 0; PNone])
           (TupleOf [py_array [4] "float32"; PNone])
           (py_array [4] "float32") PNone (py_int 0)).
  reflexivity.
Defined.

(** ** The number of buckets of the parallel-map wrapper *)

Lemma fold_left_max {A : Type} (g : A -> nat) :
  forall l a, fold_left (fun x y => max x (g y)) l a = max a (list_max (map g l)).
Proof.
  induction l as [|b l IH]; intros a; simpl.
  - lia.
  - rewrite IH. lia.
Qed.

Lemma batched_ranks_node (k : kind) (t : pytree) (ts : list pytree) :
  batched_ranks (PNode k (t :: ts))
  = batched_ranks t ++ batched_ranks (PNode k ts).
Proof. unfold batched_ranks. simpl. apply flat_map_app. Qed.

(** The ranks that the abstract evaluation of the mapped function shows. *)
Lemma abstract_ranks (n : nat) :
  forall t o1 o2 o3,
    filters.filter t (filters.Where filters.is_array_like) false = Ok o1 ->
    jtu.tree_map false (jax.batch_leaf n (Leaf (AInt 0))) o1 = Ok o2 ->
    jtu.tree_map false jax.as_struct o2 = Ok o3 ->
    map ndim (jtu.tree_leaves o3) = batched_ranks t.
Proof.
  unfold filters.filter.
  induction t as [a| |k ts IH] using pytree_ind'; intros o1 o2 o3 H1 H2 H3.
  - cbn [jtu.tree_map] in H1. injection H1 as <-.
    destruct a; cbn in H2;
      try (injection H2 as <-; cbn in H3; injection H3 as <-; reflexivity);
      try (rewrite canonicalize_axis_0 in H2; injection H2 as <-;
           cbn in H3; injection H3 as <-; reflexivity).
  - cbn in H1. injection H1 as <-. cbn in H2. injection H2 as <-.
    cbn in H3. injection H3 as <-. reflexivity.
  - simpl in H1. step_R H1 l1 Hl1. injection H1 as <-.
    simpl in H2. step_R H2 l2 Hl2. injection H2 as <-.
    simpl in H3. step_R H3 l3 Hl3. injection H3 as <-.
    revert l1 l2 l3 Hl1 Hl2 Hl3.
    induction IH as [|t ts Ht _ IHts]; intros l1 l2 l3 Hl1 Hl2 Hl3.
    + simpl in Hl1. injection Hl1 as <-. simpl in Hl2. injection Hl2 as <-.
      simpl in Hl3. injection Hl3 as <-. reflexivity.
    + simpl in Hl1. step_R Hl1 a1 Ha1. step_R Hl1 r1 Hr1. injection Hl1 as <-.
      simpl in Hl2. step_R Hl2 a2 Ha2. step_R Hl2 r2 Hr2. injection Hl2 as <-.
      simpl in Hl3. step_R Hl3 a3 Ha3. step_R Hl3 r3 Hr3. injection Hl3 as <-.
      rewrite batched_ranks_node. cbn [jtu.tree_leaves flat_map].
      rewrite map_app. f_equal.
      * apply (Ht a1 a2 a3 Ha1 Ha2 Ha3).
      * apply (IHts r1 r2 r3 Hr1 Hr2 Hr3).
Qed.

(** X9.  The number [R] that [_filter_pmap_cache] computes is the largest
    number of dimensions that an array-like leaf of the output of the function
    has once it is mapped, that is one more than its own: an array counts its
    rank plus one, a Python integer or boolean counts one, every other leaf
    and [None] count nothing, and [R] is [0] for an output without array-like
    leaves. *)
Theorem pmap_max_out_size_counts_mapped_dimension (E : env) (id : nat)
  (fun_names : string * string) (leaves : list atom) (treedef : jtu.treedef)
  (in_axes axis_name : pytree) (axis_size : option nat) (pmapkwargs : dict)
  (c : pmapped) :
  _filter_pmap_cache_body E id fun_names leaves treedef in_axes axis_name
    axis_size pmapkwargs = Ok c ->
  exists struct tracers n example t f args_ d1 d2 _args _out,
    jtu.tree_map false (fun x => Ok (jax.as_tracer x)) struct = Ok tracers
    /\ jax.split_args in_axes axis_size tracers = Ok (n, example)
    /\ filters.combine [example; pm_static c] = Ok t
    /\ unpack 4 t = Ok [f; args_; d1; d2]
    /\ star args_ = Ok _args
    /\ call E f _args = Ok _out
    /\ pm_max_out_size c = list_max (batched_ranks _out).
Proof.
  unfold _filter_pmap_cache_body. intros H.
  step_R H t0 Hun. step_R H l Hl.
  destruct l as [|static [|struct [|x l]]]; try discriminate.
  step_R H struct_out Hev. injection H as <-. cbn [pm_static pm_max_out_size].
  unfold jax.eval_shape in Hev.
  step_R Hev tracers Htr. step_R Hev out Hv. unfold jax.vmap0 in Hv.
  step_R Hv ne Hsplit. destruct ne as [n example].
  step_R Hv o1 Hfa. unfold jax.batch_out, py_int in Hv.
  rewrite tree_map2_terminal in Hv.
  unfold fun_abstract in Hfa.
  step_R Hfa t Hcomb. step_R Hfa l4 Hl4.
  destruct l4 as [|f [|args_ [|d1 [|d2 [|y l4]]]]]; try discriminate.
  step_R Hfa _args Hstar. step_R Hfa _out Hcall.
  exists struct, tracers, n, example, t, f, args_, d1, d2, _args, _out.
  repeat (split; [assumption|]).
  unfold jtu.tree_reduce. rewrite (fold_left_max ndim). simpl.
  f_equal. apply (abstract_ranks n _out o1 out struct_out Hfa Hv Hev).
Qed.

Lemma pmap_max_out_size_counts_mapped_dimension_witness :
  exists struct tracers n example t f args_ d1 d2 _args _out,
    jtu.tree_map false (fun x => Ok (jax.as_tracer x)) struct = Ok tracers
    /\ jax.split_args (TupleOf [PNone; TupleOf [py_int 0]; py_int 0; PNone])
         None tracers = Ok (n, example)
    /\ filters.combine
         [example;
          TupleOf [Leaf (AFun 0); TupleOf [PNone]; Leaf (AInt 0);
                   Leaf (AIfArray 0)]] = Ok t
    /\ unpack 4 t = Ok [f; args_; d1; d2]
    /\ star args_ = Ok _args
    /\ call example_env f _args = Ok _out
    /\ 1 = list_max (batched_ranks _out).
Proof.
  apply (pmap_max_out_size_counts_mapped_dimension example_env 0
           (key_fun_names (key_of_shape 2)) (key_leaves (key_of_shape 2))
           (key_treedef (key_of_shape 2)) (key_in_axes (key_of_shape 2))
           (key_axis_name (key_of_shape 2)) (key_axis_size (key_of_shape 2))
           (key_pmapkwargs (key_of_shape 2))
           (mk_pmapped 0 ("identity", "identity")
              (TupleOf [Leaf (AFun 0); TupleOf [PNone]; Leaf (AInt 0);
                        Leaf (AIfArray 0)])
              1
              (TupleOf [PNone; TupleOf [py_int 0]; py_int 0; PNone])
              (TupleOf [PNode KList [py_int (-1); py_int 0]; PNone; PNone])
              PNone None [])).
  reflexivity.
Defined.

(** ** What the function receives in a call of the batch-map wrapper *)

Lemma leafwise_subtree :
  forall p t r x, leafwise t r -> subtree t p = Some (Leaf x) ->
  exists y, subtree r p = Some y.
Proof.
  induction p as [|i q IH]; intros t r x Hl Hp; simpl in Hp.
  - exists r. reflexivity.
  - destruct t as [a| |k ts]; try discriminate.
    destruct (nth_error ts i) as [c|] eqn:Hc; [|discriminate].
    inversion Hl as [| |k' ts' rs HF]; subst.
    destruct (Forall2_nth_error_l _ _ _ HF _ _ Hc) as (s & Hs & Hcs).
    destruct (IH _ _ _ Hcs Hp) as (y & Hy).
    exists y. simpl. rewrite Hs. exact Hy.
Qed.

Lemma governing_split :
  forall p m g, governing m p = Some g ->
  exists q r, p = q ++ r /\ subtree m q = Some g
              /\ forall k ts, g <> PNode k ts.
Proof.
  induction p as [|i p IH]; intros m g H.
  - destruct m as [a| |k ts]; simpl in H; try discriminate;
      injection H as <-; exists [], []; repeat split; discriminate.
  - destruct m as [a| |k ts].
    + rewrite governing_leaf in H. injection H as <-.
      exists [], (i :: p). repeat split; discriminate.
    + rewrite governing_none in H. injection H as <-.
      exists [], (i :: p). repeat split; discriminate.
    + rewrite governing_node in H.
      destruct (nth_error ts i) as [c|] eqn:Hc; [|discriminate].
      destruct (IH _ _ H) as (q & r & -> & Hq & Hg).
      exists (i :: q), r. simpl. rewrite Hc. auto.
Qed.

Lemma prefix_governing :
  forall p s t x, jtu.prefix_ok s t = true -> subtree t p = Some (Leaf x) ->
  exists g, governing s p = Some g.
Proof.
  induction p as [|i p IH]; intros s t x Hok Hp.
  - simpl in Hp. injection Hp as ->.
    destruct s as [a| |k ps]; simpl in Hok; try discriminate; simpl; eauto.
  - destruct s as [a| |k ps].
    + rewrite governing_leaf. eauto.
    + rewrite governing_none. eauto.
    + simpl in Hok. destruct t as [b| |k' ts]; try discriminate.
      apply andb_prop in Hok. destruct Hok as [_ Hok].
      simpl in Hp. destruct (nth_error ts i) as [c|] eqn:Hc; [|discriminate].
      rewrite governing_node.
      destruct (nth_error ps i) as [s0|] eqn:Hs0.
      * destruct (forall2b_nth _ _ _ Hok _ _ Hs0) as (c' & Hc' & Hsc).
        rewrite Hc in Hc'. injection Hc' as <-.
        apply (IH _ _ _ Hsc Hp).
      * apply nth_error_None in Hs0.
        rewrite (forall2b_length _ _ _ Hok) in Hs0.
        apply nth_error_None in Hs0. congruence.
Qed.

Lemma erase_subtree :
  forall r s u, subtree s r = Some u ->
  subtree (filters.erase s) r = Some (filters.erase u).
Proof.
  induction r as [|i r IH]; intros s u H; simpl in H.
  - injection H as <-. reflexivity.
  - destruct s as [a| |k ts]; try discriminate.
    destruct (nth_error ts i) as [c|] eqn:Hc; [|discriminate].
    simpl. rewrite nth_error_map, Hc. simpl. apply IH. exact H.
Qed.

Lemma keep_if_subtree (b inverse : bool) (r : list nat) (s u : pytree) :
  subtree s r = Some u ->
  subtree (filters.keep_if b inverse s) r = Some (filters.keep_if b inverse u).
Proof.
  unfold filters.keep_if. destruct (xorb b inverse); [auto|].
  apply erase_subtree.
Qed.

(** A boolean of a mask decides for everything below it. *)
Lemma filter_mask_under (t m res : pytree) (inverse b : bool) (p : list nat)
  (u : pytree) :
  filters.filter t (filters.Mask m) inverse = Ok res ->
  governing m p = Some (Leaf (ABool b)) ->
  subtree t p = Some u ->
  subtree res p = Some (filters.keep_if b inverse u).
Proof.
  intros Hf Hg Hu.
  destruct (governing_split _ _ _ Hg) as (q & r & -> & Hq & _).
  destruct (filter_mask_at _ _ _ _ _ q Hf Hq) as (s & Hs & Hres).
  rewrite subtree_app, Hs in Hu. rewrite subtree_app, Hres.
  apply keep_if_subtree. exact Hu.
Qed.

Lemma resolve_axes_under_none (E : env) (t spec r : pytree) (p : list nat)
  (x : atom) :
  _resolve_axes E t spec = Ok r ->
  governing spec p = Some PNone ->
  subtree t p = Some (Leaf x) ->
  subtree r p = Some PNone.
Proof.
  intros Hr Hg Hx.
  destruct (governing_split _ _ _ Hg) as (q & r' & -> & Hq & _).
  destruct (tree_map2_subtree _ _ _ _ _ _ Hr _ Hq) as (s & y & Hs & Hy & Hry).
  rewrite tree_map2_none in Hy.
  rewrite (resolve_axis_scalar E PNone s eq_refl) in Hy.
  rewrite subtree_app, Hs in Hx. rewrite subtree_app, Hry.
  destruct (tree_map_subtree _ _ _ _ _ Hy _ Hx) as (y' & Hy' & Hyr).
  simpl in Hy'. injection Hy' as <-. exact Hyr.
Qed.

(** X10.  In every call of the batch-map wrapper that returns, the function
    is called on the arguments with the mapped dimension taken out: at the
    position of every leaf of the arguments it receives that leaf as it is
    when the resolved input axis of the leaf is [None], and that leaf (an
    array) without the dimension of the axis when the resolved input axis is
    an integer.  This holds for the leaves that were closed over and for
    those that went through [jax.vmap] alike. *)
Theorem vmap_function_sees_examples (E : env) (self : _VmapWrapper.t)
  (args : list pytree) (st st' : state) (out : pytree) :
  _VmapWrapper.__call__ E self args [] st = (Ok out, st') ->
  exists in_axes _args0 _args _out,
    _resolve_axes E (TupleOf args) (_VmapWrapper._in_axes self) = Ok in_axes
    /\ star _args0 = Ok _args
    /\ call E (_VmapWrapper._fun self) _args = Ok _out
    /\ forall p x,
        leaf_at (TupleOf args) p = Some x ->
        exists axis y,
          subtree in_axes p = Some axis
          /\ jax.slice_leaf axis (Leaf x) = Ok (Leaf y)
          /\ leaf_at _args0 p = Some y
          /\ (axis = PNone -> y = x)
          /\ (forall z, as_int axis = Some z ->
              exists v i,
                x = AArray v
                /\ jnp.canonicalize_axis z (length (shape v)) = Some i
                /\ y = AArray (mk_aval (jnp.remove_dim i (shape v)) (dtype v))).
Proof.
  intros H.
  destruct (vmap_call_steps _ _ _ _ _ _ H)
    as (unmapped_axis & static_args & dynamic_args & in_axes & n & example
        & _args0 & _args & _out & _out_axes & _none_axes & _nonvmapd & _vmapd
        & vmapd & swapped & Hmask & Hpart & Hres & Hsplit & Hcomb & Hstar
        & Hcall & _).
  exists in_axes, _args0, _args, _out.
  split; [exact Hres|]. split; [exact Hstar|]. split; [exact Hcall|].
  intros p x Hleaf.
  assert (Hsub : subtree (TupleOf args) p = Some (Leaf x)).
  { unfold leaf_at in Hleaf.
    destruct (subtree (TupleOf args) p) as [[a| |k ts]|]; try discriminate.
    injection Hleaf as ->. reflexivity. }
  destruct (leafwise_subtree p _ _ x (resolve_axes_leafwise E _ _ _ Hres) Hsub)
    as (axis & Haxis).
  apply partition_Ok in Hpart. destruct Hpart as [Hst Hdy].
  assert (Hok : jtu.prefix_ok unmapped_axis (TupleOf args) = true).
  { unfold filters.filter, jtu.tree_map2 in Hst.
    destruct (jtu.prefix_ok unmapped_axis (TupleOf args)); [reflexivity|].
    discriminate. }
  destruct (prefix_governing p _ _ x Hok Hsub) as (g & Hg).
  pose proof (tree_map_leafwise_governing true (fun a => ABool (_is_none a))
                _ _ Hmask p) as Hgov.
  rewrite Hg in Hgov.
  unfold jax.split_args in Hsplit.
  destruct (jtu.prefix_ok in_axes dynamic_args) eqn:Hpre; [|discriminate].
  step_R Hsplit sizes Hsizes. step_R Hsplit n' Hn. step_R Hsplit example0 Hex.
  injection Hsplit as -> ->.
  destruct (map2_rec_subtree true _ p _ _ _ Hpre Hex _ Haxis)
    as (s & y & Hs & Hxs & Hy & Hey).
  destruct (governing (_VmapWrapper._in_axes self) p) as [[a| |k ts]|] eqn:Hspec;
    try discriminate; injection Hgov as ->; cbn in Hg.
  - (* under an entry of the specification that is not None *)
    rewrite (filter_mask_under _ _ _ true false p _ Hdy Hg Hsub) in Hs.
    cbn in Hs. injection Hs as <-.
    assert (Hterm : (exists b, axis = Leaf b) \/ axis = PNone).
    { destruct axis as [b| |k ts]; [eauto | auto | discriminate]. }
    assert (Hy' : jax.slice_leaf axis (Leaf x) = Ok y)
      by (destruct Hterm as [(b & ->) | ->]; exact Hy).
    assert (Hyl : exists y0, y = Leaf y0).
    { unfold jax.slice_leaf in Hy'.
      destruct Hterm as [(b & ->) | ->].
      - destruct (as_int (Leaf b)); [|discriminate].
        destruct x; try discriminate.
        destruct (jnp.canonicalize_axis _ _); [|discriminate].
        injection Hy' as <-. eauto.
      - injection Hy' as <-. eauto. }
    destruct Hyl as (y0 & ->).
    exists axis, y0. split; [exact Haxis|]. split; [exact Hy'|].
    split; [unfold leaf_at; rewrite (combine_leaf _ _ _ p _ Hcomb Hey);
            reflexivity|].
    split.
    + intros ->. simpl in Hy'. congruence.
    + intros z Hz. unfold jax.slice_leaf in Hy'.
      destruct axis as [b| |k ts]; try discriminate.
      rewrite Hz in Hy'. destruct x; try discriminate.
      destruct (jnp.canonicalize_axis z _) as [i|] eqn:Hi; [|discriminate].
      injection Hy' as <-. eauto.
  - (* under a None of the specification *)
    rewrite (filter_mask_under _ _ _ true true p _ Hdy Hg Hsub) in Hs.
    cbn in Hs. injection Hs as <-.
    pose proof (filter_mask_under _ _ _ false true p _ Hst Hg Hsub) as Hsp.
    cbn in Hsp.
    pose proof (resolve_axes_under_none E _ _ _ p x Hres Hspec Hsub) as Hnone.
    rewrite Hnone in Haxis. injection Haxis as <-.
    cbn in Hy. injection Hy as <-.
    exists PNone, x. split; [exact Hnone|]. split; [reflexivity|].
    split.
    + unfold leaf_at.
      rewrite (combine_position [example; static_args] _args0 p 1 static_args x
                 Hcomb); [reflexivity| |reflexivity|exact Hsp].
      intros j t Hj Ht. destruct j as [|j]; [|lia].
      simpl in Ht. injection Ht as <-. exact Hey.
    + split; [reflexivity | discriminate].
Qed.

Lemma vmap_function_sees_examples_witness :
  exists in_axes _args0 _args _out,
    _resolve_axes example_env (TupleOf [py_array [4; 2] "float32"; py_int 3])
      (_VmapWrapper._in_axes vmap_add) = Ok in_axes
    /\ star _args0 = Ok _args
    /\ call example_env (_VmapWrapper._fun vmap_add) _args = Ok _out
    /\ forall p x,
        leaf_at (TupleOf [py_array [4; 2] "float32"; py_int 3]) p = Some x ->
        exists axis y,
          subtree in_axes p = Some axis
          /\ jax.slice_leaf axis (Leaf x) = Ok (Leaf y)
          /\ leaf_at _args0 p = Some y
          /\ (axis = PNone -> y = x)
          /\ (forall z, as_int axis = Some z ->
              exists v i,
                x = AArray v
                /\ jnp.canonicalize_axis z (length (shape v)) = Some i
                /\ y = AArray (mk_aval (jnp.remove_dim i (shape v)) (dtype v))).
Proof.
  apply (vmap_function_sees_examples example_env vmap_add
           [py_array [4; 2] "float32"; py_int 3] empty_state
           (mk_state [] 0
              [Vmapped (TupleOf [py_int 0; PNone])
                 (TupleOf [py_array [4; 2] "float32"; py_int 3])])
           (py_array [4; 2] "float32")).
  reflexivity.
Defined.

(* ================================================================= *)
(** * The batch dimension of a mapped output *)

(** C2.  The batch-map wrapper asks [jax.vmap] for the batch dimension at
    position [0] and then exchanges dimension [0] with the dimension of the
    resolved output axis ([jnp.swapaxes]); it does not move it.  For the
    output axes [0] and [1] the two are the same, and the identity with
    [out_axes=1] maps shape [(n, d)] to [(d, n)].  For the output axis [2]
    they differ: the identity with [out_axes=2] maps shape [(a, b, c)] to
    [(c, b, a)], where moving the batch dimension gives [(b, c, a)], which is
    also what the parallel-map wrapper returns for the same function,
    output axis and argument. *)
Theorem vmap_exchanges_batch_axis :
  (forall n d dt,
      _VmapWrapper.__call__ example_env vmap_identity_out1
        [py_array [n; d] dt] [] empty_state
      = (Ok (py_array [d; n] dt),
         mk_state [] 0
           [Vmapped (TupleOf [py_int 0]) (TupleOf [py_array [n; d] dt])])
      /\ moved_dims 1 [n; d] = [d; n])
  /\ (forall a b c dt,
         _VmapWrapper.__call__ example_env vmap_identity_out2
           [py_array [a; b; c] dt] [] empty_state
         = (Ok (py_array [c; b; a] dt),
            mk_state [] 0
              [Vmapped (TupleOf [py_int 0]) (TupleOf [py_array [a; b; c] dt])])
         /\ moved_dims 2 [a; b; c] = [b; c; a])
  /\ fst (_VmapWrapper.__call__ example_env vmap_identity_out2
            [py_array [2; 3; 4] "float32"] [] empty_state)
     = Ok (py_array [4; 3; 2] "float32")
  /\ fst (_PmapWrapper.__call__ example_env pmap_identity_out2
            [py_array [2; 3; 4] "float32"] [] empty_state)
     = Ok (Returned (py_array (moved_dims 2 [2; 3; 4]) "float32"))
  /\ moved_dims 2 [2; 3; 4] = [3; 4; 2]
  /\ [4; 3; 2] <> moved_dims 2 [2; 3; 4].
Proof.
  split; [|split; [|repeat split]].
  - intros n d dt. split; [|reflexivity].
    cbv -[Nat.eqb]. rewrite !Nat.eqb_refl. reflexivity.
  - intros a b c dt. split; [|reflexivity].
    cbv -[Nat.eqb]. rewrite !Nat.eqb_refl. reflexivity.
  - discriminate.
Qed.

(* ================================================================= *)
(** * The parallel-map wrapper, from the call to the compiled function *)

(** ** Objects that Python takes for equal *)

Lemma py_tree_none (x : pytree) : py_tree x = PNone -> x = PNone.
Proof. destruct x; simpl; intros H; [discriminate | reflexivity | discriminate]. Qed.

Lemma py_tree_node (x : pytree) (k : kind) (ys : list pytree) :
  py_tree x = PNode k ys -> exists xs, x = PNode k xs /\ map py_tree xs = ys.
Proof.
  destruct x as [a| |k' xs]; simpl; intros H; try discriminate.
  injection H as -> <-. eauto.
Qed.

Lemma py_atom_idem (a : atom) : py_atom (py_atom a) = py_atom a.
Proof. destruct a; reflexivity. Qed.

Lemma as_int_py (x : pytree) : as_int (py_tree x) = as_int x.
Proof. destruct x as [[z|[|]|s|v|v|ax|id|id]| |k ts]; reflexivity. Qed.

Lemma is_array_py (x : pytree) :
  filters.is_array (py_tree x) = filters.is_array x.
Proof. destruct x as [[z|b|s|v|v|ax|id|id]| |k ts]; reflexivity. Qed.

Lemma tree_leaves_py (t : pytree) :
  jtu.tree_leaves (py_tree t) = map py_atom (jtu.tree_leaves t).
Proof.
  induction t as [a| |k ts IH] using pytree_ind'; simpl; try reflexivity.
  induction IH as [|t ts Ht _ IHts]; simpl; [reflexivity|].
  rewrite map_app, Ht, IHts. reflexivity.
Qed.

Lemma tree_structure_py (t : pytree) :
  jtu.tree_structure (py_tree t) = jtu.tree_structure t.
Proof.
  induction t as [a| |k ts IH] using pytree_ind'; simpl; try reflexivity.
  f_equal. rewrite map_map.
  induction IH as [|t ts Ht _ IHts]; simpl; [reflexivity|].
  rewrite Ht, IHts. reflexivity.
Qed.

(** Trees with the same structure and the same leaves are the same tree. *)
Lemma tree_unflatten_py (t x : pytree) :
  jtu.tree_structure x = jtu.tree_structure t ->
  map py_atom (jtu.tree_leaves x) = map py_atom (jtu.tree_leaves t) ->
  py_tree x = py_tree t.
Proof.
  intros Hs Hl.
  pose proof (tree_unflatten_flatten (py_tree x)) as Hx.
  pose proof (tree_unflatten_flatten (py_tree t)) as Ht.
  unfold jtu.tree_flatten in Hx, Ht. simpl in Hx, Ht.
  rewrite tree_structure_py, tree_leaves_py in Hx, Ht.
  rewrite Hs, Hl in Hx. congruence.
Qed.

(** What [tree_unflatten] returns has the structure and the leaves it was
    given. *)
Lemma mapS_unflatten_inv (cs : list jtu.treedef) :
  Forall (fun d => forall l t rest,
                     jtu.unflatten_aux d l = Some (t, rest) ->
                     jtu.tree_structure t = d
                     /\ l = jtu.tree_leaves t ++ rest) cs ->
  forall l ts rest,
    mapS jtu.unflatten_aux cs l = Some (ts, rest) ->
    map jtu.tree_structure ts = cs
    /\ l = flat_map jtu.tree_leaves ts ++ rest.
Proof.
  induction 1 as [|d cs Hd _ IH]; intros l ts rest H; simpl in H.
  - injection H as <- <-. auto.
  - destruct (jtu.unflatten_aux d l) as [[t r1]|] eqn:H1; [|discriminate].
    destruct (mapS jtu.unflatten_aux cs r1) as [[ts' r2]|] eqn:H2;
      [|discriminate].
    injection H as <- <-.
    destruct (Hd _ _ _ H1) as [Hs1 Hl1].
    destruct (IH _ _ _ H2) as [Hs2 Hl2].
    simpl. rewrite Hs1, Hs2, <- app_assoc, <- Hl2, <- Hl1. auto.
Qed.

Lemma unflatten_aux_inv :
  forall d l t rest,
    jtu.unflatten_aux d l = Some (t, rest) ->
    jtu.tree_structure t = d /\ l = jtu.tree_leaves t ++ rest.
Proof.
  fix IH 1. intros [| |k cs] l t rest H; simpl in H.
  - clear IH. destruct l as [|a r]; [discriminate|]. injection H as <- <-.
    split; reflexivity.
  - clear IH. injection H as <- <-. split; reflexivity.
  - destruct (mapS jtu.unflatten_aux cs l) as [[ts r]|] eqn:Hm; [|discriminate].
    injection H as <- <-.
    assert (HF : Forall (fun d => forall l t rest,
                           jtu.unflatten_aux d l = Some (t, rest) ->
                           jtu.tree_structure t = d
                           /\ l = jtu.tree_leaves t ++ rest) cs).
    { clear Hm.
      refine ((fix F (cs : list jtu.treedef) : Forall _ cs :=
                 match cs with
                 | [] => Forall_nil _
                 | c :: cs' => Forall_cons c (IH c) (F cs')
                 end) cs). }
    clear IH. destruct (mapS_unflatten_inv cs HF _ _ _ Hm) as [Hs Hl].
    simpl. rewrite Hs. split; [reflexivity | exact Hl].
Qed.

Lemma tree_unflatten_inv (d : jtu.treedef) (l : list atom) (t : pytree) :
  jtu.tree_unflatten d l = Ok t ->
  jtu.tree_structure t = d /\ jtu.tree_leaves t = l.
Proof.
  unfold jtu.tree_unflatten.
  destruct (jtu.unflatten_aux d l) as [[t' [|a r]]|] eqn:H; try discriminate.
  intros Ht. injection Ht as ->.
  destruct (unflatten_aux_inv _ _ _ _ H) as [Hs Hl].
  rewrite app_nil_r in Hl. auto.
Qed.

(** The two parts of a partition, put together again, are the tree that was
    partitioned; with a second part that Python takes for equal, they are a
    tree that Python takes for equal. *)
Lemma partition_combine_py (p : pytree -> bool) :
  forall t d s s' r,
    filters.filter t (filters.Where p) false = Ok d ->
    filters.filter t (filters.Where p) true = Ok s ->
    py_tree s' = py_tree s ->
    filters.combine_rec d [s'] = Ok r ->
    py_tree r = py_tree t.
Proof.
  unfold filters.filter.
  induction t as [a| |k ts IH] using pytree_ind'; intros d s s' r Hd Hs Hpy Hc.
  - cbn [jtu.tree_map] in Hd, Hs. injection Hd as <-. injection Hs as <-.
    unfold filters.keep_if in *.
    destruct (p (Leaf a)); cbn in Hpy, Hc.
    + apply py_tree_none in Hpy. subst s'. cbn in Hc. injection Hc as <-.
      reflexivity.
    + destruct s' as [a'| |k' ts']; try discriminate.
      cbn in Hc. injection Hc as <-. exact Hpy.
  - cbn in Hd, Hs. injection Hd as <-. injection Hs as <-.
    apply py_tree_none in Hpy. subst s'. cbn in Hc. injection Hc as <-.
    reflexivity.
  - simpl in Hd, Hs. step_R Hd ds Hds. injection Hd as <-.
    step_R Hs ss Hss. injection Hs as <-.
    destruct (py_tree_node _ _ _ Hpy) as (ss' & -> & Hss').
    simpl in Hc. step_R Hc rs Hrs. injection Hc as <-.
    simpl. f_equal. clear Hpy.
    revert ds ss ss' rs Hds Hss Hss' Hrs.
    induction IH as [|t ts Ht _ IHts]; intros ds ss ss' rs Hds Hss Hss' Hrs.
    + simpl in Hds. injection Hds as <-. simpl in Hrs. injection Hrs as <-.
      reflexivity.
    + simpl in Hds. step_R Hds d0 Hd0. step_R Hds ds' Hds'. injection Hds as <-.
      simpl in Hss. step_R Hss s0 Hs0. step_R Hss ss0 Hss0. injection Hss as <-.
      destruct ss' as [|s0' ss'']; [discriminate|].
      simpl in Hss'. injection Hss' as H0 Hrest.
      simpl in Hrs. step_R Hrs r0 Hr0. step_R Hrs rs' Hrs'. injection Hrs as <-.
      simpl. f_equal.
      * apply (Ht d0 s0 s0' r0 Hd0 Hs0 H0 Hr0).
      * apply (IHts ds' ss0 ss'' rs' Hds' Hss0 Hrest Hrs').
Qed.

(** ** The shapes that the abstract evaluation sees *)

Lemma struct_tracers :
  forall d s,
    jtu.tree_map false ShapeDtypeStruct d = Ok s ->
    jtu.tree_map false (fun x => Ok (jax.as_tracer x)) s = Ok d.
Proof.
  induction d as [a| |k ts IH] using pytree_ind'; intros s H.
  - cbn [jtu.tree_map] in H. unfold ShapeDtypeStruct in H.
    destruct a as [z|b|str|[sh dt]|v|ax|id|id]; try discriminate.
    injection H as <-. reflexivity.
  - cbn in H. injection H as <-. reflexivity.
  - simpl in H. step_R H rs Hrs. injection H as <-. simpl.
    assert (Hm : mapM (jtu.tree_map false (fun x => Ok (jax.as_tracer x))) rs
                 = Ok ts).
    { revert rs Hrs. induction IH as [|t ts Ht _ IHts]; intros rs Hrs.
      - simpl in Hrs. injection Hrs as <-. reflexivity.
      - simpl in Hrs. step_R Hrs y Hy. step_R Hrs ys Hys. injection Hrs as <-.
        simpl. rewrite (Ht y Hy). simpl. rewrite (IHts ys Hys). reflexivity. }
    rewrite Hm. reflexivity.
Qed.

Lemma struct_py_eq :
  forall d s x,
    jtu.tree_map false ShapeDtypeStruct d = Ok s ->
    py_tree x = py_tree s -> x = s.
Proof.
  induction d as [a| |k ts IH] using pytree_ind'; intros s x H Hpy.
  - cbn [jtu.tree_map] in H. unfold ShapeDtypeStruct in H.
    destruct a as [z|b|str|v|v|ax|id|id]; try discriminate.
    injection H as <-. simpl in Hpy.
    destruct x as [[z|b|str|w|w|ax|id|id]| |k ts]; try discriminate.
    simpl in Hpy. congruence.
  - cbn in H. injection H as <-. apply py_tree_none. exact Hpy.
  - simpl in H. step_R H rs Hrs. injection H as <-.
    destruct (py_tree_node _ _ _ Hpy) as (xs & -> & Hxs). f_equal.
    clear Hpy. revert rs xs Hrs Hxs.
    induction IH as [|t ts Ht _ IHts]; intros rs xs Hrs Hxs.
    + simpl in Hrs. injection Hrs as <-. destruct xs; [reflexivity|discriminate].
    + simpl in Hrs. step_R Hrs y Hy. step_R Hrs ys Hys. injection Hrs as <-.
      destruct xs as [|x0 xs]; [discriminate|].
      simpl in Hxs. injection Hxs as H0 Hrest.
      f_equal; [apply (Ht y x0 Hy H0) | apply (IHts ys xs Hys Hrest)].
Qed.

(** ** A call, by its key *)

(** [_call] computes the key, asks the cache for the entry of the key, and
    lowers or runs that entry. *)
Lemma call_by_key (E : env) (self : _PmapWrapper.t) (is_lower : bool)
  (args : list pytree) (st : state) :
  _PmapWrapper._call E self is_lower args [] st
  = match call_key E self args with
    | Raise e => (Raise e, st)
    | Ok (k, dynamic) =>
        (cached <-- compile_key E k ;;
         if is_lower then lower_cached E cached dynamic
         else
           '(pmapd, dynamic_nonpmapd, static_nonpmapd) <--
               run_cached E cached dynamic ;;
           nonpmapd <-- liftR (compile_utils.hashable_combine dynamic_nonpmapd
                                 (value static_nonpmapd)) ;;
           out <-- liftR (filters.combine (pmapd ++ [nonpmapd])) ;;
           retM (Returned out)) st
    end.
Proof.
  unfold _PmapWrapper._call, call_key. cbn [length Nat.eqb negb].
  unfold bindM at 1. unfold liftR at 1.
  destruct (_resolve_axes E (TupleOf args) (_PmapWrapper._in_axes self))
    as [in_axes|e]; [|reflexivity].
  cbn [bind]. unfold bindM at 1. unfold liftR at 1.
  destruct (filters.partition _ _) as [[dynamic static]|e]; [|reflexivity].
  cbn [bind]. unfold bindM at 1. unfold liftR at 1.
  destruct (jtu.tree_map false ShapeDtypeStruct dynamic) as [struct|e];
    [|reflexivity].
  cbn [bind].
  destruct (jtu.tree_flatten (TupleOf [static; struct])) as [leaves treedef].
  reflexivity.
Qed.

(** ** The entry that a call obtains *)

(** The output axes that an entry with [R] buckets gives to [jax.pmap]. *)
Lemma cache_body_steps (E : env) (k : key) (id : nat) (c : pmapped) :
  body_of_key E k id = Ok c ->
  exists t0 static struct tracers n example t f args_ d1 d2 _args _out,
    jtu.tree_unflatten (key_treedef k) (key_leaves k) = Ok t0
    /\ unpack 2 t0 = Ok [static; struct]
    /\ c = mk_pmapped id (key_fun_names k) static
             (list_max (batched_ranks _out)) (key_in_axes k)
             (TupleOf
                [PNode KList
                   (map py_int
                      (range (- Z.of_nat (list_max (batched_ranks _out)))
                         (Z.of_nat (list_max (batched_ranks _out)))));
                 PNone; PNone])
             (key_axis_name k) (key_axis_size k) (key_pmapkwargs k)
    /\ jtu.tree_map false (fun x => Ok (jax.as_tracer x)) struct = Ok tracers
    /\ jax.split_args (key_in_axes k) (key_axis_size k) tracers
       = Ok (n, example)
    /\ filters.combine [example; static] = Ok t
    /\ unpack 4 t = Ok [f; args_; d1; d2]
    /\ star args_ = Ok _args
    /\ call E f _args = Ok _out.
Proof.
  unfold body_of_key, _filter_pmap_cache_body. intros H.
  step_R H t0 Hun. step_R H l Hl.
  destruct l as [|static [|struct [|x l]]]; try discriminate.
  step_R H struct_out Hev.
  unfold jax.eval_shape in Hev.
  step_R Hev tracers Htr. step_R Hev out Hv. unfold jax.vmap0 in Hv.
  step_R Hv ne Hsplit. destruct ne as [n example].
  step_R Hv o1 Hfa. unfold jax.batch_out, py_int in Hv.
  rewrite tree_map2_terminal in Hv.
  unfold fun_abstract in Hfa.
  step_R Hfa t Hcomb. step_R Hfa l4 Hl4.
  destruct l4 as [|f [|args_ [|d1 [|d2 [|y l4]]]]]; try discriminate.
  step_R Hfa _args Hstar. step_R Hfa _out Hcall.
  assert (HR : jtu.tree_reduce (fun x y => max x (ndim y)) struct_out 0
               = list_max (batched_ranks _out)).
  { unfold jtu.tree_reduce. rewrite (fold_left_max ndim). simpl.
    f_equal. apply (abstract_ranks n _out o1 out struct_out Hfa Hv Hev). }
  rewrite HR in H. injection H as <-.
  exists t0, static, struct, tracers, n, example, t, f, args_, d1, d2, _args,
    _out.
  repeat (split; [assumption || reflexivity|]). assumption.
Qed.

Lemma entry_of_call (E : env) (self : _PmapWrapper.t) (args : list pytree)
  (k : key) (dynamic : pytree) (st st1 : state) (cached : pmapped) :
  cache_sound E st ->
  call_key E self args = Ok (k, dynamic) ->
  compile_key E k st = (Ok cached, st1) ->
  exists in_axes dummy0 static ia z0,
    _resolve_axes E (TupleOf args) (_PmapWrapper._in_axes self) = Ok in_axes
    /\ filters.partition
         (TupleOf [_PmapWrapper._fun self; TupleOf args; dummy0;
                   _PmapWrapper._out_axes self])
         (filters.Where filters.is_array) = Ok (dynamic, static)
    /\ pm_in_axes cached = TupleOf [PNone; ia; z0; PNone]
    /\ py_tree ia = py_tree in_axes
    /\ as_int z0 = Some 0%Z
    /\ pm_axis_size cached = _PmapWrapper._axis_size self
    /\ py_tree (pm_static cached) = py_tree static
    /\ pm_out_axes cached
       = TupleOf
           [PNode KList
              (map py_int (range (- Z.of_nat (pm_max_out_size cached))
                             (Z.of_nat (pm_max_out_size cached))));
            PNone; PNone]
    /\ cache_sound E st1
    /\ backend_log st1 = backend_log st
    /\ exists n example t f args_ d1 d2 _args _out,
        jax.split_args (pm_in_axes cached) (pm_axis_size cached) dynamic
        = Ok (n, example)
        /\ filters.combine [example; pm_static cached] = Ok t
        /\ unpack 4 t = Ok [f; args_; d1; d2]
        /\ star args_ = Ok _args
        /\ call E f _args = Ok _out
        /\ pm_max_out_size cached = list_max (batched_ranks _out).
Proof.
  intros Hsound Hkey Hc. unfold call_key in Hkey.
  step_R Hkey in_axes Hres. step_R Hkey parts Hpart.
  destruct parts as [dyn static]. step_R Hkey struct Hstruct.
  pose proof (tree_unflatten_flatten (TupleOf [static; struct])) as Hrt.
  unfold jtu.tree_flatten in Hkey, Hrt. cbn [fst snd] in Hrt.
  injection Hkey as <- <-.
  unfold compile_key in Hc.
  cbn [key_fun_names key_leaves key_treedef key_in_axes key_axis_name
         key_axis_size key_pmapkwargs] in Hc.
  destruct (filter_pmap_cache_sound _ _ _ _ _ _ _ _ _ _ _ Hsound Hc)
    as (Hs1 & Hlog & Hbody).
  destruct (Hbody cached eq_refl) as (k0 & id & Hk0 & Hb).
  unfold py_key in Hk0.
  cbn [key_fun_names key_leaves key_treedef key_in_axes key_axis_name
         key_axis_size key_pmapkwargs] in Hk0.
  injection Hk0 as Hnames Hleaves Htd Hia Han Hsz Hkw.
  destruct (cache_body_steps E k0 id cached Hb)
    as (t0 & static0 & struct0 & tracers & n & example & t & f & args_ & d1 & d2
        & _args & _out & Hun & Hun2 & -> & Htr & Hsplit & Hcomb & Hun4 & Hstar
        & Hcall).
  cbn [pm_in_axes pm_axis_size pm_static pm_out_axes pm_max_out_size].
  destruct (tree_unflatten_inv _ _ _ Hun) as [Hst0 Hlv0].
  assert (Hpy : py_tree t0 = py_tree (TupleOf [static; struct])).
  { apply tree_unflatten_py.
    - rewrite Hst0, Htd. reflexivity.
    - rewrite Hlv0, Hleaves. reflexivity. }
  cbn in Hpy.
  destruct (py_tree_node _ _ _ Hpy) as (xs & -> & Hxs).
  destruct xs as [|a [|b [|x xs]]]; try discriminate.
  injection Hxs as Ha Hb2.
  cbn in Hun2. injection Hun2 as <- <-.
  pose proof (struct_py_eq _ _ _ Hstruct Hb2) as ->.
  pose proof (struct_tracers _ _ Hstruct) as Htr'.
  rewrite Htr' in Htr. injection Htr as <-.
  cbn in Hia.
  destruct (py_tree_node _ _ _ Hia) as (ys & Hys & Hyy).
  destruct ys as [|y0 [|y1 [|y2 [|y3 [|y4 ys]]]]]; try discriminate.
  injection Hyy as H0 H1 H2 H3.
  apply py_tree_none in H0, H3. subst y0 y3.
  exists in_axes,
    (match _PmapWrapper._axis_size self with
     | Some n0 => py_array [n0] "int64"
     | None => py_int 0
     end), static, y1, y2.
  split; [exact Hres|]. split; [exact Hpart|]. split; [exact Hys|].
  split; [exact H1|].
  split; [rewrite <- as_int_py, H2; reflexivity|].
  split; [exact Hsz|]. split; [exact Ha|]. split; [reflexivity|].
  split; [exact Hs1|]. split; [exact Hlog|].
  exists n, example, t, f, args_, d1, d2, _args, _out.
  repeat (split; [assumption|]). reflexivity.
Qed.

(** ** The function and the output axes that the compiled function uses *)

Lemma run_ties (fun_ args0 dummy0 out_axes0 dynamic static static' ia z0 : pytree)
  (axis_size : option nat) (n : nat) (example t f args_ d1 d2 : pytree) :
  filters.partition (TupleOf [fun_; args0; dummy0; out_axes0])
    (filters.Where filters.is_array) = Ok (dynamic, static) ->
  py_tree static' = py_tree static ->
  jax.split_args (TupleOf [PNone; ia; z0; PNone]) axis_size dynamic
  = Ok (n, example) ->
  filters.combine [example; static'] = Ok t ->
  unpack 4 t = Ok [f; args_; d1; d2] ->
  py_tree f = py_tree fun_ /\ py_tree d2 = py_tree out_axes0.
Proof.
  intros Hpart Hpy Hsplit Hcomb Hun.
  apply partition_Ok in Hpart. destruct Hpart as [Hd Hs].
  assert (Hd' := Hd). assert (Hs' := Hs).
  unfold filters.filter in Hd', Hs'. simpl in Hd', Hs'.
  step_R Hd' qq Hqq. injection Hd' as <-.
  step_R Hqq q0 Hq0. step_R Hqq qs Hqs. step_R Hqs q1 Hq1. step_R Hqs qs2 Hqs2.
  step_R Hqs2 q2 Hq2. step_R Hqs2 qs3 Hqs3. step_R Hqs3 q3 Hq3.
  injection Hqs3 as <-. injection Hqs2 as <-. injection Hqs as <-.
  injection Hqq as <-.
  step_R Hs' sq Hsq. injection Hs' as <-.
  step_R Hsq s0 Hs0. step_R Hsq ss Hss. step_R Hss s1 Hs1. step_R Hss ss2 Hss2.
  step_R Hss2 s2 Hs2. step_R Hss2 ss3 Hss3. step_R Hss3 s3 Hs3.
  injection Hss3 as <-. injection Hss2 as <-. injection Hss as <-.
  injection Hsq as <-.
  cbn in Hpy. destruct (py_tree_node _ _ _ Hpy) as (xs & -> & Hxs).
  destruct xs as [|x0 [|x1 [|x2 [|x3 [|x4 xs]]]]]; try discriminate.
  injection Hxs as H0 H1 H2 H3.
  unfold jax.split_args in Hsplit.
  destruct (jtu.prefix_ok _ _); [|discriminate].
  step_R Hsplit sizes Hsizes. step_R Hsplit n' Hn. step_R Hsplit ex0 Hex.
  injection Hsplit as _ <-.
  simpl in Hex.
  rewrite (tree_map_id (jax.slice_leaf PNone) (fun x => eq_refl) q0) in Hex.
  rewrite (tree_map_id (jax.slice_leaf PNone) (fun x => eq_refl) q3) in Hex.
  cbn [bind] in Hex.
  step_R Hex rs0 Hrs0. injection Hex as <-.
  step_R Hrs0 zs Hzs. injection Hrs0 as <-.
  step_R Hzs e1 He1. step_R Hzs zs2 Hzs2. step_R Hzs2 e2 He2.
  injection Hzs2 as <-. injection Hzs as <-.
  unfold filters.combine in Hcomb.
  destruct (forallb _ _); [|discriminate].
  simpl in Hcomb.
  step_R Hcomb rs Hrs. step_R Hrs r0 Hr0. step_R Hrs rs1 Hrs1.
  step_R Hrs1 r1 Hr1. step_R Hrs1 rs2 Hrs2. step_R Hrs2 r2 Hr2.
  step_R Hrs2 rs3 Hrs3. step_R Hrs3 r3 Hr3.
  injection Hrs3 as <-. injection Hrs2 as <-. injection Hrs1 as <-.
  injection Hrs as <-. injection Hcomb as <-.
  cbn in Hun. injection Hun as <- _ _ <-.
  split.
  - apply (partition_combine_py filters.is_array fun_ q0 s0 x0 r0); assumption.
  - apply (partition_combine_py filters.is_array out_axes0 q3 s3 x3 r3);
      assumption.
Qed.

(** ** A call that returns *)

Lemma canonicalize_axis_nonneg (i : Z) (rank j : nat) :
  jnp.canonicalize_axis i rank = Some j -> (0 <= i)%Z -> j = Z.to_nat i.
Proof.
  unfold jnp.canonicalize_axis.
  destruct (_ && _); [|discriminate].
  intros H Hi. injection H as <-.
  destruct (i <? 0)%Z eqn:Hlt; [apply Z.ltb_lt in Hlt; lia | reflexivity].
Qed.

Lemma request_inj (is_lower : bool) (c c' : pmapped) (d d' : pytree) :
  request is_lower c d = request is_lower c' d' -> c = c' /\ d = d'.
Proof.
  unfold request. destruct is_lower; intros H; injection H as -> ->; auto.
Qed.

Lemma pmap_call_returns (E : env) (self : _PmapWrapper.t)
  (args : list pytree) (st st' : state) (out : pytree) :
  cache_sound E st ->
  _PmapWrapper._call E self false args [] st = (Ok (Returned out), st') ->
  exists k dummy0 static cached dynamic n example pmapd dyn stat nonpmapd t f
         args_ dummy out_axes _args _out _out_axes,
    call_key E self args = Ok (k, dynamic)
    /\ filters.partition
         (TupleOf [_PmapWrapper._fun self; TupleOf args; dummy0;
                   _PmapWrapper._out_axes self])
         (filters.Where filters.is_array) = Ok (dynamic, static)
    /\ backend_log st' = backend_log st ++ [Pmapped cached dynamic]
    /\ py_tree (pm_static cached) = py_tree static
    /\ pm_out_axes cached
       = TupleOf [PNode KList
                    (map py_int (range (- Z.of_nat (pm_max_out_size cached))
                                   (Z.of_nat (pm_max_out_size cached))));
                  PNone; PNone]
    /\ jax.pmap_call
         (fun_wrapped E (pm_static cached) (pm_max_out_size cached))
         (pm_in_axes cached) (pm_out_axes cached) (pm_axis_name cached)
         (pm_axis_size cached) (pm_kwargs cached) dynamic
       = Ok (pmapd, dyn, stat)
    /\ jax.pmap_split_args (pm_in_axes cached) (pm_axis_size cached) dynamic
       = Ok (n, example)
    /\ filters.combine [example; pm_static cached] = Ok t
    /\ unpack 4 t = Ok [f; args_; dummy; out_axes]
    /\ py_tree f = py_tree (_PmapWrapper._fun self)
    /\ py_tree out_axes = py_tree (_PmapWrapper._out_axes self)
    /\ star args_ = Ok _args
    /\ call E f _args = Ok _out
    /\ _resolve_axes E _out out_axes = Ok _out_axes
    /\ pm_max_out_size cached = list_max (batched_ranks _out)
    /\ length pmapd = 2 * pm_max_out_size cached
    /\ compile_utils.hashable_combine dyn (value stat) = Ok nonpmapd
    /\ filters.combine (pmapd ++ [nonpmapd]) = Ok out
    /\ (forall p x a i,
           leaf_at _out p = Some x ->
           subtree _out_axes p = Some (Leaf a) ->
           as_int (Leaf a) = Some i ->
           exists v k bucket,
             (0 <= i < Z.of_nat (pm_max_out_size cached))%Z
             /\ k = Z.to_nat i + pm_max_out_size cached
             /\ jax.leaf_aval (Leaf x) = Ok v
             /\ Z.to_nat i <= length (shape v)
             /\ nth_error pmapd k = Some bucket
             /\ leaf_at bucket p
                = Some (AArray (mk_aval (jnp.insert_dim (Z.to_nat i) n (shape v))
                                  (dtype v)))
             /\ leaf_at out p
                = Some (AArray (mk_aval (jnp.insert_dim (Z.to_nat i) n (shape v))
                                  (dtype v))))
    /\ (forall p x,
           leaf_at _out p = Some x ->
           subtree _out_axes p = Some PNone ->
           leaf_at nonpmapd p = Some x /\ leaf_at out p = Some x).
Proof.
  intros Hsound. rewrite call_by_key.
  destruct (call_key E self args) as [[k dynamic]|e] eqn:Hkey; [|discriminate].
  intros H.
  step_M H cached st4 H4.
  step_M H res st5 H5. destruct res as [[pmapd dyn] stat].
  step_M H nonpmapd st6 H6. inv_liftR H6.
  step_M H out0 st7 H7. inv_liftR H7.
  unfold retM in H. injection H as -> ->.
  destruct (entry_of_call _ _ _ _ _ _ _ _ Hsound Hkey H4)
    as (in_axes & dummy0 & static & ia & z0 & Hres0 & Hpart0 & Hia & Hiapy & Hz0
        & Hsz & Hstat & Hlayout & _ & Hlog4
        & (n' & example' & t' & f' & args_' & d1' & d2' & _args' & _out'
           & Hsplit' & Hcomb' & Hun' & Hstar' & Hcall' & HR)).
  unfold run_cached in H5. step_M H5 u st8 Hlog. inv_liftR H5.
  unfold logM in Hlog. injection Hlog as _ <-.
  destruct (pmap_call_Ok _ _ _ _ _ _ Hlayout H5)
    as (n & example & outs & outs' & Hsplit & Hfw & Hbatch & ->).
  destruct (fun_wrapped_Ok _ _ _ _ _ _ _ Hfw)
    as (t & f & args_ & dummy & out_axes & _args & _out & _out_axes
        & _none_axes & _nonpmapd & Hcomb & Hunpack & Hstar & Hcall & Hres
        & (chk & Hchk) & Hmap & Hnone & Hfil & Hpart).
  (* the abstract evaluation ran the same function on the same shapes *)
  pose proof (pmap_split_args_Ok _ _ _ _ Hsplit) as Hsplit2.
  rewrite Hsplit2 in Hsplit'. injection Hsplit' as <- <-.
  rewrite Hcomb in Hcomb'. injection Hcomb' as <-.
  rewrite Hunpack in Hun'. injection Hun' as <- <- <- <-.
  rewrite Hstar in Hstar'. injection Hstar' as <-.
  rewrite Hcall in Hcall'. injection Hcall' as <-.
  rewrite Hia in Hsplit2.
  destruct (run_ties _ _ _ _ _ _ _ _ _ _ _ _ _ _ _ _ _
              Hpart0 Hstat Hsplit2 Hcomb Hunpack) as [Hf Hoa].
  pose proof (pmap_batch_out_Ok _ _ _ _ Hbatch) as Hbatch2.
  pose proof (batch_out_buckets_length _ _ _ _ Hbatch2) as Hlen.
  destruct (batch_out_buckets _ _ _ _ Hbatch2) as (Hfwd & Hbwd).
  pose proof (pmap_batch_out_buckets _ _ _ _ Hbatch) as Hpm.
  set (R := pm_max_out_size cached) in *.
  (* every bucket that came back, at the position of a leaf of the output *)
  assert (Hbucket : forall p x j y,
             subtree _out p = Some (Leaf x) ->
             nth_error (filters.children outs') j = Some y ->
             exists b,
               jtu.tree_map false
                 (jax.batch_leaf n (py_int (Z.of_nat j - Z.of_nat R))) b = Ok y
               /\ jtu.tree_map false
                    (jax.pmap_batch_leaf n (py_int (Z.of_nat j - Z.of_nat R))) b
                  = Ok y
               /\ (forall a, subtree _out_axes p = Some (Leaf a) ->
                    subtree b p
                    = Some (if py_eq_int (Leaf a) (Z.of_nat j - Z.of_nat R)
                            then Leaf x else PNone))
               /\ (subtree _out_axes p = Some PNone -> subtree b p = Some PNone)).
  { intros p x j y Hx Hy.
    destruct (Hbwd j y Hy) as (b & Hb & Hj & Hby).
    destruct (Hpm j y Hy) as (b' & Hb' & _ & Hby').
    rewrite Hb in Hb'. injection Hb' as <-.
    destruct (mapM_nth_inv _ _ _ Hmap _ _ Hb) as (i' & Hi' & HF).
    rewrite (proj2 (range_symmetric R j) Hj) in Hi'. injection Hi' as <-.
    exists b. split; [exact Hby|]. split; [exact Hby'|].
    apply (bucket_at _ _ _ _ _ _ HF Hx). }
  exists k, dummy0, static, cached, dynamic, n, example,
    (filters.children outs'), dyn, stat, nonpmapd, t, f, args_, dummy,
    out_axes, _args, _out, _out_axes.
  split; [reflexivity|]. split; [exact Hpart0|].
  split; [cbn [backend_log]; rewrite Hlog4; reflexivity|].
  repeat (split; [assumption|]).
  split.
  - (* a leaf with an integer axis *)
    intros p x a i Hx Ha Hi.
    assert (Hx' : subtree _out p = Some (Leaf x)).
    { unfold leaf_at in Hx. destruct (subtree _out p) as [[x'| |]|];
        try discriminate. congruence. }
    destruct (tree_map_subtree _ _ _ _ _ Hchk _ Ha) as (c0 & Hc0 & _).
    cbn [jtu.tree_map] in Hc0.
    pose proof (check_map_out_axis_Ok _ _ _ _ Hc0 Hi) as Hrange.
    set (k0 := Z.to_nat (i + Z.of_nat R)).
    assert (Hk : k0 < 2 * R) by (unfold k0; lia).
    assert (Hki : (Z.of_nat k0 - Z.of_nat R)%Z = i) by (unfold k0; lia).
    destruct (mapM_nth _ _ _ Hmap _ _ (proj2 (range_symmetric R k0) Hk))
      as (b0 & _ & Hb0).
    destruct (Hfwd k0 b0 Hb0 Hk) as (y & Hy & _).
    destruct (Hbucket p x k0 y Hx' Hy) as (b & Hby & Hbypm & Hba & _).
    pose proof (Hba a Ha) as Hbp. rewrite Hki in Hbp, Hby, Hbypm.
    rewrite (proj2 (py_eq_int_spec (Leaf a) i) Hi) in Hbp.
    pose proof (pmap_bucket_axis _ _ _ _ _ _ Hbypm Hbp) as Hnonneg.
    destruct (proj2 (batched_bucket_at _ _ _ _ p Hby) x Hbp)
      as (v & j & Hv & Hj & Hyp).
    pose proof (canonicalize_axis_nonneg _ _ _ Hj Hnonneg) as ->.
    pose proof (canonicalize_axis_lt _ _ _ Hj) as Hjlt.
    exists v, k0, y.
    split; [lia|]. split; [unfold k0; lia|].
    split; [exact Hv|]. split; [lia|]. split; [exact Hy|].
    split; [unfold leaf_at; rewrite Hyp; reflexivity|].
    assert (Hbefore : forall j' t',
               j' < k0 ->
               nth_error (filters.children outs' ++ [nonpmapd]) j' = Some t' ->
               subtree t' p = Some PNone).
    { intros j' t' Hj' Ht'.
      assert (Hlt : j' < length (filters.children outs')) by lia.
      rewrite nth_error_app1 in Ht' by exact Hlt.
      destruct (Hbucket p x j' t' Hx' Ht') as (b' & Hby' & _ & Hba' & _).
      pose proof (Hba' a Ha) as Hbp'.
      assert (Hne : py_eq_int (Leaf a) (Z.of_nat j' - Z.of_nat R) = false).
      { unfold py_eq_int. rewrite Hi. apply Z.eqb_neq. lia. }
      rewrite Hne in Hbp'.
      apply (proj1 (batched_bucket_at _ _ _ _ p Hby') Hbp'). }
    assert (Hnth : nth_error (filters.children outs' ++ [nonpmapd]) k0 = Some y).
    { rewrite nth_error_app1; [exact Hy | apply nth_error_Some; congruence]. }
    unfold leaf_at.
    rewrite (combine_position _ _ p k0 y _ H7 Hbefore Hnth Hyp). reflexivity.
  - (* a leaf whose axis is None *)
    intros p x Hx Ha.
    assert (Hx' : subtree _out p = Some (Leaf x)).
    { unfold leaf_at in Hx. destruct (subtree _out p) as [[x'| |]|];
        try discriminate. congruence. }
    destruct (tree_map_subtree _ _ _ _ _ Hnone _ Ha) as (m0 & Hm0 & Hmp).
    cbn in Hm0. injection Hm0 as <-.
    destruct (filter_mask_at _ _ _ _ _ _ Hfil Hmp) as (s & Hs & Hnp).
    rewrite Hx' in Hs. injection Hs as <-. cbn in Hnp.
    destruct stat as [static_nonpmapd]. cbn [value] in *.
    pose proof (proj1 (hashable_partition_combine _ _ _ _ Hpart H6 p) x Hnp)
      as Hnon.
    split; [unfold leaf_at; rewrite Hnon; reflexivity|].
    assert (Hbefore : forall j' t',
               j' < length (filters.children outs') ->
               nth_error (filters.children outs' ++ [nonpmapd]) j' = Some t' ->
               subtree t' p = Some PNone).
    { intros j' t' Hj' Ht'.
      rewrite nth_error_app1 in Ht' by exact Hj'.
      destruct (Hbucket p x j' t' Hx' Ht') as (b' & Hby' & _ & _ & Hbn).
      apply (proj1 (batched_bucket_at _ _ _ _ p Hby') (Hbn Ha)). }
    assert (Hnth : nth_error (filters.children outs' ++ [nonpmapd])
                     (length (filters.children outs')) = Some nonpmapd).
    { rewrite nth_error_app2, Nat.sub_diag by lia. reflexivity. }
    unfold leaf_at.
    rewrite (combine_position _ _ p _ nonpmapd _ H7 Hbefore Hnth Hnon).
    reflexivity.
Qed.

(** ** What a call does to the state *)

Lemma compile_key_eq (E : env) (k : key) :
  compile_key E k = compile_cache (body_of_key E) k.
Proof. destruct k. reflexivity. Qed.

Lemma app_one_neq {A : Type} (l : list A) (x : A) : l ++ [x] <> l.
Proof.
  intros H. apply (f_equal (@length A)) in H.
  rewrite length_app in H. simpl in H. lia.
Qed.

(** A call with a key asks the cache for the entry of the key; what it
    leaves of the table and of the counter is what the cache left, and it
    makes one request of the backend when it obtained an entry, none when it
    did not. *)
Lemma pmap_call_effect (E : env) (self : _PmapWrapper.t) (is_lower : bool)
  (args : list pytree) (k : key) (dynamic : pytree) (st st' : state)
  (r : result outcome) :
  call_key E self args = Ok (k, dynamic) ->
  _PmapWrapper._call E self is_lower args [] st = (r, st') ->
  exists rc st1,
    compile_key E k st = (rc, st1)
    /\ cache st' = cache st1
    /\ compiles st' = compiles st1
    /\ backend_log st1 = backend_log st
    /\ match rc with
       | Ok c =>
           backend_log st' = backend_log st ++ [request is_lower c dynamic]
           /\ (if is_lower then lower_cached E c dynamic
               else
                 '(pmapd, dynamic_nonpmapd, static_nonpmapd) <--
                     run_cached E c dynamic ;;
                 nonpmapd <-- liftR (compile_utils.hashable_combine
                                       dynamic_nonpmapd
                                       (value static_nonpmapd)) ;;
                 out <-- liftR (filters.combine (pmapd ++ [nonpmapd])) ;;
                 retM (Returned out)) st1 = (r, st')
       | Raise e => backend_log st' = backend_log st /\ r = Raise e
       end.
Proof.
  intros Hkey. rewrite call_by_key, Hkey. unfold bindM at 1.
  destruct (compile_key E k st) as [[c|e] st1] eqn:Hc; intros H.
  - exists (Ok c), st1.
    assert (Hlog : backend_log st1 = backend_log st).
    { rewrite compile_key_eq in Hc. apply (compile_cache_log _ _ _ _ _ Hc). }
    assert (Hst : cache st' = cache st1 /\ compiles st' = compiles st1
                  /\ backend_log st'
                     = backend_log st1 ++ [request is_lower c dynamic]).
    { revert H. destruct is_lower.
      - unfold lower_cached, bindM, logM, liftR, retM.
        destruct (jax.pmap_call _ _ _ _ _ _ _); intros H; injection H as _ <-;
          auto.
      - unfold run_cached, bindM, logM, liftR, retM.
        destruct (jax.pmap_call _ _ _ _ _ _ _) as [[[pmapd dn] sn]|e];
          [|intros H; injection H as _ <-; auto].
        destruct (compile_utils.hashable_combine dn (value sn));
          [|intros H; injection H as _ <-; auto].
        destruct (filters.combine _); intros H; injection H as _ <-; auto. }
    destruct Hst as (H1 & H2 & H3). rewrite Hlog in H3.
    repeat (split; [assumption || reflexivity|]). exact H.
  - injection H as <- <-. exists (Raise e), st1.
    rewrite compile_key_eq in Hc.
    rewrite (compile_cache_log _ _ _ _ _ Hc).
    repeat (split; [reflexivity|]). reflexivity.
Qed.

(** ** The check of the output axes, at the call *)

(** The function that [jax.pmap] runs raises at the check when resolving the
    output axes gives a leaf that the check refuses. *)
Lemma fun_wrapped_rejects (E : env) (R : nat)
  (static _dynamic t f args_ dummy out_axes : pytree) (_args : list pytree)
  (_out _out_axes : pytree) (p : list nat) (a : atom) :
  filters.combine [_dynamic; static] = Ok t ->
  unpack 4 t = Ok [f; args_; dummy; out_axes] ->
  star args_ = Ok _args ->
  call E f _args = Ok _out ->
  _resolve_axes E _out out_axes = Ok _out_axes ->
  subtree _out_axes p = Some (Leaf a) ->
  (forall z, as_int (Leaf a) = Some z ->
             (z < - Z.of_nat R \/ Z.of_nat R <= z)%Z) ->
  exists e,
    fun_wrapped E static R _dynamic = Raise e
    /\ (e = out_axis_bounds_error \/ e = out_axis_kind_error).
Proof.
  intros Hcomb Hun Hstar Hcall Hres Hp Hbad.
  assert (Hleaf : exists e, _check_map_out_axis R (Leaf a) = Raise e).
  { destruct (as_int (Leaf a)) as [z|] eqn:Hz.
    - exists out_axis_bounds_error.
      apply (check_map_out_axis_bounds R (Leaf a) z Hz (Hbad z eq_refl)).
    - exists out_axis_kind_error.
      apply (check_map_out_axis_kind R (Leaf a) Hz). discriminate. }
  destruct (jtu.tree_map false (_check_map_out_axis R) _out_axes)
    as [r|e] eqn:Hchk.
  - destruct (tree_map_subtree _ _ _ _ _ Hchk _ Hp) as (y & Hy & _).
    simpl in Hy. destruct Hleaf as (e & He). congruence.
  - exists e. split.
    + unfold fun_wrapped. rewrite Hcomb. cbn [bind]. rewrite Hun. cbn [bind].
      rewrite Hstar. cbn [bind]. rewrite Hcall. cbn [bind].
      rewrite Hres. cbn [bind]. rewrite Hchk. reflexivity.
    + destruct (tree_map_Raise _ _ _ _ Hchk) as (x & Hx).
      apply (check_map_out_axis_errors R x e Hx).
Qed.

Lemma batched_ranks_leaf_ranks (out : pytree) :
  batched_ranks out = map S (leaf_ranks out).
Proof.
  unfold batched_ranks, leaf_ranks.
  induction (jtu.tree_leaves out) as [|a l IH]; simpl; [reflexivity|].
  rewrite map_app, IH. destruct a; reflexivity.
Qed.

(** What the compiled function of a call runs, and the [R] of its entry. *)
Lemma entry_run_ties (E : env) (self : _PmapWrapper.t) (args : list pytree)
  (k : key) (dynamic : pytree) (st st1 : state) (cached : pmapped) (n : nat)
  (example t f args_ dummy out_axes : pytree) (_args : list pytree)
  (_out : pytree) :
  cache_sound E st ->
  call_key E self args = Ok (k, dynamic) ->
  compile_key E k st = (Ok cached, st1) ->
  jax.pmap_split_args (pm_in_axes cached) (pm_axis_size cached) dynamic
  = Ok (n, example) ->
  filters.combine [example; pm_static cached] = Ok t ->
  unpack 4 t = Ok [f; args_; dummy; out_axes] ->
  star args_ = Ok _args ->
  call E f _args = Ok _out ->
  py_tree f = py_tree (_PmapWrapper._fun self)
  /\ py_tree out_axes = py_tree (_PmapWrapper._out_axes self)
  /\ pm_max_out_size cached = list_max (batched_ranks _out).
Proof.
  intros Hsound Hkey Hc Hsplit Hcomb Hun Hstar Hcall.
  destruct (entry_of_call _ _ _ _ _ _ _ _ Hsound Hkey Hc)
    as (in_axes & dummy0 & static & ia & z0 & Hres0 & Hpart0 & Hia & Hiapy & Hz0
        & Hsz & Hstat & Hlayout & _ & Hlog4
        & (n' & example' & t' & f' & args_' & d1' & d2' & _args' & _out'
           & Hsplit' & Hcomb' & Hun' & Hstar' & Hcall' & HR)).
  pose proof (pmap_split_args_Ok _ _ _ _ Hsplit) as Hsplit2.
  rewrite Hsplit2 in Hsplit'. injection Hsplit' as <- <-.
  rewrite Hcomb in Hcomb'. injection Hcomb' as <-.
  rewrite Hun in Hun'. injection Hun' as <- <- <- <-.
  rewrite Hstar in Hstar'. injection Hstar' as <-.
  rewrite Hcall in Hcall'. injection Hcall' as <-.
  rewrite Hia in Hsplit2.
  destruct (run_ties _ _ _ _ _ _ _ _ _ _ _ _ _ _ _ _ _
              Hpart0 Hstat Hsplit2 Hcomb Hun) as [Hf Hoa].
  auto.
Qed.

Lemma pmap_call_rejects (E : env) (self : _PmapWrapper.t) (is_lower : bool)
  (args : list pytree) (st st' : state) (r : result outcome) (k : key)
  (dynamic : pytree) (cached : pmapped) (n : nat)
  (example t f args_ dummy out_axes : pytree) (_args : list pytree)
  (_out _out_axes : pytree) :
  cache_sound E st ->
  call_key E self args = Ok (k, dynamic) ->
  _PmapWrapper._call E self is_lower args [] st = (r, st') ->
  backend_log st' = backend_log st ++ [request is_lower cached dynamic] ->
  jax.pmap_split_args (pm_in_axes cached) (pm_axis_size cached) dynamic
  = Ok (n, example) ->
  filters.combine [example; pm_static cached] = Ok t ->
  unpack 4 t = Ok [f; args_; dummy; out_axes] ->
  star args_ = Ok _args ->
  call E f _args = Ok _out ->
  _resolve_axes E _out out_axes = Ok _out_axes ->
  py_tree f = py_tree (_PmapWrapper._fun self)
  /\ py_tree out_axes = py_tree (_PmapWrapper._out_axes self)
  /\ pm_max_out_size cached = list_max (map S (leaf_ranks _out))
  /\ forall p a,
      subtree _out_axes p = Some (Leaf a) ->
      (forall z, as_int (Leaf a) = Some z ->
                 (z < - Z.of_nat (pm_max_out_size cached)
                  \/ Z.of_nat (pm_max_out_size cached) <= z)%Z) ->
      exists e,
        r = Raise e
        /\ (e = out_axis_bounds_error \/ e = out_axis_kind_error)
        /\ is_value_error e = true.
Proof.
  intros Hsound Hkey Hcall0 Hlog Hsplit Hcomb Hun Hstar Hcall Hres.
  destruct (pmap_call_effect _ _ _ _ _ _ _ _ _ Hkey Hcall0)
    as (rc & st1 & Hc & _ & _ & Hlog1 & Hrc).
  destruct rc as [c|e0].
  2:{ destruct Hrc as [Hl _]. rewrite Hl in Hlog.
      symmetry in Hlog. destruct (app_one_neq _ _ Hlog). }
  destruct Hrc as [Hl Hrun]. rewrite Hl in Hlog.
  apply app_inv_head in Hlog. injection Hlog as Hreq.
  apply request_inj in Hreq. destruct Hreq as [-> _].
  destruct (entry_run_ties _ _ _ _ _ _ _ _ _ _ _ _ _ _ _ _ _
              Hsound Hkey Hc Hsplit Hcomb Hun Hstar Hcall) as (Hf & Hoa & HR).
  split; [exact Hf|]. split; [exact Hoa|].
  split; [rewrite HR, batched_ranks_leaf_ranks; reflexivity|].
  intros p a Hp Hbad.
  destruct (fun_wrapped_rejects E (pm_max_out_size cached) _ _ _ _ _ _ _ _ _ _
              p a Hcomb Hun Hstar Hcall Hres Hp Hbad) as (e & He & Hcase).
  assert (Hpm : forall X, @jax.pmap_call X = @jax.pmap_call X) by reflexivity.
  assert (Hraise : jax.pmap_call
                     (fun_wrapped E (pm_static cached) (pm_max_out_size cached))
                     (pm_in_axes cached) (pm_out_axes cached)
                     (pm_axis_name cached) (pm_axis_size cached)
                     (pm_kwargs cached) dynamic = Raise e).
  { unfold jax.pmap_call. rewrite Hsplit. cbn [bind]. rewrite He. reflexivity. }
  exists e. split; [|split; [exact Hcase|]].
  - revert Hrun. destruct is_lower.
    + unfold lower_cached, bindM, logM, liftR. rewrite Hraise.
      intros H. injection H as <- _. reflexivity.
    + unfold run_cached, bindM, logM, liftR. rewrite Hraise.
      intros H. injection H as <- _. reflexivity.
  - destruct Hcase as [-> | ->]; reflexivity.
Qed.

(* ================================================================= *)
(** * The buckets of the parallel map, end to end *)

(** C4.  (1) A run of [fun_wrapped], the function that [jax.pmap] compiles,
    returns [2R] buckets; the leaves of the [k]-th bucket are exactly the
    leaves of the output of the function that are under an entry [k - R] of
    the resolved output axes (a bucket without such leaves is returned all
    the same), and the leaves under [None] go to the part that is not mapped.
    (2) The entry that [_filter_pmap_cache] builds gives [jax.pmap] the output
    axes [(list(range(-R, R)), None, None)]: [2R] axes, the [k]-th being
    [k - R], and two channels that are not mapped.  (3) In every call of a
    wrapper that returns, on a table that holds compiled entries only: the
    compiled function was given the dynamic part of the wrapper's function,
    the arguments and the wrapper's output axes; the function it ran and the
    output axes it resolved are the wrapper's (up to what Python takes for
    equal, the entry being shared by all calls with an equal key); [R] is the
    largest number of dimensions of an array-like output once it is mapped; a
    leaf of the output of the function whose resolved axis is the integer [i]
    has [0 <= i < R] and is, in the output of the call, the leaf that
    [jax.pmap] returned in bucket [i + R], with the mapped dimension at axis
    [i]; a leaf whose resolved axis is [None] is in the output of the call as
    the function returned it: nothing is moved after [jax.pmap].  (4) The
    table holds compiled entries only when empty, and still does after any
    call. *)
Theorem pmap_buckets_fixed_layout (E : env) :
  (forall static R _dynamic pmapd dyn stat,
      fun_wrapped E static R _dynamic = Ok (pmapd, dyn, stat) ->
      exists t f args_ dummy out_axes _args _out _out_axes _nonpmapd,
        filters.combine [_dynamic; static] = Ok t
        /\ unpack 4 t = Ok [f; args_; dummy; out_axes]
        /\ star args_ = Ok _args
        /\ call E f _args = Ok _out
        /\ _resolve_axes E _out out_axes = Ok _out_axes
        /\ length pmapd = 2 * R
        /\ (forall k, k < 2 * R ->
            exists bucket,
              nth_error pmapd k = Some bucket
              /\ forall p x,
                  leaf_at bucket p = Some x
                  <-> (leaf_at _out p = Some x
                       /\ exists a, governing _out_axes p = Some (Leaf a)
                                    /\ as_int (Leaf a)
                                       = Some (Z.of_nat k - Z.of_nat R)%Z))
        /\ compile_utils.hashable_partition _nonpmapd filters.is_array
           = Ok (dyn, value stat)
        /\ (forall p x,
               leaf_at _nonpmapd p = Some x
               <-> (leaf_at _out p = Some x
                    /\ governing _out_axes p = Some PNone)))
  /\ (forall id fun_names leaves treedef in_axes axis_name axis_size pmapkwargs c,
         _filter_pmap_cache_body E id fun_names leaves treedef in_axes axis_name
           axis_size pmapkwargs = Ok c ->
         exists axes,
           pm_out_axes c = TupleOf [PNode KList axes; PNone; PNone]
           /\ length axes = 2 * pm_max_out_size c
           /\ forall k, k < 2 * pm_max_out_size c ->
                nth_error axes k
                = Some (py_int (Z.of_nat k - Z.of_nat (pm_max_out_size c))))
  /\ (forall self args st st' out,
         cache_sound E st ->
         _PmapWrapper.__call__ E self args [] st = (Ok (Returned out), st') ->
         exists k dummy0 static cached dynamic n example pmapd dyn stat nonpmapd
                t f args_ dummy out_axes _args _out _out_axes,
           call_key E self args = Ok (k, dynamic)
           /\ filters.partition
                (TupleOf [_PmapWrapper._fun self; TupleOf args; dummy0;
                          _PmapWrapper._out_axes self])
                (filters.Where filters.is_array) = Ok (dynamic, static)
           /\ backend_log st' = backend_log st ++ [Pmapped cached dynamic]
           /\ py_tree (pm_static cached) = py_tree static
           /\ pm_out_axes cached
              = TupleOf
                  [PNode KList
                     (map py_int (range (- Z.of_nat (pm_max_out_size cached))
                                    (Z.of_nat (pm_max_out_size cached))));
                   PNone; PNone]
           /\ jax.pmap_call
                (fun_wrapped E (pm_static cached) (pm_max_out_size cached))
                (pm_in_axes cached) (pm_out_axes cached) (pm_axis_name cached)
                (pm_axis_size cached) (pm_kwargs cached) dynamic
              = Ok (pmapd, dyn, stat)
           /\ jax.pmap_split_args (pm_in_axes cached) (pm_axis_size cached)
                dynamic = Ok (n, example)
           /\ filters.combine [example; pm_static cached] = Ok t
           /\ unpack 4 t = Ok [f; args_; dummy; out_axes]
           /\ py_tree f = py_tree (_PmapWrapper._fun self)
           /\ py_tree out_axes = py_tree (_PmapWrapper._out_axes self)
           /\ star args_ = Ok _args
           /\ call E f _args = Ok _out
           /\ _resolve_axes E _out out_axes = Ok _out_axes
           /\ pm_max_out_size cached = list_max (batched_ranks _out)
           /\ length pmapd = 2 * pm_max_out_size cached
           /\ compile_utils.hashable_combine dyn (value stat) = Ok nonpmapd
           /\ filters.combine (pmapd ++ [nonpmapd]) = Ok out
           /\ (forall p x a i,
                  leaf_at _out p = Some x ->
                  subtree _out_axes p = Some (Leaf a) ->
                  as_int (Leaf a) = Some i ->
                  exists v j bucket,
                    (0 <= i < Z.of_nat (pm_max_out_size cached))%Z
                    /\ j = Z.to_nat i + pm_max_out_size cached
                    /\ jax.leaf_aval (Leaf x) = Ok v
                    /\ Z.to_nat i <= length (shape v)
                    /\ nth_error pmapd j = Some bucket
                    /\ leaf_at bucket p
                       = Some (AArray
                                 (mk_aval
                                    (jnp.insert_dim (Z.to_nat i) n (shape v))
                                    (dtype v)))
                    /\ leaf_at out p
                       = Some (AArray
                                 (mk_aval
                                    (jnp.insert_dim (Z.to_nat i) n (shape v))
                                    (dtype v))))
           /\ (forall p x,
                  leaf_at _out p = Some x ->
                  subtree _out_axes p = Some PNone ->
                  leaf_at nonpmapd p = Some x /\ leaf_at out p = Some x))
  /\ cache_sound E empty_state
  /\ (forall self is_lower args kwargs st st' r,
         cache_sound E st ->
         _PmapWrapper._call E self is_lower args kwargs st = (r, st') ->
         cache_sound E st').
Proof.
  split; [|split; [|split; [|split]]].
  - intros static R _dynamic pmapd dyn stat. apply fun_wrapped_buckets.
  - intros id fun_names leaves treedef in_axes axis_name axis_size pmapkwargs c H.
    destruct (pmap_out_axes_layout _ _ _ _ _ _ _ _ _ _ H) as (Hl & _).
    exists (map py_int (range (- Z.of_nat (pm_max_out_size c))
                          (Z.of_nat (pm_max_out_size c)))).
    split; [exact Hl|].
    destruct (range_symmetric (pm_max_out_size c) 0) as [Hlen _].
    split; [rewrite length_map; exact Hlen|].
    intros k Hk. rewrite nth_error_map.
    rewrite (proj2 (range_symmetric (pm_max_out_size c) k) Hk). reflexivity.
  - intros self args st st' out Hs. unfold _PmapWrapper.__call__.
    destruct (_PmapWrapper._filter_warning self);
      apply (pmap_call_returns E self args st st' out Hs).
  - apply cache_sound_empty.
  - intros self is_lower args kwargs st st' r. apply call_keeps_cache_sound.
Qed.

Lemma pmap_buckets_fixed_layout_witness :
  exists k dummy0 static cached dynamic n example pmapd dyn stat nonpmapd
         t f args_ dummy out_axes _args _out _out_axes,
    call_key example_env pmap_identity_out1 [py_array [2; 3] "float32"] = Ok (k, dynamic)
    /\ filters.partition
         (TupleOf [_PmapWrapper._fun pmap_identity_out1; TupleOf [py_array [2; 3] "float32"]; dummy0;
                   _PmapWrapper._out_axes pmap_identity_out1])
         (filters.Where filters.is_array) = Ok (dynamic, static)
    /\ backend_log
         (snd (_PmapWrapper.__call__ example_env pmap_identity_out1
                 [py_array [2; 3] "float32"] [] empty_state))
       = backend_log empty_state ++ [Pmapped cached dynamic]
    /\ py_tree (pm_static cached) = py_tree static
    /\ pm_out_axes cached
       = TupleOf
           [PNode KList
              (map py_int (range (- Z.of_nat (pm_max_out_size cached))
                             (Z.of_nat (pm_max_out_size cached))));
            PNone; PNone]
    /\ jax.pmap_call
         (fun_wrapped example_env (pm_static cached) (pm_max_out_size cached))
         (pm_in_axes cached) (pm_out_axes cached) (pm_axis_name cached)
         (pm_axis_size cached) (pm_kwargs cached) dynamic
       = Ok (pmapd, dyn, stat)
    /\ jax.pmap_split_args (pm_in_axes cached) (pm_axis_size cached)
         dynamic = Ok (n, example)
    /\ filters.combine [example; pm_static cached] = Ok t
    /\ unpack 4 t = Ok [f; args_; dummy; out_axes]
    /\ py_tree f = py_tree (_PmapWrapper._fun pmap_identity_out1)
    /\ py_tree out_axes = py_tree (_PmapWrapper._out_axes pmap_identity_out1)
    /\ star args_ = Ok _args
    /\ call example_env f _args = Ok _out
    /\ _resolve_axes example_env _out out_axes = Ok _out_axes
    /\ pm_max_out_size cached = list_max (batched_ranks _out)
    /\ length pmapd = 2 * pm_max_out_size cached
    /\ compile_utils.hashable_combine dyn (value stat) = Ok nonpmapd
    /\ filters.combine (pmapd ++ [nonpmapd]) = Ok (py_array [3; 2] "float32")
    /\ (forall p x a i,
           leaf_at _out p = Some x ->
           subtree _out_axes p = Some (Leaf a) ->
           as_int (Leaf a) = Some i ->
           exists v j bucket,
             (0 <= i < Z.of_nat (pm_max_out_size cached))%Z
             /\ j = Z.to_nat i + pm_max_out_size cached
             /\ jax.leaf_aval (Leaf x) = Ok v
             /\ Z.to_nat i <= length (shape v)
             /\ nth_error pmapd j = Some bucket
             /\ leaf_at bucket p
                = Some (AArray
                          (mk_aval
                             (jnp.insert_dim (Z.to_nat i) n (shape v))
                             (dtype v)))
             /\ leaf_at (py_array [3; 2] "float32") p
                = Some (AArray
                          (mk_aval
                             (jnp.insert_dim (Z.to_nat i) n (shape v))
                             (dtype v))))
    /\ (forall p x,
           leaf_at _out p = Some x ->
           subtree _out_axes p = Some PNone ->
           leaf_at nonpmapd p = Some x /\ leaf_at (py_array [3; 2] "float32") p = Some x).
Proof.
  apply (proj1 (proj2 (proj2 (pmap_buckets_fixed_layout example_env)))
           pmap_identity_out1 [py_array [2; 3] "float32"] empty_state
           (snd (_PmapWrapper.__call__ example_env pmap_identity_out1
                   [py_array [2; 3] "float32"] [] empty_state))
           (py_array [3; 2] "float32") (cache_sound_empty example_env)).
  vm_compute. reflexivity.
Defined.

(* ================================================================= *)
(** * The check of the output axes of the parallel map *)

(** With [out_axes=0] the parallel map of a function that returns a scalar
    is accepted: the output has one leaf, of rank [0], so that the maximum
    output leaf rank is [0] and the axis [0] lies outside [[-0, 0)]; yet the
    call on an array of shape [(3,)] returns an array of shape [(3,)]. *)
Lemma pmap_scalar_out_axis_0_accepted :
  call example_env scalar_fun [py_array [] "float32"]
  = Ok (py_array [] "float32")
  /\ leaf_ranks (py_array [] "float32") = [0]
  /\ list_max (leaf_ranks (py_array [] "float32")) = 0
  /\ ~ (- Z.of_nat (list_max (leaf_ranks (py_array [] "float32"))) <= 0
        < Z.of_nat (list_max (leaf_ranks (py_array [] "float32"))))%Z
  /\ _resolve_axes example_env (py_array [] "float32")
       (_PmapWrapper._out_axes pmap_scalar_out0) = Ok (py_int 0)
  /\ fst (_PmapWrapper.__call__ example_env pmap_scalar_out0
            [py_array [3] "float32"] [] empty_state)
     = Ok (Returned (py_array [3] "float32"))
  /\ map (fun kc => pm_max_out_size (snd kc))
       (cache (snd (_PmapWrapper.__call__ example_env pmap_scalar_out0
                      [py_array [3] "float32"] [] empty_state)))
     = [1].
Proof.
  repeat split; try reflexivity.
  simpl. lia.
Qed.

(** C5.  [_check_map_out_axis] raises a [ValueError] on an integer outside
    [[-R, R)] and on anything that is neither an integer nor [None].  At a
    call of the parallel-map wrapper, [R] is the [max_out_size] of the entry
    that the call obtained for its key: one more than the maximum rank of the
    array-like leaves of the output of the wrapped function on one element
    of the mapped arguments, that is the maximum rank of the output leaves
    after mapping ([0] when there is no such leaf).  When resolving the
    output axes of the wrapper against that output gives a leaf that is an
    integer outside [[-R, R)], or neither an integer nor [None], the call
    raises one of the two [ValueError]s of the check.  For a function that
    returns a scalar [R] is [1]: with [out_axes=1] the call raises the bounds
    error, for every size of the mapped axis, and with [out_axes=0] it
    returns. *)
Theorem pmap_out_axes_are_checked (E : env) :
  (forall R x z,
      as_int x = Some z -> (z < - Z.of_nat R \/ Z.of_nat R <= z)%Z ->
      _check_map_out_axis R x = Raise out_axis_bounds_error)
  /\ (forall R x,
         as_int x = None -> x <> PNone ->
         _check_map_out_axis R x = Raise out_axis_kind_error)
  /\ is_value_error out_axis_bounds_error = true
  /\ is_value_error out_axis_kind_error = true
  /\ (forall self is_lower args st st' r k dynamic cached n example t f args_
             dummy out_axes _args _out _out_axes,
         cache_sound E st ->
         call_key E self args = Ok (k, dynamic) ->
         _PmapWrapper._call E self is_lower args [] st = (r, st') ->
         backend_log st'
         = backend_log st ++ [request is_lower cached dynamic] ->
         jax.pmap_split_args (pm_in_axes cached) (pm_axis_size cached) dynamic
         = Ok (n, example) ->
         filters.combine [example; pm_static cached] = Ok t ->
         unpack 4 t = Ok [f; args_; dummy; out_axes] ->
         star args_ = Ok _args ->
         call E f _args = Ok _out ->
         _resolve_axes E _out out_axes = Ok _out_axes ->
         py_tree f = py_tree (_PmapWrapper._fun self)
         /\ py_tree out_axes = py_tree (_PmapWrapper._out_axes self)
         /\ pm_max_out_size cached = list_max (map S (leaf_ranks _out))
         /\ forall p a,
             subtree _out_axes p = Some (Leaf a) ->
             (forall z, as_int (Leaf a) = Some z ->
                        (z < - Z.of_nat (pm_max_out_size cached)
                         \/ Z.of_nat (pm_max_out_size cached) <= z)%Z) ->
             exists e,
               r = Raise e
               /\ (e = out_axis_bounds_error \/ e = out_axis_kind_error)
               /\ is_value_error e = true)
  /\ (forall n dt,
         exists st,
           _PmapWrapper.__call__ example_env pmap_scalar [py_array [n] dt] []
             empty_state
           = (Raise out_axis_bounds_error, st)
           /\ map (fun kc => pm_max_out_size (snd kc)) (cache st) = [1])
  /\ (forall n dt,
         fst (_PmapWrapper.__call__ example_env pmap_scalar_out0
                [py_array [n] dt] [] empty_state)
         = Ok (Returned (py_array [n] "float32"))).
Proof.
  split; [|split; [|split; [|split; [|split; [|split]]]]].
  - intros R x z. apply check_map_out_axis_bounds.
  - intros R x. apply check_map_out_axis_kind.
  - reflexivity.
  - reflexivity.
  - intros self is_lower args st st' r k dynamic cached n example t f args_
      dummy out_axes _args _out _out_axes.
    apply pmap_call_rejects.
  - intros n dt. eexists.
    cbv -[Nat.eqb]. rewrite !Nat.eqb_refl.
    cbv -[Nat.eqb]. rewrite ?Nat.eqb_refl.
    cbv -[Nat.eqb]. split; reflexivity.
  - intros n dt.
    cbv -[Nat.eqb]. rewrite !Nat.eqb_refl.
    cbv -[Nat.eqb]. rewrite ?Nat.eqb_refl.
    cbv -[Nat.eqb]. reflexivity.
Qed.

Lemma pmap_out_axes_are_checked_witness :
  exists e,
    fst (_PmapWrapper._call example_env pmap_scalar false
           [py_array [3] "float32"] [] empty_state) = Raise e
    /\ (e = out_axis_bounds_error \/ e = out_axis_kind_error)
    /\ is_value_error e = true.
Proof.
  destruct (pmap_out_axes_are_checked example_env)
    as (_ & _ & _ & _ & H & _).
  refine (proj2 (proj2 (proj2
            (H pmap_scalar false [py_array [3] "float32"] empty_state
               (snd (_PmapWrapper._call example_env pmap_scalar false
                       [py_array [3] "float32"] [] empty_state))
               (fst (_PmapWrapper._call example_env pmap_scalar false
                       [py_array [3] "float32"] [] empty_state))
               _
               (TupleOf [PNone; TupleOf [py_array [3] "float32"]; PNone;
                         PNone])
               _ 3
               (TupleOf [PNone; TupleOf [py_array [] "float32"]; PNone;
                         PNone])
               (TupleOf [scalar_fun; TupleOf [py_array [] "float32"];
                         py_int 0; py_int 1])
               scalar_fun (TupleOf [py_array [] "float32"]) (py_int 0)
               (py_int 1) [py_array [] "float32"] (py_array [] "float32")
               (py_int 1) (cache_sound_empty example_env)
               _ _ _ _ _ _ _ _ _))) [] (AInt 1) _ _).
  - reflexivity.
  - reflexivity.
  - cbv. reflexivity.
  - reflexivity.
  - reflexivity.
  - reflexivity.
  - reflexivity.
  - reflexivity.
  - reflexivity.
  - reflexivity.
  - intros z Hz. injection Hz as <-. right. simpl. lia.
Defined.

(* ================================================================= *)
(** * The table of compiled functions over the calls of a program *)













